(** * nestcheck.pandas_functions: summary tables and efficiency gains

    A shallow embedding of [nestcheck/pandas_functions.py]: [summary_df],
    its adapters [summary_df_from_array] and [summary_df_from_list],
    [efficiency_gain_df], [rmse_and_unc] and [array_ratio_std].
    ([summary_df_from_multi], a groupby over [summary_df], is not modelled.)

    numpy's [float64] is IEEE-754 binary64, which is Rocq's primitive
    [float]; every arithmetic step of the source is kept in the order in
    which Python evaluates it, so the definitions compute on concrete
    inputs.  Python exceptions are values of [exn]; a function that can
    raise returns a [result].  The pandas and numpy calls the source makes
    (reductions along an axis, [.loc], ordered categoricals, [sort_index],
    [concat], broadcasting) are modelled by the definitions of the first
    part; the second part states and proves the properties. *)

From Stdlib Require Import Floats Uint63 ZArith List Lia Bool String Ascii.
From Stdlib Require Import Sorting.Sorted Sorting.Permutation.
Import ListNotations.

Local Open Scope string_scope.
Local Open Scope list_scope.

(** ** Exceptions and results *)

(** The [assert] statements of the module, one tag per statement, so that a
    theorem can say which check fired. *)
Inductive assertion : Type :=
  | Assert_axis                 (* summary_df_from_array: axis == 0 or axis == 1 *)
  | Assert_arr_shape            (* summary_df_from_list: arr.shape == (len(names),) *)
  | Assert_true_values_shape    (* summary_df: true_values.shape[0] == df_in.shape[1] *)
  | Assert_true_values_given    (* summary_df: include_true_values needs true_values *)
  | Assert_rmse_true_values     (* summary_df: 'Need to input true values for RMSE!' *)
  | Assert_adjust_nsamp_shape   (* efficiency_gain_df: adjust_nsamp.shape == (len(method_names),) *)
  | Assert_names_values         (* efficiency_gain_df: len(method_names) == len(method_values) *)
  | Assert_rmse_shape.          (* rmse_and_unc: true_values.shape == (values_array.shape[1],) *)

(** ** Python values that reach the keyword options *)

Inductive pyobj : Type :=
  | PyNone
  | PyBool (b : bool)
  | PyInt (n : Z)
  | PyArray (a : list float).   (* a one-dimensional float64 ndarray *)

(** [**kwargs]: a dict from option name to value, in insertion order. *)
Definition dict (V : Type) : Type := list (string * V).

Inductive exn : Type :=
  | TypeError (unexpected : dict pyobj)   (* 'Unexpected **kwargs: %r' % kwargs *)
  | AssertionError (a : assertion)
  | ZeroDivisionError
  | ValueError
  | AttributeError
  | IndexError
  | KeyError.

Inductive result (A : Type) : Type :=
  | Ok (a : A)
  | Raise (e : exn).

Arguments Ok {A} a.
Arguments Raise {A} e.

Definition bind {A B : Type} (r : result A) (k : A -> result B) : result B :=
  match r with
  | Ok a => k a
  | Raise e => Raise e
  end.

Notation "x <- r ;; k" := (bind r (fun x => k))
  (at level 61, r at next level, right associativity).
Notation "' pat <- r ;; k" := (bind r (fun x => match x with pat => k end))
  (at level 61, pat pattern, r at next level, right associativity).

(** [assert cond] *)
Definition py_assert (cond : bool) (a : assertion) : result unit :=
  if cond then Ok tt else Raise (AssertionError a).

(** ** Dictionaries *)

Section Dict.
Context {V : Type}.

Fixpoint dict_get (d : dict V) (k : string) : option V :=
  match d with
  | [] => None
  | (k', v) :: rest => if String.eqb k' k then Some v else dict_get rest k
  end.

Definition dict_del (d : dict V) (k : string) : dict V :=
  filter (fun kv => negb (String.eqb (fst kv) k)) d.

(** [d.pop(k, default)]: the value and the dict without the key. *)
Definition dict_pop (d : dict V) (k : string) (default : V) : V * dict V :=
  (match dict_get d k with Some v => v | None => default end, dict_del d k).

(** [d[k] = v]: overwrite in place, or append (dicts keep insertion order). *)
Fixpoint dict_set (d : dict V) (k : string) (v : V) : dict V :=
  match d with
  | [] => [(k, v)]
  | (k', v') :: rest =>
      if String.eqb k' k then (k', v) :: rest else (k', v') :: dict_set rest k v
  end.

(** [d[k]] *)
Definition dict_getitem (d : dict V) (k : string) : result V :=
  match dict_get d k with Some v => Ok v | None => Raise KeyError end.
End Dict.

Definition dict_keys {V : Type} (d : dict V) : list string := map fst d.

(** Truth value of an option ([if include_rmse:]).  Only a numpy array of
    exactly one element has a truth value: for an empty array, as for one
    of several elements, [bool()] raises [ValueError]. *)
Definition py_truth (o : pyobj) : result bool :=
  match o with
  | PyNone => Ok false
  | PyBool b => Ok b
  | PyInt n => Ok (negb (n =? 0)%Z)
  | PyArray [x] => Ok (negb (PrimFloat.eqb x 0))
  | PyArray _ => Raise ValueError
  end.

(** An option documented as an array: [None], or an object with [.shape].
    Reading [.shape] of a bool or an int raises. *)
Definition py_array_opt (o : pyobj) : result (option (list float)) :=
  match o with
  | PyNone => Ok None
  | PyArray a => Ok (Some a)
  | PyBool _ | PyInt _ => Raise AttributeError
  end.

(** ** float64 arithmetic as numpy and Python perform it *)

Module Np.
Local Open Scope float_scope.

(** int -> float64 (exact below 2^53). *)
Definition of_Z (z : Z) : float :=
  if (z <? 0)%Z then - PrimFloat.of_uint63 (Uint63.of_Z (- z))
  else PrimFloat.of_uint63 (Uint63.of_Z z).

Definition of_nat (n : nat) : float := of_Z (Z.of_nat n).

(** Python 3 [a / b] on ints: true division ([ZeroDivisionError] on 0),
    the quotient of the two floats for ints below 2^53. *)
Definition py_truediv (a b : Z) : result float :=
  if (b =? 0)%Z then Raise ZeroDivisionError else Ok (of_Z a / of_Z b).

(** [x ** 2] on a float64 array: numpy squares, one multiplication. *)
Definition square (x : float) : float := x * x.

(** [np.add.reduce] over a run of float64 entries ([DOUBLE_pairwise_sum]).
    Fewer than eight entries are added one after the other, in order.  A
    contiguous run of eight or more is added in blocks: eight running sums
    take the entries eight at a time, are combined pairwise, and the entries
    left over are added to the result one after the other; above 128
    entries the run is first cut in two halves (the first a multiple of
    eight) which are summed separately.  (When the reduced axis is not
    contiguous in memory numpy adds entry after entry at every length; which
    of the two happens to a table of eight or more rows depends on how
    pandas laid the table out.  The results agree below eight rows, and the
    statements that give the value of a sum allow for either.) *)
Definition sum_in_order (xs : list float) : float :=
  match xs with
  | [] => 0
  | x :: rest => fold_left PrimFloat.add rest x
  end.

Definition sum8 (r : list float) : float :=
  match r with
  | [r0; r1; r2; r3; r4; r5; r6; r7] =>
      ((r0 + r1) + (r2 + r3)) + ((r4 + r5) + (r6 + r7))
  | _ => 0
  end.

(** [for (i = 8; i < n - (n % 8); i += 8) r[j] += a[i + j]] *)
Fixpoint add_blocks (fuel : nat) (r xs : list float) : list float * list float :=
  match fuel with
  | O => (r, xs)
  | S fuel' =>
      if (8 <=? List.length xs)%nat
      then add_blocks fuel' (map (fun p => fst p + snd p) (combine r (firstn 8 xs)))
             (skipn 8 xs)
      else (r, xs)
  end.

Definition blocked_sum (xs : list float) : float :=
  let '(r, rest) := add_blocks (List.length xs) (firstn 8 xs) (skipn 8 xs) in
  fold_left PrimFloat.add rest (sum8 r).

Fixpoint pairwise_sum (fuel : nat) (xs : list float) : float :=
  let n := List.length xs in
  if (n <? 8)%nat then sum_in_order xs
  else if (n <=? 128)%nat then blocked_sum xs
  else match fuel with
       | O => blocked_sum xs
       | S fuel' =>
           let n2 := (n / 2 - (n / 2) mod 8)%nat in
           pairwise_sum fuel' (firstn n2 xs) + pairwise_sum fuel' (skipn n2 xs)
       end.

Definition sum (xs : list float) : float := pairwise_sum (List.length xs) xs.

(** [np.mean] of one column of [n] entries. *)
Definition mean (xs : list float) : float :=
  sum xs / of_nat (List.length xs).

(** [np.std(., ddof=1)] of one column (numpy's [_var]): mean, deviations,
    their squares, sum, division by [max(n - ddof, 0)], square root. *)
Definition std_ddof1 (xs : list float) : float :=
  let arrmean := sum xs / of_nat (List.length xs) in
  let x := map (fun v => v - arrmean) xs in
  let x := map (fun v => v * v) x in
  PrimFloat.sqrt (sum x / of_nat (List.length xs - 1)).
End Np.

(** pandas reductions skip NaN ([skipna=True]): [pandas.core.nanops]. *)
Module Nanops.
Local Open Scope float_scope.

Definition notna (x : float) : bool := negb (PrimFloat.is_nan x).

(** number of non-NaN entries *)
Definition count (xs : list float) : nat := List.length (filter notna xs).

(** NaN entries are replaced by 0 before the sum *)
Definition fill0 (xs : list float) : list float :=
  map (fun x => if notna x then x else 0) xs.

(** [nanmean] *)
Definition nanmean (xs : list float) : float :=
  Np.sum (fill0 xs) / Np.of_nat (count xs).

(** [nanstd(ddof=1)]: two-pass variance; NaN when [count <= ddof]. *)
Definition nanstd (xs : list float) : float :=
  let c := count xs in
  if (c <=? 1)%nat then nan
  else
    let avg := Np.sum (fill0 xs) / Np.of_nat c in
    let sqr := map (fun x => if notna x then Np.square (avg - x) else 0) xs in
    PrimFloat.sqrt (Np.sum sqr / Np.of_nat (c - 1)).
End Nanops.

(** ** Arrays and data frames *)

(** A two-dimensional float64 array of shape [(length nd_rows, nd_ncols)];
    every row has [nd_ncols] entries. *)
Record ndarray2 : Type := { nd_ncols : nat; nd_rows : list (list float) }.

(** The raw table [df_in]: column names and one row per repeat.  The column
    names are meant to be distinct and at least one: what pandas does at
    lines 126-144 with repeated labels, or with none, is not part of the
    functions below, and the statements about a call that returns assume
    neither. *)
Record DataFrame : Type := { df_columns : list string; df_values : list (list float) }.

(** A labelled result table: column names and the rows in index order. *)
Record frame (I : Type) : Type := { columns : list string; rows : list (I * list float) }.

Arguments columns {I} f.
Arguments rows {I} f.

Definition wf_rows (ncols : nat) (rs : list (list float)) : Prop :=
  Forall (fun r => List.length r = ncols) rs.

Definition wf_df (df : DataFrame) : Prop :=
  wf_rows (List.length (df_columns df)) (df_values df).

(** [df_in.shape] *)
Definition shape0 (df : DataFrame) : nat := List.length (df_values df).
Definition shape1 (df : DataFrame) : nat := List.length (df_columns df).

(** [df_in.values] *)
Definition values_of (df : DataFrame) : ndarray2 :=
  {| nd_ncols := shape1 df; nd_rows := df_values df |}.

Definition column (j : nat) (rs : list (list float)) : list float :=
  map (fun r => nth j r nan) rs.

(** A reduction along [axis=0]: one result per column. *)
Definition reduce_axis0 (f : list float -> float) (ncols : nat)
    (rs : list (list float)) : list float :=
  map (fun j => f (column j rs)) (seq 0 ncols).

(** Elementwise binary operation on two one-dimensional arrays of one length. *)
Fixpoint map2 {A B C : Type} (f : A -> B -> C) (xs : list A) (ys : list B) : list C :=
  match xs, ys with
  | x :: xs', y :: ys' => f x y :: map2 f xs' ys'
  | _, _ => []
  end.

(** [a.T] *)
Definition transpose (a : ndarray2) : ndarray2 :=
  {| nd_ncols := List.length (nd_rows a);
     nd_rows := map (fun j => column j (nd_rows a)) (seq 0 (nd_ncols a)) |}.

(** ** Uncertainty primitives *)

(** [rmse_and_unc(values_array, true_values)] *)
Definition rmse_and_unc (values_array : ndarray2) (true_values : list float)
    : result (list float * list float) :=
  _ <- py_assert (List.length true_values =? nd_ncols values_array)%nat
         Assert_rmse_shape ;;
  let errors := map (fun row => map2 PrimFloat.sub row true_values)
                    (nd_rows values_array) in
  let sq_errors := map (map Np.square) errors in
  let sq_errors_mean := reduce_axis0 Np.mean (nd_ncols values_array) sq_errors in
  let sq_errors_mean_unc :=
    map (fun s => (s / PrimFloat.sqrt (Np.of_nat (List.length sq_errors)))%float)
        (reduce_axis0 Np.std_ddof1 (nd_ncols values_array) sq_errors) in
  let rmse := map PrimFloat.sqrt sq_errors_mean in
  let rmse_unc := map2 (fun r u => (0.5 * (1 / r) * u)%float) rmse sq_errors_mean_unc in
  Ok (rmse, rmse_unc).

(** [array_ratio_std]: [** 2] squares and [** 0.5] is numpy's square root. *)
Definition array_ratio_std (values_n sigmas_n values_d sigmas_d : list float)
    : list float :=
  let ratio := map2 PrimFloat.div values_n values_d in
  let rel_n := map Np.square (map2 PrimFloat.div sigmas_n values_n) in
  let rel_d := map Np.square (map2 PrimFloat.div sigmas_d values_d) in
  map2 PrimFloat.mul ratio (map PrimFloat.sqrt (map2 PrimFloat.add rel_n rel_d)).

(** ** Indexes, ordered categoricals and [sort_index] *)

Definition index2 : Type := string * string.
Definition index3 : Type := string * string * string.

Definition index2_eqb (a b : index2) : bool :=
  String.eqb (fst a) (fst b) && String.eqb (snd a) (snd b).

Definition index3_eqb (a b : index3) : bool :=
  String.eqb (fst (fst a)) (fst (fst b)) && String.eqb (snd (fst a)) (snd (fst b))
  && String.eqb (snd a) (snd b).

Section Loc.
Context {I : Type} (eqb : I -> I -> bool).

(** [df.loc[key]] *)
Fixpoint loc (rs : list (I * list float)) (key : I) : option (list float) :=
  match rs with
  | [] => None
  | (k, r) :: rest => if eqb k key then Some r else loc rest key
  end.

Definition loc_getitem (rs : list (I * list float)) (key : I) : result (list float) :=
  match loc rs key with Some r => Ok r | None => Raise KeyError end.

(** [df.loc[key, :] = row]: overwrite the row, or append it (setting with
    enlargement puts a new label last). *)
Fixpoint loc_set (rs : list (I * list float)) (key : I) (row : list float)
    : list (I * list float) :=
  match rs with
  | [] => [(key, row)]
  | (k, r) :: rest =>
      if eqb k key then (k, row) :: rest else (k, r) :: loc_set rest key row
  end.
End Loc.

(** The code of a label in an ordered categorical: its position in
    [categories], -1 when it is not one of them. *)
Fixpoint cat_code (categories : list string) (label : string) : Z :=
  match categories with
  | [] => (-1)%Z
  | c :: rest =>
      if String.eqb c label then 0%Z
      else let n := cat_code rest label in if (n <? 0)%Z then n else (n + 1)%Z
  end.

(** Lexicographic order on the codes of the index levels. *)
Fixpoint lex_leb (a b : list Z) : bool :=
  match a, b with
  | [], _ => true
  | _ :: _, [] => false
  | x :: a', y :: b' => (x <? y)%Z || ((x =? y)%Z && lex_leb a' b')
  end.

Section Sort.
Context {I : Type} (codes : I -> list Z).

Fixpoint insert_row (x : I * list float) (rs : list (I * list float))
    : list (I * list float) :=
  match rs with
  | [] => [x]
  | y :: rest =>
      if lex_leb (codes (fst x)) (codes (fst y)) then x :: y :: rest
      else y :: insert_row x rest
  end.

(** [df.sort_index()]: rows in increasing order of their level codes. *)
Definition sort_index (rs : list (I * list float)) : list (I * list float) :=
  fold_right insert_row [] rs.
End Sort.

Definition calculation_types : list string := ["true values"; "mean"; "std"; "rmse"].
Definition result_types : list string := ["value"; "uncertainty"].

Definition summary_codes (k : index2) : list Z :=
  [cat_code calculation_types (fst k); cat_code result_types (snd k)].

(** ** The summary-table builder *)

Definition is_empty {A : Type} (l : list A) : bool :=
  match l with [] => true | _ => false end.

(** [summary_df(df_in, **kwargs)] *)
Definition summary_df (df_in : DataFrame) (kwargs : dict pyobj) : result (frame index2) :=
  let '(true_values, kwargs) := dict_pop kwargs "true_values" PyNone in
  let '(include_true_values, kwargs) :=
    dict_pop kwargs "include_true_values" (PyBool false) in
  let '(include_rmse, kwargs) := dict_pop kwargs "include_rmse" (PyBool false) in
  if negb (is_empty kwargs) then Raise (TypeError kwargs) else
  true_values <- py_array_opt true_values ;;
  _ <- match true_values with
       | Some tv =>
           py_assert (List.length tv =? shape1 df_in)%nat Assert_true_values_shape
       | None => Ok tt
       end ;;
  (* make the data frame *)
  let df := [("mean", reduce_axis0 Nanops.nanmean (shape1 df_in) (df_values df_in));
             ("std", reduce_axis0 Nanops.nanstd (shape1 df_in) (df_values df_in))] in
  include_true_values <- py_truth include_true_values ;;
  df <- (if include_true_values : bool then
           match true_values with
           | None => Raise (AssertionError Assert_true_values_given)
           | Some tv => Ok (loc_set String.eqb df "true values" tv)
           end
         else Ok df) ;;
  (* add uncertainties *)
  let num_cals := Z.of_nat (shape0 df_in) in
  std <- loc_getitem String.eqb df "std" ;;
  let mean_unc := map (fun s => (s / PrimFloat.sqrt (Np.of_Z num_cals))%float) std in
  std' <- loc_getitem String.eqb df "std" ;;
  q <- Np.py_truediv 1 (2 * (num_cals - 1)) ;;
  let std_unc := map (fun s => (s * PrimFloat.sqrt q)%float) std' in
  (* [df['result type'] = ...] overwrites an input column of that name and
     [set_index] moves it into the index: the row assigned next has one
     value more than the frame has columns *)
  _ <- (if existsb (String.eqb "result type") (df_columns df_in)
        then Raise ValueError else Ok tt) ;;
  let df := map (fun kr => ((fst kr, "value"), snd kr)) df in
  let df := loc_set index2_eqb df ("mean", "uncertainty") mean_unc in
  let df := loc_set index2_eqb df ("std", "uncertainty") std_unc in
  include_rmse <- py_truth include_rmse ;;
  df <- (if include_rmse : bool then
           match true_values with
           | None => Raise (AssertionError Assert_rmse_true_values)
           | Some tv =>
               '(rmse, rmse_unc) <- rmse_and_unc (values_of df_in) tv ;;
               let df := loc_set index2_eqb df ("rmse", "value") rmse in
               Ok (loc_set index2_eqb df ("rmse", "uncertainty") rmse_unc)
           end
         else Ok df) ;;
  (* Ensure correct row order by sorting *)
  Ok {| columns := df_columns df_in; rows := sort_index summary_codes df |}.

(** [df.columns = names] on a frame built from an array *)
Definition set_columns (a : ndarray2) (names : list string) : result DataFrame :=
  if (List.length names =? nd_ncols a)%nat
  then Ok {| df_columns := names; df_values := nd_rows a |}
  else Raise ValueError.

(** [summary_df_from_array(results_array, names, axis=0, **kwargs)] *)
Definition summary_df_from_array (results_array : ndarray2) (names : list string)
    (axis : Z) (kwargs : dict pyobj) : result (frame index2) :=
  _ <- py_assert ((axis =? 0)%Z || (axis =? 1)%Z) Assert_axis ;;
  let df := if (axis =? 1)%Z then transpose results_array else results_array in
  df <- set_columns df names ;;
  summary_df df kwargs.

(** [np.stack(results_list, axis=0)] of arrays already checked to have
    [ncols] entries each; an empty list cannot be stacked. *)
Definition stack (ncols : nat) (results_list : list (list float)) : result ndarray2 :=
  match results_list with
  | [] => Raise ValueError
  | _ => Ok {| nd_ncols := ncols; nd_rows := results_list |}
  end.

(** [summary_df_from_list(results_list, names, **kwargs)] *)
Definition summary_df_from_list (results_list : list (list float))
    (names : list string) (kwargs : dict pyobj) : result (frame index2) :=
  _ <- py_assert (forallb (fun arr => (List.length arr =? List.length names)%nat)
                          results_list) Assert_arr_shape ;;
  a <- stack (List.length names) results_list ;;
  df <- set_columns a names ;;
  summary_df df kwargs.

(** ** The efficiency-gain builder *)

Definition gain_calculation_types : list string :=
  ["true values"; "mean"; "std"; "rmse"; "std efficiency gain"; "rmse efficiency gain"].

Definition gain_codes (method_names : list string) (k : index3) : list Z :=
  [cat_code gain_calculation_types (fst (fst k));
   cat_code ("" :: method_names) (snd (fst k));
   cat_code result_types (snd k)].

(** [xs[i]] on a Python list or array *)
Definition list_getitem {A : Type} (xs : list A) (i : nat) : result A :=
  match nth_error xs i with Some x => Ok x | None => Raise IndexError end.

(** [row *= adjust] for a row of a frame and a one-dimensional array: numpy
    broadcasting, then the result must fit the row's columns. *)
Definition series_imul (row adjust : list float) : result (list float) :=
  if (List.length adjust =? List.length row)%nat then Ok (map2 PrimFloat.mul row adjust)
  else match adjust with
       | [a] => Ok (map (fun x => (x * a)%float) row)
       | _ => Raise ValueError
       end.

(** One pass of [for stat in stats]: the gain rows of one statistic. *)
Definition add_gain (adjust_nsamp : option (list float))
    (base df : list (index2 * list float)) (stat : string)
    : result (list (index2 * list float)) :=
  base_value <- loc_getitem index2_eqb base (stat, "value") ;;
  df_value <- loc_getitem index2_eqb df (stat, "value") ;;
  let ratio := map2 PrimFloat.div base_value df_value in
  base_value <- loc_getitem index2_eqb base (stat, "value") ;;
  base_unc <- loc_getitem index2_eqb base (stat, "uncertainty") ;;
  df_value <- loc_getitem index2_eqb df (stat, "value") ;;
  df_unc <- loc_getitem index2_eqb df (stat, "uncertainty") ;;
  let ratio_unc := array_ratio_std base_value base_unc df_value df_unc in
  let key := String.append stat " efficiency gain" in
  let df := loc_set index2_eqb df (key, "value") (map Np.square ratio) in
  let df := loc_set index2_eqb df (key, "uncertainty")
              (map2 PrimFloat.mul (map (PrimFloat.mul 2) ratio) ratio_unc) in
  match adjust_nsamp with
  | None => Ok df
  | Some a =>
      a0 <- list_getitem a 0 ;;
      let adjust := map (fun x => (a0 / x)%float) (tl a) in
      gain <- loc_getitem index2_eqb df (key, "value") ;;
      gain <- series_imul gain adjust ;;
      let df := loc_set index2_eqb df (key, "value") gain in
      gain_unc <- loc_getitem index2_eqb df (key, "uncertainty") ;;
      gain_unc <- series_imul gain_unc adjust ;;
      Ok (loc_set index2_eqb df (key, "uncertainty") gain_unc)
  end.

Fixpoint add_gains (adjust_nsamp : option (list float))
    (base df : list (index2 * list float)) (stats : list string)
    : result (list (index2 * list float)) :=
  match stats with
  | [] => Ok df
  | stat :: rest =>
      df <- add_gain adjust_nsamp base df stat ;;
      add_gains adjust_nsamp base df rest
  end.

Section EfficiencyGainLoop.
Variables (method_names : list string) (method_values : list (list (list float)))
          (est_names : list string)
          (true_values include_rmse : pyobj) (adjust_nsamp : option (list float)).

(** The body of [for i, method_name in enumerate(method_names)]. *)
Definition method_df (i : nat) (df_dict : dict (list (index2 * list float)))
    : result (list (index2 * list float)) :=
  values_i <- list_getitem method_values i ;;
  df <- summary_df_from_list values_i est_names
          [("true_values", true_values);
           ("include_true_values", PyBool false);
           ("include_rmse", include_rmse)] ;;
  if (i =? 0)%nat then Ok (rows df)
  else
    with_rmse <- py_truth include_rmse ;;
    let stats := "std" :: (if with_rmse : bool then ["rmse"] else []) in
    name0 <- list_getitem method_names 0 ;;
    base <- dict_getitem df_dict name0 ;;
    add_gains adjust_nsamp base (rows df) stats.

Fixpoint method_loop (i : nat) (names : list string)
    (df_dict : dict (list (index2 * list float)))
    : result (dict (list (index2 * list float))) :=
  match names with
  | [] => Ok df_dict
  | method_name :: rest =>
      df <- method_df i df_dict ;;
      method_loop (S i) rest (dict_set df_dict method_name df)
  end.
End EfficiencyGainLoop.

(** The rows of one method's frame under the three-level index
    (calculation type, dynamic settings, result type). *)
Definition frame_rows3 (nd : string * list (index2 * list float))
    : list (index3 * list float) :=
  map (fun kr => ((fst (fst kr), fst nd, snd (fst kr)), snd kr)) (snd nd).

(** [pd.concat(df_dict)] with the levels set to (calculation type, dynamic
    settings, result type); nothing to concatenate is an error. *)
Definition concat (df_dict : dict (list (index2 * list float)))
    : result (list (index3 * list float)) :=
  match df_dict with
  | [] => Raise ValueError
  | _ => Ok (flat_map frame_rows3 df_dict)
  end.

Fixpoint uniqueb (l : list string) : bool :=
  match l with
  | [] => true
  | x :: rest => negb (existsb (String.eqb x) rest) && uniqueb rest
  end.

(** [efficiency_gain_df(method_names, method_values, est_names, **kwargs)] *)
Definition efficiency_gain_df (method_names : list string)
    (method_values : list (list (list float))) (est_names : list string)
    (kwargs : dict pyobj) : result (frame index3) :=
  let '(true_values, kwargs) := dict_pop kwargs "true_values" PyNone in
  let '(include_true_values, kwargs) :=
    dict_pop kwargs "include_true_values" (PyBool false) in
  let '(include_rmse, kwargs) := dict_pop kwargs "include_rmse" (PyBool false) in
  let '(adjust_nsamp, kwargs) := dict_pop kwargs "adjust_nsamp" PyNone in
  if negb (is_empty kwargs) then Raise (TypeError kwargs) else
  adjust_nsamp <- py_array_opt adjust_nsamp ;;
  _ <- match adjust_nsamp with
       | Some a =>
           py_assert (List.length a =? List.length method_names)%nat
             Assert_adjust_nsamp_shape
       | None => Ok tt
       end ;;
  _ <- py_assert (List.length method_names =? List.length method_values)%nat
         Assert_names_values ;;
  df_dict <- method_loop method_names method_values est_names true_values
               include_rmse adjust_nsamp 0 method_names [] ;;
  results <- concat df_dict ;;
  (* the categories of 'dynamic settings' must be unique *)
  _ <- (if uniqueb ("" :: method_names) then Ok tt else Raise ValueError) ;;
  include_true_values <- py_truth include_true_values ;;
  (* one true-values row for all methods; [None] fills it with NaN *)
  let results :=
    if include_true_values : bool then
      loc_set index3_eqb results ("true values", "", "value")
        match true_values with
        | PyArray tv => tv
        | _ => repeat nan (List.length est_names)
        end
    else results in
  Ok {| columns := est_names;
        rows := sort_index (gain_codes method_names) results |}.

(** ** Notions used in the statements *)

(** The keyword options each entry point pops. *)
Definition summary_options : list string :=
  ["true_values"; "include_true_values"; "include_rmse"].

Definition gain_options : list string :=
  ["true_values"; "include_true_values"; "include_rmse"; "adjust_nsamp"].

(** What is left of [kwargs] once the recognized options are popped. *)
Definition unexpected (recognized : list string) (kwargs : dict pyobj) : dict pyobj :=
  filter (fun kv => negb (existsb (String.eqb (fst kv)) recognized)) kwargs.

(** The value [kwargs.pop(k, default)] returns. *)
Definition option_value (kwargs : dict pyobj) (k : string) (default : pyobj) : pyobj :=
  match dict_get kwargs k with Some v => v | None => default end.

(** A float that is neither zero, infinite nor NaN. *)
Definition finite_nonzero (x : float) : bool :=
  match Prim2SF x with S754_finite _ _ _ => true | _ => false end.

(** Rows in increasing order of their level codes. *)
Definition sorted_by {I : Type} (codes : I -> list Z) (rs : list (I * list float)) : Prop :=
  Sorted (fun a b => lex_leb (codes (fst a)) (codes (fst b)) = true) rs.

(** The rows of a summary table, in terms of the raw table. *)
Definition mean_row (df : DataFrame) : list float :=
  reduce_axis0 Nanops.nanmean (shape1 df) (df_values df).

Definition std_row (df : DataFrame) : list float :=
  reduce_axis0 Nanops.nanstd (shape1 df) (df_values df).

Definition mean_unc_row (df : DataFrame) : list float :=
  map (fun s => (s / PrimFloat.sqrt (Np.of_nat (shape0 df)))%float) (std_row df).

Definition std_unc_row (df : DataFrame) : list float :=
  map (fun s =>
         (s * PrimFloat.sqrt (1 / Np.of_Z (2 * (Z.of_nat (shape0 df) - 1))))%float)
      (std_row df).

(** The RMSE rows as [rmse_and_unc] returns them. *)
Definition rmse_rows (df : DataFrame) (tv : list float) : list (index2 * list float) :=
  match rmse_and_unc (values_of df) tv with
  | Ok (rmse, rmse_unc) => [(("rmse", "value"), rmse); (("rmse", "uncertainty"), rmse_unc)]
  | Raise _ => []
  end.

(** The summary table in canonical row order. *)
Definition summary_rows (df : DataFrame) (true_values : option (list float))
    (include_true_values include_rmse : bool) : list (index2 * list float) :=
  match true_values with
  | Some tv => if include_true_values then [(("true values", "value"), tv)] else []
  | None => []
  end
  ++ [(("mean", "value"), mean_row df); (("mean", "uncertainty"), mean_unc_row df);
      (("std", "value"), std_row df); (("std", "uncertainty"), std_unc_row df)]
  ++ match true_values with
     | Some tv => if include_rmse then rmse_rows df tv else []
     | None => []
     end.

(** The squared errors of column [j]. *)
Definition sq_errors_col (rs : list (list float)) (tv : list float) (j : nat)
    : list float :=
  map (fun r => Np.square (nth j r nan - nth j tv nan)%float) rs.

(** The labels of the seven rows of a full summary table, in canonical order. *)
Definition seven_rows : list index2 :=
  [("true values", "value"); ("mean", "value"); ("mean", "uncertainty");
   ("std", "value"); ("std", "uncertainty"); ("rmse", "value");
   ("rmse", "uncertainty")].

(** The options of the full summary: true values injected, RMSE included. *)
Definition full_options (tv : list float) : dict pyobj :=
  [("true_values", PyArray tv); ("include_true_values", PyBool true);
   ("include_rmse", PyBool true)].

(** Example data. *)
Definition two_pow_53 : float := 9007199254740992%float.

Definition example_df : DataFrame :=
  {| df_columns := ["a"; "b"];
     df_values := [[1; 2]; [3; 5]; [5; 9]]%float |}.

Definition cancelling_df : DataFrame :=
  {| df_columns := ["a"];
     df_values := [[1%float]; [two_pow_53]; [(- two_pow_53)%float]] |}.

Definition cancelling_df_permuted : DataFrame :=
  {| df_columns := ["a"];
     df_values := [[(- two_pow_53)%float]; [two_pow_53]; [1%float]] |}.

(** The table a call returns, for stating facts about a call known to succeed. *)
Definition returned {I : Type} (r : result (frame I)) : frame I :=
  match r with
  | Ok t => t
  | Raise _ => {| columns := []; rows := [] |}
  end.

(** The label of the gain rows of a statistic. *)
Definition gain_key (stat : string) : string := String.append stat " efficiency gain".

(** The statistics whose gain is computed. *)
Definition tracked_stats (with_rmse : bool) : list string :=
  "std" :: (if with_rmse then ["rmse"] else []).

(** The options [efficiency_gain_df] passes to [summary_df_from_list]. *)
Definition method_options (true_values include_rmse : pyobj) : dict pyobj :=
  [("true_values", true_values); ("include_true_values", PyBool false);
   ("include_rmse", include_rmse)].

(** The frame [summary_df_from_list] builds from a list of repeats. *)
Definition list_df (results_list : list (list float)) (names : list string) : DataFrame :=
  {| df_columns := names; df_values := results_list |}.

(** [r] does not end in the assertion [len(method_names) == len(method_values)]. *)
Definition passes_names_values {A : Type} (r : result A) : Prop :=
  r <> Raise (AssertionError Assert_names_values).

(** The table [efficiency_gain_df] assembles from the frames of the methods. *)
Definition gain_table (method_names est_names : list string)
    (d : dict (list (index2 * list float))) (include_true_values : bool)
    (true_values : pyobj) : frame index3 :=
  {| columns := est_names;
     rows := sort_index (gain_codes method_names)
               (if include_true_values then
                  loc_set index3_eqb (flat_map frame_rows3 d)
                    ("true values", "", "value")
                    match true_values with
                    | PyArray tv => tv
                    | _ => repeat nan (List.length est_names)
                    end
                else flat_map frame_rows3 d) |}.

(** The uncertainty [array_ratio_std] gives at one column. *)
Definition ratio_std (value_n sigma_n value_d sigma_d : float) : float :=
  (value_n / value_d
   * PrimFloat.sqrt (Np.square (sigma_n / value_n) + Np.square (sigma_d / value_d)))%float.

(** When [row *= adjust] succeeds on rows of [n] columns, [adjust] being
    [adjust_nsamp[0] / adjust_nsamp[1:]]. *)
Definition adjust_fits (adjust_nsamp : option (list float)) (n : nat) : Prop :=
  forall a, adjust_nsamp = Some a ->
            a <> [] /\ (List.length (tl a) = n \/ List.length (tl a) = 1%nat).

(** ** Reference formulas *)

(** Column labels as the functions expect them: distinct, at least one, and
    none of them 'result type', the name [summary_df] gives its own index
    level.  (Tables with repeated labels or without columns are outside the
    model.) *)
Definition plain_labels (labels : list string) : Prop :=
  NoDup labels /\ labels <> [] /\ ~ In "result type" labels.

(** A table without NaN entries. *)
Definition no_nan (rs : list (list float)) : Prop :=
  Forall (Forall (fun x => PrimFloat.is_nan x = false)) rs.

Module Spec.
Local Open Scope float_scope.

(** A float64 sum of given terms: the additions, in some order and
    grouping. *)
Inductive addition : Type :=
  | Term (x : float)
  | Plus (l r : addition).

Fixpoint terms (t : addition) : list float :=
  match t with
  | Term x => [x]
  | Plus l r => terms l ++ terms r
  end.

Fixpoint value (t : addition) : float :=
  match t with
  | Term x => x
  | Plus l r => value l + value r
  end.

(** [s] is the sum of the entries of [xs], each taken once, whatever the
    order and grouping of the additions; the sum of nothing is 0. *)
Definition any_order (xs : list float) (s : float) : Prop :=
  match xs with
  | [] => s = 0
  | _ => exists t, Permutation (terms t) xs /\ value t = s
  end.

(** [s] is the sum of the entries added one after the other. *)
Definition in_order (xs : list float) (s : float) : Prop :=
  s = match xs with
      | [] => 0
      | x :: rest => fold_left PrimFloat.add rest x
      end.

(** What [np.add.reduce] returns for the entries [xs]: their sum in an order
    that depends on the length and on the memory layout, which is the order
    of the entries when there are fewer than eight. *)
Definition reduce (xs : list float) (s : float) : Prop :=
  any_order xs s /\ ((List.length xs < 8)%nat -> in_order xs s).

(** int -> float64 *)
Definition float_of_nat (n : nat) : float :=
  PrimFloat.of_uint63 (Uint63.of_Z (Z.of_nat n)).

Section Statistics.
Variable sum : list float -> float -> Prop.

(** the mean: the sum over the number of entries *)
Definition mean (xs : list float) (m : float) : Prop :=
  exists s, sum xs s /\ m = s / float_of_nat (List.length xs).

(** the sample standard deviation ([ddof = 1]): the square root of the sum
    of the squared deviations from the mean over [n - 1]; pandas takes the
    deviations as [mean - x] *)
Definition sample_std (xs : list float) (sd : float) : Prop :=
  exists m q,
    mean xs m /\
    sum (map (fun x => (m - x) * (m - x)) xs) q /\
    sd = PrimFloat.sqrt (q / float_of_nat (List.length xs - 1)).

(** the same with the deviations as [x - mean], as [np.std] takes them *)
Definition sample_std_np (xs : list float) (sd : float) : Prop :=
  exists m q,
    mean xs m /\
    sum (map (fun x => (x - m) * (x - m)) xs) q /\
    sd = PrimFloat.sqrt (q / float_of_nat (List.length xs - 1)).
End Statistics.
End Spec.

(** ** IEEE-754 facts *)

Lemma div_eucl_shift (m : positive) :
  Z.div_eucl (Z.shiftl (Z.pos m) 53) (Z.pos m) = (9007199254740992%Z, 0%Z).
Proof.
  rewrite Z.shiftl_mul_pow2 by lia.
  pose proof (Z.div_eucl_eq (Z.pos m * 2 ^ 53) (Z.pos m)) as H.
  destruct (Z.div_eucl (Z.pos m * 2 ^ 53) (Z.pos m)) as [q r] eqn:E.
  assert (Hq : q = (Z.pos m * 2 ^ 53 / Z.pos m)%Z)
    by (unfold Z.div; rewrite E; reflexivity).
  assert (Hr : r = ((Z.pos m * 2 ^ 53) mod Z.pos m)%Z)
    by (unfold Z.modulo; rewrite E; reflexivity).
  rewrite Z.mul_comm in Hq, Hr.
  rewrite Z.div_mul in Hq by lia. rewrite Z.mod_mul in Hr by lia.
  subst. reflexivity.
Qed.

Lemma SFdiv_diag s m e :
  SF64div (S754_finite s m e) (S754_finite s m e) = Prim2SF 1.
Proof.
  unfold SF64div, SFdiv, SFdiv_core_binary.
  replace (Zdigits2 (Z.pos m) + e - (Zdigits2 (Z.pos m) + e))%Z with 0%Z by lia.
  rewrite Z.sub_diag.
  change (Z.min (fexp prec emax 0) 0) with (-53)%Z.
  change (0 - -53)%Z with 53%Z. cbv iota beta zeta.
  change (IntDef.Z.div_eucl (IntDef.Z.shiftl (Z.pos m) 53) (Z.pos m)) with
    (Z.div_eucl (Z.shiftl (Z.pos m) 53) (Z.pos m)).
  rewrite div_eucl_shift, xorb_nilpotent.
  assert (N : new_location (Z.pos m) 0 = loc_Exact).
  { unfold new_location, new_location_even, new_location_odd.
    destruct (Z.even (Z.pos m)); reflexivity. }
  rewrite N. vm_compute. reflexivity.
Qed.

(** A finite non-zero binary64 divided by itself is exactly 1. *)
Lemma div_diag (x : float) : finite_nonzero x = true -> (x / x)%float = 1%float.
Proof.
  unfold finite_nonzero. intro H.
  rewrite <- (SF2Prim_Prim2SF (x / x)), FloatAxioms.div_spec.
  destruct (Prim2SF x); try discriminate.
  rewrite SFdiv_diag. apply SF2Prim_Prim2SF.
Qed.

Lemma div_undefined (x : float) : finite_nonzero x = false -> (x / x)%float = nan.
Proof.
  unfold finite_nonzero. intro H.
  rewrite <- (SF2Prim_Prim2SF (x / x)), FloatAxioms.div_spec.
  destruct (Prim2SF x) as [sg|sg| |sg m e]; try discriminate;
    try destruct sg; reflexivity.
Qed.

(** ** Results *)

Lemma bind_Ok {A B : Type} (r : result A) (k : A -> result B) (b : B) :
  bind r k = Ok b -> exists a, r = Ok a /\ k a = Ok b.
Proof. destruct r as [a|e]; simpl; intro H; [eauto | discriminate]. Qed.

Lemma py_assert_Ok (c : bool) (a : assertion) (u : unit) :
  py_assert c a = Ok u -> c = true.
Proof. destruct c; simpl; [reflexivity | discriminate]. Qed.

(** ** Dictionaries *)

Lemma dict_get_del_ne {V : Type} (d : dict V) (k k' : string) :
  String.eqb k k' = false -> dict_get (dict_del d k) k' = dict_get d k'.
Proof.
  intro Hne. induction d as [|[k0 v] d IH]; simpl; [reflexivity|].
  destruct (String.eqb k0 k) eqn:E0; simpl.
  - apply String.eqb_eq in E0. subst k0. rewrite Hne. exact IH.
  - rewrite IH. reflexivity.
Qed.

Lemma unexpected_summary (kwargs : dict pyobj) :
  dict_del (dict_del (dict_del kwargs "true_values") "include_true_values")
    "include_rmse" = unexpected summary_options kwargs.
Proof.
  unfold dict_del, unexpected.
  induction kwargs as [|[k v] d IH]; simpl; [reflexivity|].
  destruct (String.eqb k "true_values"); simpl; [exact IH|].
  destruct (String.eqb k "include_true_values"); simpl; [exact IH|].
  destruct (String.eqb k "include_rmse"); simpl; [exact IH|].
  now rewrite IH.
Qed.

Lemma unexpected_gain (kwargs : dict pyobj) :
  dict_del (dict_del (dict_del (dict_del kwargs "true_values")
    "include_true_values") "include_rmse") "adjust_nsamp"
  = unexpected gain_options kwargs.
Proof.
  unfold dict_del, unexpected.
  induction kwargs as [|[k v] d IH]; simpl; [reflexivity|].
  destruct (String.eqb k "true_values"); simpl; [exact IH|].
  destruct (String.eqb k "include_true_values"); simpl; [exact IH|].
  destruct (String.eqb k "include_rmse"); simpl; [exact IH|].
  destruct (String.eqb k "adjust_nsamp"); simpl; [exact IH|].
  now rewrite IH.
Qed.


(** ** [sort_index] *)

Lemma lex_leb_total (a b : list Z) : lex_leb a b = false -> lex_leb b a = true.
Proof.
  revert b. induction a as [|x a IH]; intros [|y b]; simpl; try discriminate;
    try reflexivity.
  intro H. apply orb_false_iff in H as [Hlt H].
  apply Z.ltb_ge in Hlt.
  destruct (Z.ltb y x) eqn:Hyx; [reflexivity|]. apply Z.ltb_ge in Hyx.
  assert (E : x = y) by lia. subst y. rewrite Z.eqb_refl in *. simpl in *.
  now apply IH.
Qed.

Section SortFacts.
Context {I : Type} (codes : I -> list Z).

Lemma insert_row_hd (x a : I * list float) (l : list (I * list float)) :
  lex_leb (codes (fst a)) (codes (fst x)) = true ->
  HdRel (fun a b => lex_leb (codes (fst a)) (codes (fst b)) = true) a l ->
  HdRel (fun a b => lex_leb (codes (fst a)) (codes (fst b)) = true) a
        (insert_row codes x l).
Proof.
  intros Hax Hd. destruct l as [|y l]; simpl.
  - now constructor.
  - destruct (lex_leb (codes (fst x)) (codes (fst y))); constructor;
      [assumption | now inversion Hd].
Qed.

Lemma insert_row_sorted (x : I * list float) (l : list (I * list float)) :
  sorted_by codes l -> sorted_by codes (insert_row codes x l).
Proof.
  unfold sorted_by. induction 1 as [|y l Hs IH Hd]; simpl.
  - repeat constructor.
  - destruct (lex_leb (codes (fst x)) (codes (fst y))) eqn:E.
    + constructor; [now constructor | now constructor].
    + constructor; [exact IH|].
      apply insert_row_hd; [now apply lex_leb_total | exact Hd].
Qed.

(** Whatever the order in which the rows were put in, [sort_index] returns
    them in increasing order of their codes. *)
Lemma sort_index_sorted (l : list (I * list float)) :
  sorted_by codes (sort_index codes l).
Proof.
  induction l as [|x l IH]; simpl; [constructor | now apply insert_row_sorted].
Qed.

Lemma insert_row_perm (x : I * list float) (l : list (I * list float)) :
  Permutation (x :: l) (insert_row codes x l).
Proof.
  induction l as [|y l IH]; simpl; [reflexivity|].
  destruct (lex_leb (codes (fst x)) (codes (fst y))); [reflexivity|].
  rewrite perm_swap. now constructor.
Qed.

Lemma sort_index_perm (l : list (I * list float)) :
  Permutation l (sort_index codes l).
Proof.
  induction l as [|x l IH]; simpl; [constructor|].
  rewrite <- insert_row_perm. now constructor.
Qed.

(** Looking a label up does not depend on the sort, for an equality test
    on labels that decides equality. *)
Context (eqb : I -> I -> bool) (eqb_eq : forall a b, eqb a b = true <-> a = b).

Lemma loc_insert_row (x : I * list float) (l : list (I * list float)) (k : I) :
  loc eqb (insert_row codes x l) k = loc eqb (x :: l) k.
Proof.
  induction l as [|y l IH]; [reflexivity|].
  simpl insert_row.
  destruct (lex_leb (codes (fst x)) (codes (fst y))) eqn:E; [reflexivity|].
  destruct x as [kx rx], y as [ky ry]. simpl in *.
  rewrite IH. destruct (eqb kx k) eqn:Ex; [|reflexivity].
  destruct (eqb ky k) eqn:Ey; [|reflexivity].
  apply eqb_eq in Ex, Ey. subst kx ky.
  apply lex_leb_total in E as E'.
  assert (R : lex_leb (codes k) (codes k) = true).
  { clear. induction (codes k) as [|c cs IHc]; simpl; [reflexivity|].
    now rewrite Z.eqb_refl, IHc, orb_true_r. }
  congruence.
Qed.

Lemma loc_sort_index (l : list (I * list float)) (k : I) :
  loc eqb (sort_index codes l) k = loc eqb l k.
Proof.
  induction l as [|[kx rx] l IH]; [reflexivity|].
  simpl sort_index. rewrite loc_insert_row. simpl. now rewrite IH.
Qed.
End SortFacts.

Lemma index2_eqb_eq (a b : index2) : index2_eqb a b = true <-> a = b.
Proof.
  destruct a as [a1 a2], b as [b1 b2]. unfold index2_eqb. simpl.
  rewrite andb_true_iff, !String.eqb_eq. split; [intros []|intros [=]]; now subst.
Qed.

Lemma index3_eqb_eq (a b : index3) : index3_eqb a b = true <-> a = b.
Proof.
  destruct a as [[a1 a2] a3], b as [[b1 b2] b3]. unfold index3_eqb. simpl.
  rewrite !andb_true_iff, !String.eqb_eq.
  split; [intros [[] ?]|intros [=]]; now subst.
Qed.

(** ** [loc] and [loc_set] *)

Section LocFacts.
Context {I : Type} (eqb : I -> I -> bool) (eqb_eq : forall a b, eqb a b = true <-> a = b).

Lemma loc_set_same (rs : list (I * list float)) (k : I) (row : list float) :
  loc eqb (loc_set eqb rs k row) k = Some row.
Proof.
  assert (R : eqb k k = true) by now apply eqb_eq.
  induction rs as [|[k0 r0] rs IH]; simpl; [now rewrite R|].
  destruct (eqb k0 k) eqn:E; simpl; rewrite E; [reflexivity | exact IH].
Qed.

Lemma loc_set_other (rs : list (I * list float)) (k k' : I) (row : list float) :
  k <> k' -> loc eqb (loc_set eqb rs k row) k' = loc eqb rs k'.
Proof.
  intro Hne.
  assert (F : eqb k k' = false).
  { destruct (eqb k k') eqn:E; [|reflexivity]. apply eqb_eq in E. contradiction. }
  induction rs as [|[k0 r0] rs IH]; simpl; [now rewrite F|].
  destruct (eqb k0 k) eqn:E; simpl.
  - apply eqb_eq in E. subst k0. now rewrite F.
  - now rewrite IH.
Qed.
End LocFacts.

(** ** The summary-table builder: what a call returns *)

Lemma py_truediv_Ok (a b : Z) (q : float) :
  Np.py_truediv a b = Ok q -> b <> 0%Z /\ q = (Np.of_Z a / Np.of_Z b)%float.
Proof.
  unfold Np.py_truediv. destruct (Z.eqb_spec b 0); [discriminate|].
  intros [= <-]. now split.
Qed.

Lemma rmse_and_unc_Ok (a : ndarray2) (tv : list float) :
  List.length tv = nd_ncols a -> exists r u, rmse_and_unc a tv = Ok (r, u).
Proof.
  intro H. unfold rmse_and_unc. rewrite H, Nat.eqb_refl. simpl. eauto.
Qed.

Tactic Notation "bind_step" ident(x) ident(E) :=
  lazymatch goal with
  | |- bind (Ok _) _ = Ok _ -> _ => cbn [bind]
  | |- bind ?r _ = Ok _ -> _ =>
      destruct r as [x|] eqn:E; cbn [bind]; [| intro; discriminate]
  end.

Ltac summary_df_options kwargs :=
  unfold summary_df, dict_pop;
  rewrite unexpected_summary, !dict_get_del_ne by reflexivity;
  change (match dict_get kwargs "true_values" with Some v => v | None => PyNone end)
    with (option_value kwargs "true_values" PyNone);
  change (match dict_get kwargs "include_true_values" with
          | Some v => v | None => PyBool false end)
    with (option_value kwargs "include_true_values" (PyBool false));
  change (match dict_get kwargs "include_rmse" with
          | Some v => v | None => PyBool false end)
    with (option_value kwargs "include_rmse" (PyBool false)).

Lemma existsb_eqb_In (k : string) (l : list string) :
  existsb (String.eqb k) l = true <-> In k l.
Proof.
  rewrite existsb_exists. split.
  - intros (x & Hx & E). apply String.eqb_eq in E. now subst.
  - intro H. exists k. split; [exact H | apply String.eqb_refl].
Qed.

Lemma uniqueb_NoDup (l : list string) : uniqueb l = true -> NoDup l.
Proof.
  induction l as [|x l IH]; cbn [uniqueb]; [constructor|].
  intro H. apply andb_true_iff in H as [Hx Hl]. constructor; [|now apply IH].
  intro Hin. apply negb_true_iff in Hx.
  assert (existsb (String.eqb x) l = true); [|congruence].
  apply existsb_exists. exists x. split; [exact Hin | apply String.eqb_refl].
Qed.

Lemma summary_df_Ok_inv (df : DataFrame) (kwargs : dict pyobj) (t : frame index2) :
  summary_df df kwargs = Ok t ->
  exists tv itv irmse,
    unexpected summary_options kwargs = [] /\
    py_array_opt (option_value kwargs "true_values" PyNone) = Ok tv /\
    py_truth (option_value kwargs "include_true_values" (PyBool false)) = Ok itv /\
    py_truth (option_value kwargs "include_rmse" (PyBool false)) = Ok irmse /\
    (forall v, tv = Some v -> List.length v = shape1 df) /\
    (tv = None -> itv = false /\ irmse = false) /\
    shape0 df <> 1%nat /\
    t = {| columns := df_columns df; rows := summary_rows df tv itv irmse |} /\
    exists l, rows t = sort_index summary_codes l.
Proof.
  summary_df_options kwargs.
  destruct (unexpected summary_options kwargs) as [|u us]; [|discriminate].
  cbn [is_empty negb].
  bind_step tv Etv. bind_step u Elen. bind_step itv Eitv.
  bind_step df0 Edf0. bind_step std Estd.
  bind_step q Equo. bind_step rt Ert. bind_step irmse Eirmse. bind_step df1 Edf1.
  intros [= <-].
  apply py_truediv_Ok in Equo as [Hq ->].
  exists tv, itv, irmse.
  assert (HN : shape0 df <> 1%nat) by lia.
  assert (Hlen : forall v, tv = Some v -> List.length v = shape1 df).
  { intros v ->. apply py_assert_Ok in Elen. now apply Nat.eqb_eq. }
  repeat (split; [solve [reflexivity | assumption]|]).
  destruct tv as [v|].
  - split; [intros [=]|]. split; [exact HN|].
    destruct itv, irmse; injection Edf0 as <-; injection Estd as <-;
      try (revert Edf1; bind_step ru Eru; destruct ru as [rmse rmse_unc];
           intro Edf1; unfold summary_rows, rmse_rows; rewrite Eru);
      injection Edf1 as <-;
      (split; [reflexivity | eexists; reflexivity]).
  - destruct itv; [discriminate|]. destruct irmse; [discriminate|].
    injection Edf0 as <-. injection Estd as <-. injection Edf1 as <-.
    split; [now split|]. split; [exact HN|].
    split; [reflexivity | eexists; reflexivity].
Qed.

(** A table is returned only when no input column is named 'result type'. *)
Lemma summary_df_Ok_columns (df : DataFrame) (kwargs : dict pyobj) (t : frame index2) :
  summary_df df kwargs = Ok t -> ~ In "result type" (df_columns df).
Proof.
  summary_df_options kwargs.
  destruct (unexpected summary_options kwargs) as [|u us]; [|discriminate].
  cbn [is_empty negb].
  bind_step tv Etv. bind_step u Elen. bind_step itv Eitv.
  bind_step df0 Edf0. bind_step std Estd.
  bind_step q Equo.
  destruct (existsb (String.eqb "result type") (df_columns df)) eqn:E;
    [intro; discriminate|].
  intros _ Hin. apply existsb_eqb_In in Hin. congruence.
Qed.

Lemma py_truediv_ne (a b : Z) :
  b <> 0%Z -> Np.py_truediv a b = Ok (Np.of_Z a / Np.of_Z b)%float.
Proof. intro H. unfold Np.py_truediv. now destruct (Z.eqb_spec b 0). Qed.

(** Conversely, well-formed options on a table that does not have exactly
    one row give the canonical table. *)
Lemma summary_df_Ok (df : DataFrame) (kwargs : dict pyobj)
    (tv : option (list float)) (itv irmse : bool) :
  unexpected summary_options kwargs = [] ->
  py_array_opt (option_value kwargs "true_values" PyNone) = Ok tv ->
  py_truth (option_value kwargs "include_true_values" (PyBool false)) = Ok itv ->
  py_truth (option_value kwargs "include_rmse" (PyBool false)) = Ok irmse ->
  (forall v, tv = Some v -> List.length v = shape1 df) ->
  (tv = None -> itv = false /\ irmse = false) ->
  shape0 df <> 1%nat ->
  ~ In "result type" (df_columns df) ->
  summary_df df kwargs
  = Ok {| columns := df_columns df; rows := summary_rows df tv itv irmse |}.
Proof.
  intros Hu Etv Eitv Eirmse Hlen Hnone HN Hrt.
  assert (Ert : existsb (String.eqb "result type") (df_columns df) = false).
  { destruct (existsb _ _) eqn:E; [|reflexivity]. now apply existsb_eqb_In in E. }
  summary_df_options kwargs.
  rewrite Hu, Etv, Eitv, Eirmse, Ert. cbn [is_empty negb bind].
  rewrite (py_truediv_ne 1 (2 * (Z.of_nat (shape0 df) - 1))) by lia.
  destruct tv as [v|].
  - rewrite (Hlen v eq_refl), Nat.eqb_refl. cbn [py_assert bind].
    destruct (rmse_and_unc_Ok (values_of df) v (Hlen v eq_refl)) as (r & u & Er).
    destruct itv, irmse; cbn [bind loc_getitem loc]; unfold summary_rows, rmse_rows;
      rewrite ?Er; reflexivity.
  - destruct (Hnone eq_refl) as [-> ->]. reflexivity.
Qed.

(** ** Keyword validation *)







(** ** Tables with one repeat row, and missing true values *)

Lemma summary_df_one_row (df : DataFrame) (kwargs : dict pyobj)
    (tv : option (list float)) (itv : bool) :
  shape0 df = 1%nat ->
  unexpected summary_options kwargs = [] ->
  py_array_opt (option_value kwargs "true_values" PyNone) = Ok tv ->
  (forall v, tv = Some v -> List.length v = shape1 df) ->
  py_truth (option_value kwargs "include_true_values" (PyBool false)) = Ok itv ->
  (tv = None -> itv = false) ->
  summary_df df kwargs = Raise ZeroDivisionError.
Proof.
  intros HN Hu Etv Hlen Eitv Hnone.
  summary_df_options kwargs.
  rewrite Hu, Etv, Eitv, HN. cbn [is_empty negb bind].
  destruct tv as [v|].
  - rewrite (Hlen v eq_refl), Nat.eqb_refl. destruct itv; reflexivity.
  - rewrite (Hnone eq_refl). reflexivity.
Qed.




(** C7 (as amended).  On a table with distinct column labels, with no
    [true_values] (absent or [None]) and no unexpected option:
    [include_true_values=True] always ends in the assertion of line 129;
    [include_rmse=True] (without [include_true_values]) ends in the
    [ZeroDivisionError] of line 139 on a table with one row, in the
    [ValueError] of line 143 on a table of another size that has a column
    named 'result type', and in the assertion 'Need to input true values
    for RMSE!' on every other table that has at least one column.  No table
    is returned in any of these cases. *)
Theorem C7_missing_true_values (df : DataFrame) (kwargs : dict pyobj) :
  NoDup (df_columns df) ->
  unexpected summary_options kwargs = [] ->
  option_value kwargs "true_values" PyNone = PyNone ->
  (py_truth (option_value kwargs "include_true_values" (PyBool false)) = Ok true ->
   summary_df df kwargs = Raise (AssertionError Assert_true_values_given)) /\
  (py_truth (option_value kwargs "include_true_values" (PyBool false)) = Ok false ->
   py_truth (option_value kwargs "include_rmse" (PyBool false)) = Ok true ->
   (shape0 df = 1%nat -> summary_df df kwargs = Raise ZeroDivisionError) /\
   (shape0 df <> 1%nat ->
    (In "result type" (df_columns df) -> summary_df df kwargs = Raise ValueError) /\
    (df_columns df <> [] -> ~ In "result type" (df_columns df) ->
     summary_df df kwargs = Raise (AssertionError Assert_rmse_true_values)))).
Proof.
  intros _ Hu Htv. split.
  - intro Eitv. summary_df_options kwargs. rewrite Hu, Htv, Eitv. reflexivity.
  - intros Eitv Eirmse. split.
    + intro HN. apply (summary_df_one_row df kwargs None false); try assumption.
      * now rewrite Htv.
      * discriminate.
      * reflexivity.
    + intro HN. split.
      * intro Hin. apply existsb_eqb_In in Hin.
        summary_df_options kwargs. rewrite Hu, Htv, Eitv, Hin.
        cbn [is_empty negb py_array_opt bind loc_getitem loc String.eqb].
        rewrite (py_truediv_ne 1 (2 * (Z.of_nat (shape0 df) - 1))) by lia.
        reflexivity.
      * intros _ Hnot.
        assert (Ert : existsb (String.eqb "result type") (df_columns df) = false).
        { destruct (existsb _ _) eqn:E; [|reflexivity]. now apply existsb_eqb_In in E. }
        summary_df_options kwargs. rewrite Hu, Htv, Eitv, Eirmse, Ert.
        cbn [is_empty negb py_array_opt bind loc_getitem loc String.eqb].
        rewrite (py_truediv_ne 1 (2 * (Z.of_nat (shape0 df) - 1))) by lia.
        reflexivity.
Qed.

Lemma C7_missing_true_values_witness :
  summary_df {| df_columns := ["a"]; df_values := [[1%float]; [2%float]] |}
    [("include_true_values", PyBool true)]
  = Raise (AssertionError Assert_true_values_given) /\
  summary_df {| df_columns := ["a"]; df_values := [[1%float]; [2%float]] |}
    [("include_rmse", PyBool true)]
  = Raise (AssertionError Assert_rmse_true_values) /\
  summary_df {| df_columns := ["a"; "result type"];
                df_values := [[1; 2]; [2; 3]]%float |}
    [("include_rmse", PyBool true)]
  = Raise ValueError.
Proof.
  split; [|split].
  - apply (C7_missing_true_values _ [("include_true_values", PyBool true)]);
      first [reflexivity | apply uniqueb_NoDup; reflexivity].
  - apply (C7_missing_true_values _ [("include_rmse", PyBool true)]);
      first [ reflexivity | apply uniqueb_NoDup; reflexivity
            | simpl; intros [H|[]]; discriminate H | simpl; discriminate ].
  - apply (C7_missing_true_values _ [("include_rmse", PyBool true)]);
      first [ reflexivity | apply uniqueb_NoDup; reflexivity
            | simpl; discriminate | simpl; tauto ].
Defined.

(** C7, the claim as stated fails on a table with one repeat row: the
    division by zero comes before the RMSE assertion. *)
Lemma C7_counterexample_one_row :
  summary_df {| df_columns := ["a"]; df_values := [[1%float]] |}
    [("include_rmse", PyBool true)]
  = Raise ZeroDivisionError.
Proof. reflexivity. Qed.

(** ** The rows of the summary table *)

Lemma summary_rows_loc (df : DataFrame) (tv : option (list float)) (itv irmse : bool) :
  loc index2_eqb (summary_rows df tv itv irmse) ("mean", "value") = Some (mean_row df) /\
  loc index2_eqb (summary_rows df tv itv irmse) ("std", "value") = Some (std_row df) /\
  loc index2_eqb (summary_rows df tv itv irmse) ("mean", "uncertainty")
  = Some (mean_unc_row df) /\
  loc index2_eqb (summary_rows df tv itv irmse) ("std", "uncertainty")
  = Some (std_unc_row df).
Proof.
  unfold summary_rows. destruct tv as [v|]; [destruct itv|]; repeat split; reflexivity.
Qed.

(** ** Canonical row order *)

Lemma summary_rows_keys (df : DataFrame) (tv : option (list float)) (itv irmse : bool) :
  NoDup (map fst (summary_rows df tv itv irmse)) /\
  Forall (fun k => In (fst k) calculation_types /\ In (snd k) result_types)
         (map fst (summary_rows df tv itv irmse)).
Proof.
  unfold summary_rows, rmse_rows.
  destruct tv as [v|]; [destruct itv, irmse; try destruct (rmse_and_unc _ _) as [[r u]|]|];
    (split;
     [ repeat (constructor; [simpl; intuition congruence|]); constructor
     | repeat (constructor; [simpl; intuition congruence|]); constructor ]).
Qed.

(** C4.  Every table [summary_df] returns is the output of the sort on the
    ordered categoricals: its rows are in increasing order of
    (position of the calculation type in [true values, mean, std, rmse],
    position of the result type in [value, uncertainty]), every label is
    one of these categories and no label occurs twice. *)
Theorem C4_summary_df_canonical_order (df : DataFrame) (kwargs : dict pyobj)
    (t : frame index2) :
  summary_df df kwargs = Ok t ->
  (exists l, rows t = sort_index summary_codes l) /\
  sorted_by summary_codes (rows t) /\
  NoDup (map fst (rows t)) /\
  Forall (fun k => In (fst k) calculation_types /\ In (snd k) result_types)
         (map fst (rows t)).
Proof.
  intro Ht.
  apply summary_df_Ok_inv in Ht
    as (tv & itv & irmse & _ & _ & _ & _ & _ & _ & _ & -> & l & Hl).
  split; [now exists l|]. split.
  - rewrite Hl. apply sort_index_sorted.
  - apply summary_rows_keys.
Qed.

Lemma C4_summary_df_canonical_order_witness :
  sorted_by summary_codes
    (rows (returned (summary_df example_df (full_options [0%float; 0%float])))).
Proof.
  refine (proj1 (proj2 (C4_summary_df_canonical_order example_df
                          (full_options [0%float; 0%float]) _ _))).
  vm_compute. reflexivity.
Defined.

(** ** The full seven-row table, and the order of the repeat rows *)

Lemma full_summary (df : DataFrame) (tv : list float) :
  shape0 df <> 1%nat -> List.length tv = shape1 df ->
  ~ In "result type" (df_columns df) ->
  exists t,
    summary_df df (full_options tv) = Ok t /\
    columns t = df_columns df /\
    map fst (rows t) = seven_rows /\
    loc index2_eqb (rows t) ("true values", "value") = Some tv.
Proof.
  intros HN Hlen Hrt. eexists. split.
  - apply (summary_df_Ok df (full_options tv) (Some tv) true true);
      try reflexivity; try assumption; try discriminate.
    now intros v [= <-].
  - destruct (rmse_and_unc_Ok (values_of df) tv Hlen) as (r & u & Er).
    unfold summary_rows, rmse_rows. cbn [rows columns]. rewrite Er.
    repeat split; reflexivity.
Qed.

(** C5, the claim as stated fails: float64 addition is not associative, so
    the column sum depends on the order of the repeat rows.  With the rows
    [1], [2^53], [-2^53] the mean is 0 (1 + 2^53 rounds to 2^53); with the
    same rows in reverse order, [-2^53], [2^53], [1], it is 1/3.  The two
    tables differ.  (They also differ if the additions associate to the
    right: 1 + (2^53 - 2^53) = 1 and -2^53 + (2^53 + 1) = 0.) *)
Lemma C5_counterexample_row_order :
  Permutation (df_values cancelling_df) (df_values cancelling_df_permuted) /\
  loc index2_eqb
    (rows (returned (summary_df cancelling_df (full_options [0%float]))))
    ("mean", "value") = Some [0%float] /\
  loc index2_eqb
    (rows (returned (summary_df cancelling_df_permuted (full_options [0%float]))))
    ("mean", "value") = Some [(1 / 3)%float] /\
  summary_df cancelling_df (full_options [0%float])
  <> summary_df cancelling_df_permuted (full_options [0%float]).
Proof.
  split; [|split; [|split]].
  - apply (Permutation_rev (df_values cancelling_df)).
  - vm_compute. reflexivity.
  - vm_compute. reflexivity.
  - intro H.
    assert (E : loc index2_eqb
                  (rows (returned (summary_df cancelling_df (full_options [0%float]))))
                  ("mean", "value")
                = loc index2_eqb
                    (rows (returned (summary_df cancelling_df_permuted
                                       (full_options [0%float]))))
                    ("mean", "value")) by now rewrite H.
    apply (f_equal (fun o => match o with
                             | Some [x] => Prim2SF x
                             | _ => S754_nan
                             end)) in E.
    vm_compute in E. discriminate E.
Qed.

(** ** RMSE and its uncertainty *)

Lemma nth_map2 {A B C : Type} (f : A -> B -> C) (xs : list A) (ys : list B)
    (j : nat) (da : A) (db : B) (dc : C) :
  (j < List.length xs)%nat -> List.length xs = List.length ys ->
  nth j (map2 f xs ys) dc = f (nth j xs da) (nth j ys db).
Proof.
  revert ys j. induction xs as [|x xs IH]; intros [|y ys] j Hj Hlen;
    simpl in *; try lia.
  destruct j as [|j]; [reflexivity|]. apply IH; lia.
Qed.

Lemma map2_map {A B C D : Type} (f : B -> C -> D) (g : A -> B) (h : A -> C)
    (l : list A) :
  map2 f (map g l) (map h l) = map (fun a => f (g a) (h a)) l.
Proof. induction l as [|a l IH]; simpl; [reflexivity | now rewrite IH]. Qed.

Lemma sq_errors_column (rs : list (list float)) (tv : list float) (j : nat) :
  wf_rows (List.length tv) rs -> (j < List.length tv)%nat ->
  column j (map (map Np.square) (map (fun row => map2 PrimFloat.sub row tv) rs))
  = sq_errors_col rs tv j.
Proof.
  intros Hwf Hj. unfold column, sq_errors_col. rewrite !map_map.
  apply map_ext_in. intros r Hr.
  unfold wf_rows in Hwf. rewrite Forall_forall in Hwf. specialize (Hwf r Hr).
  change nan with (Np.square nan) at 1. rewrite map_nth.
  f_equal. apply nth_map2; lia.
Qed.

(** ** Dictionaries of frames, and [concat] *)

Lemma dict_get_set_same {V : Type} (d : dict V) (k : string) (v : V) :
  dict_get (dict_set d k v) k = Some v.
Proof.
  induction d as [|[k0 v0] d IH]; simpl; [now rewrite String.eqb_refl|].
  destruct (String.eqb k0 k) eqn:E; simpl; rewrite E; [reflexivity | exact IH].
Qed.

Lemma dict_get_set_other {V : Type} (d : dict V) (k k' : string) (v : V) :
  k <> k' -> dict_get (dict_set d k v) k' = dict_get d k'.
Proof.
  intro Hne. apply String.eqb_neq in Hne.
  induction d as [|[k0 v0] d IH]; simpl; [now rewrite Hne|].
  destruct (String.eqb k0 k) eqn:E; simpl.
  - apply String.eqb_eq in E. subst k0. now rewrite Hne.
  - now rewrite IH.
Qed.

Lemma dict_keys_set {V : Type} (d : dict V) (k : string) (v : V) :
  dict_keys (dict_set d k v)
  = if existsb (String.eqb k) (dict_keys d) then dict_keys d else dict_keys d ++ [k].
Proof.
  induction d as [|[k0 v0] d IH]; simpl; [reflexivity|].
  rewrite (String.eqb_sym k k0).
  destruct (String.eqb k0 k) eqn:E; simpl; [reflexivity|].
  unfold dict_keys in *. rewrite IH.
  now destruct (existsb (String.eqb k) (map fst d)).
Qed.

Lemma NoDup_dict_set {V : Type} (d : dict V) (k : string) (v : V) :
  NoDup (dict_keys d) -> NoDup (dict_keys (dict_set d k v)).
Proof.
  intro H. rewrite dict_keys_set.
  destruct (existsb (String.eqb k) (dict_keys d)) eqn:E; [exact H|].
  apply NoDup_app; [exact H | repeat constructor; intros [] | ].
  intros x Hx [->|[]].
  assert (existsb (String.eqb x) (dict_keys d) = true); [|congruence].
  apply existsb_exists. exists x. split; [exact Hx | apply String.eqb_refl].
Qed.

Lemma loc_app {I : Type} (eqb : I -> I -> bool) (l1 l2 : list (I * list float)) (k : I) :
  loc eqb (l1 ++ l2) k
  = match loc eqb l1 k with Some r => Some r | None => loc eqb l2 k end.
Proof.
  induction l1 as [|[k0 r0] l1 IH]; simpl; [reflexivity|].
  now destruct (eqb k0 k).
Qed.

Lemma loc_frame_rows3 (name : string) (rs : list (index2 * list float))
    (c m r : string) :
  loc index3_eqb (frame_rows3 (name, rs)) (c, m, r)
  = if String.eqb name m then loc index2_eqb rs (c, r) else None.
Proof.
  unfold frame_rows3. cbn [fst snd].
  induction rs as [|[[c0 r0] row] rs IH]; cbn [map loc fst snd].
  - now destruct (String.eqb name m).
  - rewrite IH. unfold index3_eqb, index2_eqb. cbn [fst snd].
    destruct (String.eqb name m), (String.eqb c0 c), (String.eqb r0 r); reflexivity.
Qed.

Lemma loc_concat (d : dict (list (index2 * list float)))
    (results : list (index3 * list float)) (c m r : string) :
  concat d = Ok results -> NoDup (dict_keys d) ->
  loc index3_eqb results (c, m, r)
  = match dict_get d m with Some rs => loc index2_eqb rs (c, r) | None => None end.
Proof.
  intros Hc Hnd.
  assert (E : results = flat_map frame_rows3 d).
  { destruct d; [discriminate|]. now injection Hc as <-. }
  subst results. clear Hc.
  induction d as [|[name rs] d IH]; [reflexivity|].
  cbn [flat_map dict_get]. rewrite loc_app, loc_frame_rows3.
  inversion Hnd as [|? ? Hnotin Hnd']; subst.
  destruct (String.eqb name m) eqn:E.
  - apply String.eqb_eq in E. subst m.
    destruct (loc index2_eqb rs (c, r)) eqn:El; [reflexivity|].
    rewrite (IH Hnd').
    destruct (dict_get d name) eqn:Eg; [|reflexivity].
    exfalso. apply Hnotin. clear - Eg.
    induction d as [|[k0 v0] d IH]; [discriminate|]. simpl in *.
    destruct (String.eqb k0 name) eqn:E; [left; now apply String.eqb_eq | right; auto].
  - apply IH, Hnd'.
Qed.

(** ** Gain rows *)

Lemma loc_getitem_Ok {I : Type} (eqb : I -> I -> bool) (rs : list (I * list float))
    (k : I) (r : list float) :
  loc_getitem eqb rs k = Ok r -> loc eqb rs k = Some r.
Proof. unfold loc_getitem. destruct (loc eqb rs k); now intros [= <-]. Qed.

Lemma index2_loc_set_other (rs : list (index2 * list float)) (k k' : index2)
    (row : list float) :
  k <> k' -> loc index2_eqb (loc_set index2_eqb rs k row) k' = loc index2_eqb rs k'.
Proof. apply loc_set_other, index2_eqb_eq. Qed.

Lemma index2_loc_set_same (rs : list (index2 * list float)) (k : index2)
    (row : list float) :
  loc index2_eqb (loc_set index2_eqb rs k row) k = Some row.
Proof. apply loc_set_same, index2_eqb_eq. Qed.

(** Whatever [adjust_nsamp] is, the pass for [stat] only writes the two rows
    of its gain. *)
Lemma add_gain_loc_other (adjust_nsamp : option (list float))
    (base df df' : list (index2 * list float)) (stat : string) (key : index2) :
  add_gain adjust_nsamp base df stat = Ok df' ->
  fst key <> gain_key stat ->
  loc index2_eqb df' key = loc index2_eqb df key.
Proof.
  intros H Hne.
  assert (Hv : (gain_key stat, "value") <> key) by (intros <-; now apply Hne).
  assert (Hu : (gain_key stat, "uncertainty") <> key) by (intros <-; now apply Hne).
  revert H. unfold add_gain. fold (gain_key stat).
  bind_step bv Ebv. bind_step dv Edv. bind_step bu Ebu. bind_step du Edu.
  destruct adjust_nsamp as [a|].
  - bind_step a0 Ea0. bind_step g Eg. bind_step g' Eg'.
    bind_step gu Egu. bind_step gu' Egu'. intros [= <-].
    now rewrite !index2_loc_set_other.
  - intros [= <-]. now rewrite !index2_loc_set_other.
Qed.

(** Without [adjust_nsamp], the gain value row is the squared ratio of the
    baseline's row to the method's row. *)
Lemma add_gain_value (base df df' : list (index2 * list float)) (stat : string) :
  add_gain None base df stat = Ok df' ->
  exists bv dv,
    loc index2_eqb base (stat, "value") = Some bv /\
    loc index2_eqb df (stat, "value") = Some dv /\
    loc index2_eqb df' (gain_key stat, "value")
    = Some (map Np.square (map2 PrimFloat.div bv dv)).
Proof.
  unfold add_gain. fold (gain_key stat).
  bind_step bv Ebv. bind_step dv Edv. bind_step bu Ebu. bind_step du Edu.
  intros [= <-]. exists bv, dv.
  split; [now apply loc_getitem_Ok|]. split; [now apply loc_getitem_Ok|].
  rewrite index2_loc_set_other, index2_loc_set_same; [reflexivity|].
  intros [=].
Qed.

Lemma summary_df_from_list_Ok_inv (results_list : list (list float))
    (names : list string) (kwargs : dict pyobj) (t : frame index2) :
  summary_df_from_list results_list names kwargs = Ok t ->
  results_list <> [] /\
  wf_df (list_df results_list names) /\
  summary_df (list_df results_list names) kwargs = Ok t.
Proof.
  unfold summary_df_from_list.
  bind_step u Eu. apply py_assert_Ok in Eu.
  destruct results_list as [|r rs]; [intro; discriminate|].
  unfold stack, set_columns. cbn [bind nd_ncols nd_rows].
  rewrite Nat.eqb_refl. cbn [bind]. intro H.
  split; [discriminate|]. split; [|exact H].
  unfold wf_df, wf_rows, list_df. cbn [df_columns df_values].
  apply Forall_forall. intros x Hx.
  rewrite forallb_forall in Eu. apply Nat.eqb_eq. now apply Eu.
Qed.

Lemma uniqueb_three (n0 n1 : string) :
  uniqueb ["" ; n0; n1] = true -> n0 <> n1 /\ n0 <> "" /\ n1 <> "".
Proof.
  cbn [uniqueb existsb]. rewrite !orb_false_r.
  destruct (String.eqb_spec "" n0), (String.eqb_spec "" n1), (String.eqb_spec n0 n1);
    cbn; try discriminate; intuition congruence.
Qed.

Lemma nth_square_div_diag (s : list float) (j : nat) :
  (j < List.length s)%nat -> finite_nonzero (nth j s nan) = true ->
  nth j (map Np.square (map2 PrimFloat.div s s)) nan = 1%float.
Proof.
  intros Hj Hf.
  change nan with (Np.square nan) at 1. rewrite map_nth.
  rewrite (nth_map2 _ _ _ _ nan nan nan Hj eq_refl), (div_diag _ Hf).
  reflexivity.
Qed.

Lemma nth_square_div_undefined (s : list float) (j : nat) :
  (j < List.length s)%nat -> finite_nonzero (nth j s nan) = false ->
  nth j (map Np.square (map2 PrimFloat.div s s)) nan = nan.
Proof.
  intros Hj Hf.
  change nan with (Np.square nan) at 1. rewrite map_nth.
  rewrite (nth_map2 _ _ _ _ nan nan nan Hj eq_refl), (div_undefined _ Hf).
  reflexivity.
Qed.

Lemma length_map2_diag {A C : Type} (f : A -> A -> C) (s : list A) :
  List.length (map2 f s s) = List.length s.
Proof. induction s as [|x s IH]; simpl; [reflexivity | now rewrite IH]. Qed.

Tactic Notation "bind_inv" hyp(H) "as" ident(x) ident(E) :=
  apply bind_Ok in H as (x & E & H).

(** The two passes of the loop over two methods. *)
Lemma method_loop_two (n0 n1 : string) (v0 v1 : list (list float))
    (est_names : list string) (true_values include_rmse : pyobj)
    (adjust_nsamp : option (list float)) (d : dict (list (index2 * list float))) :
  method_loop [n0; n1] [v0; v1] est_names true_values include_rmse adjust_nsamp
    0 [n0; n1] [] = Ok d ->
  exists df0 df1 with_rmse gains,
    summary_df_from_list v0 est_names (method_options true_values include_rmse) = Ok df0 /\
    summary_df_from_list v1 est_names (method_options true_values include_rmse) = Ok df1 /\
    py_truth include_rmse = Ok with_rmse /\
    add_gains adjust_nsamp (rows df0) (rows df1)
      ("std" :: (if with_rmse : bool then ["rmse"] else [])) = Ok gains /\
    d = dict_set [(n0, rows df0)] n1 gains.
Proof.
  cbn [method_loop]. intro H.
  bind_inv H as rs0 E0. bind_inv H as rs1 E1. injection H as <-.
  unfold method_df in E0, E1. cbn [list_getitem nth_error bind Nat.eqb] in E0, E1.
  bind_inv E0 as df0 Edf0. injection E0 as <-.
  bind_inv E1 as df1 Edf1. bind_inv E1 as with_rmse Ew.
  unfold dict_getitem, dict_get in E1. cbn [dict_set] in E1.
  rewrite String.eqb_refl in E1. cbn [bind] in E1.
  exists df0, df1, with_rmse, rs1. repeat split; assumption.
Qed.

Lemma add_gains_value (base df gains : list (index2 * list float))
    (with_rmse : bool) (stat : string) :
  add_gains None base df (tracked_stats with_rmse) = Ok gains ->
  In stat (tracked_stats with_rmse) ->
  exists bv dv,
    loc index2_eqb base (stat, "value") = Some bv /\
    loc index2_eqb df (stat, "value") = Some dv /\
    loc index2_eqb gains (gain_key stat, "value")
    = Some (map Np.square (map2 PrimFloat.div bv dv)).
Proof.
  unfold tracked_stats. cbn [add_gains]. intros H Hin.
  bind_inv H as df1 E1.
  destruct with_rmse; cbn [add_gains] in H.
  - bind_inv H as df2 E2. injection H as <-.
    destruct Hin as [<-|[<-|[]]].
    + destruct (add_gain_value _ _ _ _ E1) as (bv & dv & Hb & Hd & Hg).
      exists bv, dv. repeat split; try assumption.
      rewrite (add_gain_loc_other _ _ _ _ _ (gain_key "std", "value") E2); [exact Hg|].
      cbn. intros [=].
    + destruct (add_gain_value _ _ _ _ E2) as (bv & dv & Hb & Hd & Hg).
      exists bv, dv. repeat split; try assumption.
      rewrite <- (add_gain_loc_other _ _ _ _ _ ("rmse", "value") E1); [exact Hd|].
      cbn. intros [=].
  - injection H as <-. destruct Hin as [<-|[]].
    now apply add_gain_value.
Qed.

(** The rows of the tracked statistics are in every method's summary. *)
Lemma method_summary_stat (df : DataFrame) (true_values include_rmse : pyobj)
    (t : frame index2) (with_rmse : bool) (stat : string) :
  summary_df df (method_options true_values include_rmse) = Ok t ->
  py_truth include_rmse = Ok with_rmse ->
  In stat (tracked_stats with_rmse) ->
  exists s, loc index2_eqb (rows t) (stat, "value") = Some s.
Proof.
  intros H Ew Hin. apply summary_df_Ok_inv in H
    as (tv & itv & irmse & _ & Etv & Eitv & Eirmse & Hlen & Hnone & _ & -> & _).
  change (py_truth include_rmse = Ok irmse) in Eirmse.
  rewrite Ew in Eirmse. injection Eirmse as <-. injection Eitv as <-.
  cbn [rows]. unfold tracked_stats in Hin. destruct Hin as [<-|Hin].
  - eexists. apply summary_rows_loc.
  - destruct with_rmse; [|destruct Hin]. destruct Hin as [<-|[]].
    destruct tv as [v|]; [|now destruct (Hnone eq_refl)].
    destruct (rmse_and_unc_Ok (values_of df) v (Hlen v eq_refl)) as (r & u & Er).
    exists r. unfold summary_rows, rmse_rows. now rewrite Er.
Qed.

(** Reading a row of the final table: the sort and the true-values row do
    not touch the rows of the methods. *)
Lemma gain_table_loc (method_names : list string)
    (results : list (index3 * list float)) (itv : bool) (tv_row : list float)
    (c m r : string) :
  c <> "true values" ->
  loc index3_eqb
    (sort_index (gain_codes method_names)
       (if itv then loc_set index3_eqb results ("true values", "", "value") tv_row
        else results))
    (c, m, r)
  = loc index3_eqb results (c, m, r).
Proof.
  intro Hc. rewrite (loc_sort_index _ _ index3_eqb_eq).
  destruct itv; [|reflexivity].
  apply (loc_set_other _ index3_eqb_eq). intros [=]. congruence.
Qed.

(** C8 (as amended).  Two methods given the same per-repeat values and no
    [adjust_nsamp]: in every table the call returns, for every tracked
    statistic (std, and rmse when [include_rmse] is set), the
    '<stat> efficiency gain' value row of the second method has one entry
    per estimator; the entry is exactly 1 in every column where the
    statistic itself is a finite non-zero number, and NaN in every other
    column, where the statistic is zero (0/0), infinite or NaN. *)
Theorem C8_identical_methods_gain_one (n0 n1 : string) (vs : list (list float))
    (est_names : list string) (kwargs : dict pyobj) (R : frame index3) :
  efficiency_gain_df [n0; n1] [vs; vs] est_names kwargs = Ok R ->
  option_value kwargs "adjust_nsamp" PyNone = PyNone ->
  forall stat,
    stat = "std" \/
    (stat = "rmse" /\
     py_truth (option_value kwargs "include_rmse" (PyBool false)) = Ok true) ->
    exists s g,
      loc index3_eqb (rows R) (stat, n0, "value") = Some s /\
      loc index3_eqb (rows R) (gain_key stat, n1, "value") = Some g /\
      List.length g = List.length s /\
      forall j, (j < List.length s)%nat ->
                (finite_nonzero (nth j s nan) = true -> nth j g nan = 1%float) /\
                (finite_nonzero (nth j s nan) = false -> nth j g nan = nan).
Proof.
  intros HR Hadj stat Hstat. revert HR.
  unfold efficiency_gain_df, dict_pop.
  rewrite unexpected_gain, !dict_get_del_ne by reflexivity.
  change (match dict_get kwargs "adjust_nsamp" with Some v => v | None => PyNone end)
    with (option_value kwargs "adjust_nsamp" PyNone).
  change (match dict_get kwargs "include_rmse" with
          | Some v => v | None => PyBool false end)
    with (option_value kwargs "include_rmse" (PyBool false)) in *.
  change (match dict_get kwargs "true_values" with Some v => v | None => PyNone end)
    with (option_value kwargs "true_values" PyNone).
  rewrite Hadj.
  destruct (unexpected gain_options kwargs); [|intro; discriminate].
  cbn [is_empty negb py_array_opt bind List.length Nat.eqb py_assert].
  bind_step d Ed. bind_step results Eres. bind_step u Eu. bind_step itv Eitv.
  intros [= <-]. cbn [rows].
  apply method_loop_two in Ed as (df0 & df1 & with_rmse & gains & E0 & E1 & Ew & Eg & ->).
  rewrite E0 in E1. injection E1 as <-.
  destruct (uniqueb ["" ; n0; n1]) eqn:Eun; [|discriminate].
  apply uniqueb_three in Eun as (Hne & _ & _).
  assert (Hd : NoDup (dict_keys (dict_set [(n0, rows df0)] n1 gains))).
  { apply NoDup_dict_set. repeat constructor. intros []. }
  assert (Hin : In stat (tracked_stats with_rmse)).
  { unfold tracked_stats. destruct Hstat as [->|[-> Hr]]; [now left|].
    rewrite Hr in Ew. injection Ew as <-. right. now left. }
  apply summary_df_from_list_Ok_inv in E0 as (_ & _ & E0).
  destruct (method_summary_stat _ _ _ _ _ _ E0 Ew Hin) as (s & Hs).
  destruct (add_gains_value _ _ _ _ _ Eg Hin) as (bv & dv & Hb & Hdv & Hg).
  rewrite Hs in Hb, Hdv. injection Hb as <-. injection Hdv as <-.
  exists s, (map Np.square (map2 PrimFloat.div s s)).
  rewrite !gain_table_loc.
  - rewrite !(loc_concat _ _ _ _ _ Eres Hd).
    rewrite dict_get_set_same, dict_get_set_other by congruence.
    cbn [dict_get]. rewrite String.eqb_refl.
    split; [exact Hs|]. split; [exact Hg|]. split.
    + now rewrite length_map, length_map2_diag.
    + intros j Hj. split; [now apply nth_square_div_diag
                          | now apply nth_square_div_undefined].
  - destruct Hstat as [->|[-> _]]; cbn; intros [=].
  - destruct Hstat as [->|[-> _]]; intros [=].
Qed.


(** ** The check on the number of methods *)

Lemma passes_bind {A B : Type} (r : result A) (k : A -> result B) :
  passes_names_values r -> (forall a, passes_names_values (k a)) ->
  passes_names_values (bind r k).
Proof.
  unfold passes_names_values. intros Hr Hk. destruct r as [a|e]; simpl; [apply Hk|].
  intros [= ->]. now apply Hr.
Qed.

Ltac passes_step :=
  lazymatch goal with
  | |- passes_names_values (bind _ _) => apply passes_bind; [|intro]
  | |- passes_names_values (Ok _) => intro; discriminate
  | |- passes_names_values (Raise _) => intro; discriminate
  | |- passes_names_values (py_assert ?c _) => destruct c; intro; discriminate
  | |- passes_names_values (match ?x with _ => _ end) => destruct x
  end.

Ltac passes := repeat passes_step.

Lemma summary_df_passes (df : DataFrame) (kwargs : dict pyobj) :
  passes_names_values (summary_df df kwargs).
Proof.
  unfold summary_df, dict_pop, py_array_opt, py_truth, loc_getitem, Np.py_truediv,
    rmse_and_unc.
  passes.
Qed.

Lemma summary_df_from_list_passes (results_list : list (list float))
    (names : list string) (kwargs : dict pyobj) :
  passes_names_values (summary_df_from_list results_list names kwargs).
Proof.
  unfold summary_df_from_list, stack, set_columns. passes. apply summary_df_passes.
Qed.

Lemma add_gains_passes (adjust_nsamp : option (list float))
    (base df : list (index2 * list float)) (stats : list string) :
  passes_names_values (add_gains adjust_nsamp base df stats).
Proof.
  revert df. induction stats as [|stat stats IH]; intro df; cbn [add_gains].
  - passes.
  - apply passes_bind; [|intro; apply IH].
    unfold add_gain, loc_getitem, list_getitem, series_imul. passes.
Qed.

Lemma method_loop_passes (method_names : list string)
    (method_values : list (list (list float))) (est_names : list string)
    (true_values include_rmse : pyobj) (adjust_nsamp : option (list float))
    (names : list string) (i : nat) (d : dict (list (index2 * list float))) :
  passes_names_values
    (method_loop method_names method_values est_names true_values include_rmse
       adjust_nsamp i names d).
Proof.
  revert i d. induction names as [|name names IH]; intros i d; cbn [method_loop].
  - passes.
  - apply passes_bind; [|intro; apply IH].
    unfold method_df. apply passes_bind; [unfold list_getitem; passes|]. intro vals.
    apply passes_bind; [apply summary_df_from_list_passes|]. intro df.
    destruct (i =? 0)%nat; [passes|].
    unfold py_truth, list_getitem, dict_getitem.
    do 3 (apply passes_bind; [passes|]; intro).
    apply add_gains_passes.
Qed.

(** ** Each method name meets its own value list *)

Lemma add_gains_loc_other (adjust_nsamp : option (list float))
    (base df df' : list (index2 * list float)) (stats : list string) (key : index2) :
  add_gains adjust_nsamp base df stats = Ok df' ->
  ~ In (fst key) (map gain_key stats) ->
  loc index2_eqb df' key = loc index2_eqb df key.
Proof.
  revert df. induction stats as [|stat stats IH]; intros df H Hnot; cbn [add_gains] in H.
  - now injection H as <-.
  - bind_inv H as df1 E1. cbn [map In] in Hnot.
    rewrite (IH df1 H) by tauto.
    apply (add_gain_loc_other _ _ _ _ _ _ E1). intro E. apply Hnot. now left.
Qed.

Section MethodLoopFacts.
Variables (method_names : list string) (method_values : list (list (list float)))
          (est_names : list string)
          (true_values include_rmse : pyobj) (adjust_nsamp : option (list float)).

Lemma method_df_rows (i : nat) (d : dict (list (index2 * list float)))
    (rs : list (index2 * list float)) (vals : list (list float)) :
  method_df method_names method_values est_names true_values include_rmse
    adjust_nsamp i d = Ok rs ->
  nth_error method_values i = Some vals ->
  loc index2_eqb rs ("mean", "value") = Some (mean_row (list_df vals est_names)) /\
  loc index2_eqb rs ("std", "value") = Some (std_row (list_df vals est_names)).
Proof.
  unfold method_df, list_getitem. intros H Hv. rewrite Hv in H. cbn [bind] in H.
  bind_inv H as df Edf.
  apply summary_df_from_list_Ok_inv in Edf as (_ & _ & Edf).
  apply summary_df_Ok_inv in Edf
    as (tv & itv & irmse & _ & _ & _ & _ & _ & _ & _ & -> & _).
  cbn [rows] in H.
  pose proof (summary_rows_loc (list_df vals est_names) tv itv irmse)
    as (Hm & Hs & _).
  destruct (i =? 0)%nat.
  - injection H as <-. now split.
  - bind_inv H as with_rmse Ew. bind_inv H as name0 E0. bind_inv H as base Eb.
    split.
    + rewrite (add_gains_loc_other _ _ _ _ _ ("mean", "value") H); [exact Hm|].
      destruct with_rmse; cbn; intuition discriminate.
    + rewrite (add_gains_loc_other _ _ _ _ _ ("std", "value") H); [exact Hs|].
      destruct with_rmse; cbn; intuition discriminate.
Qed.

Lemma method_loop_spec (names : list string) :
  forall (i : nat) (d d' : dict (list (index2 * list float))),
    method_loop method_names method_values est_names true_values include_rmse
      adjust_nsamp i names d = Ok d' ->
    NoDup names ->
    (forall k, ~ In k names -> dict_get d' k = dict_get d k) /\
    (NoDup (dict_keys d) -> NoDup (dict_keys d')) /\
    (forall j name,
       nth_error names j = Some name ->
       exists rs d0,
         method_df method_names method_values est_names true_values include_rmse
           adjust_nsamp (i + j) d0 = Ok rs /\
         dict_get d' name = Some rs).
Proof.
  induction names as [|name names IH]; intros i d d' H Hnd; cbn [method_loop] in H.
  - injection H as <-. repeat split; try tauto.
    intros [|j] name' E; discriminate E.
  - bind_inv H as rs Ers.
    inversion Hnd as [|? ? Hnotin Hnd']; subst.
    destruct (IH _ _ _ H Hnd') as (Hother & Hkeys & Hpaired).
    split; [|split].
    + intros k Hk. rewrite Hother by (intro; apply Hk; now right).
      apply dict_get_set_other. intros <-. apply Hk. now left.
    + intro Hd. now apply Hkeys, NoDup_dict_set.
    + intros [|j] name' E; cbn [nth_error] in E.
      * injection E as <-. exists rs, d. rewrite Nat.add_0_r. split; [exact Ers|].
        rewrite (Hother name Hnotin). apply dict_get_set_same.
      * destruct (Hpaired j name' E) as (rs' & d0 & Hdf & Hget).
        exists rs', d0. split; [|exact Hget].
        now replace (i + S j)%nat with (S i + j)%nat by lia.
Qed.
End MethodLoopFacts.

(** C9.  When the number of method names differs from the number of value
    lists, [efficiency_gain_df] returns no table; once the options have
    passed their own checks the exception is the assertion
    [len(method_names) == len(method_values)], raised before any summary is
    computed.  When the two lengths are equal that assertion is not what
    the call ends in, and in every table returned the rows of the method
    named [method_names[i]] are the statistics of [method_values[i]]: its
    mean and std rows are the columnwise mean and standard deviation of that
    value list. *)
Theorem C9_names_and_values_paired (method_names : list string)
    (method_values : list (list (list float))) (est_names : list string)
    (kwargs : dict pyobj) :
  (List.length method_names <> List.length method_values ->
   (exists e, efficiency_gain_df method_names method_values est_names kwargs = Raise e) /\
   (forall adjust_nsamp,
      unexpected gain_options kwargs = [] ->
      py_array_opt (option_value kwargs "adjust_nsamp" PyNone) = Ok adjust_nsamp ->
      (forall a, adjust_nsamp = Some a -> List.length a = List.length method_names) ->
      efficiency_gain_df method_names method_values est_names kwargs
      = Raise (AssertionError Assert_names_values))) /\
  (List.length method_names = List.length method_values ->
   efficiency_gain_df method_names method_values est_names kwargs
   <> Raise (AssertionError Assert_names_values) /\
   forall R,
     efficiency_gain_df method_names method_values est_names kwargs = Ok R ->
     forall i name,
       nth_error method_names i = Some name ->
       exists vals,
         nth_error method_values i = Some vals /\
         loc index3_eqb (rows R) ("mean", name, "value")
         = Some (map (fun j => Nanops.nanmean (column j vals))
                     (seq 0 (List.length est_names))) /\
         loc index3_eqb (rows R) ("std", name, "value")
         = Some (map (fun j => Nanops.nanstd (column j vals))
                     (seq 0 (List.length est_names)))).
Proof.
  unfold efficiency_gain_df, dict_pop.
  rewrite unexpected_gain, !dict_get_del_ne by reflexivity.
  change (match dict_get kwargs "adjust_nsamp" with Some v => v | None => PyNone end)
    with (option_value kwargs "adjust_nsamp" PyNone).
  split.
  - intro Hne. apply Nat.eqb_neq in Hne. split.
    + destruct (unexpected gain_options kwargs); cbn [is_empty negb]; [|eauto].
      destruct (py_array_opt _) as [[a|]|]; cbn [bind]; [| |eauto].
      * destruct (List.length a =? List.length method_names)%nat; cbn [py_assert bind];
          [|eauto].
        rewrite Hne. cbn. eauto.
      * rewrite Hne. cbn. eauto.
    + intros adj Hu Eadj Hlen. rewrite Hu, Eadj. cbn [is_empty negb bind].
      destruct adj as [a|].
      * rewrite (Hlen a eq_refl), Nat.eqb_refl. cbn [py_assert bind].
        rewrite Hne. reflexivity.
      * cbn [bind]. rewrite Hne. reflexivity.
  - intro Heq. rewrite Heq, Nat.eqb_refl. split.
    + match goal with |- ?r <> _ => change (passes_names_values r) end.
      destruct (unexpected gain_options kwargs); cbn [is_empty negb];
        [|intro; discriminate].
      apply passes_bind; [unfold py_array_opt; passes|intro adj].
      apply passes_bind; [passes|intros _].
      cbn [py_assert bind].
      apply passes_bind; [apply method_loop_passes|intro d].
      unfold concat, py_truth. passes.
    + intros R HR i name Hi. revert HR.
      destruct (unexpected gain_options kwargs); cbn [is_empty negb];
        [|intro; discriminate].
      bind_step adj Eadj. bind_step u Eu. cbn [py_assert bind].
      bind_step d Ed. bind_step results Eres. bind_step u' Eun. bind_step itv Eitv.
      intros [= <-]. cbn [rows].
      destruct (uniqueb ("" :: method_names)) eqn:Hun; [|discriminate].
      apply uniqueb_NoDup in Hun. inversion Hun as [|? ? _ Hnd]; subst.
      destruct (method_loop_spec _ _ _ _ _ _ _ _ _ _ Ed Hnd) as (_ & Hkeys & Hpaired).
      destruct (Hpaired i name Hi) as (rs & d0 & Hdf & Hget).
      destruct (nth_error method_values i) as [vals|] eqn:Hv.
      2:{ apply nth_error_None in Hv.
          assert (i < List.length method_names)%nat
            by (apply nth_error_Some; congruence).
          lia. }
      exists vals. split; [reflexivity|].
      destruct (method_df_rows _ _ _ _ _ _ _ _ _ _ Hdf Hv) as (Hm & Hs).
      rewrite !gain_table_loc by discriminate.
      rewrite !(loc_concat _ _ _ _ _ Eres (Hkeys (NoDup_nil _))), Hget.
      split; assumption.
Qed.

Lemma C9_names_and_values_witness :
  efficiency_gain_df ["old"; "new"] [df_values example_df] ["a"; "b"] []
  = Raise (AssertionError Assert_names_values) /\
  loc index3_eqb
    (rows (returned (efficiency_gain_df ["old"; "new"]
                       [[[1%float]; [3%float]]; df_values cancelling_df] ["a"] [])))
    ("mean", "new", "value")
  = Some [0%float].
Proof.
  split.
  - apply (proj1 (C9_names_and_values_paired ["old"; "new"] [df_values example_df]
                    ["a"; "b"] [])) with (adjust_nsamp := None).
    + cbn. discriminate.
    + reflexivity.
    + reflexivity.
    + discriminate.
  - assert (HR : efficiency_gain_df ["old"; "new"]
                   [[[1%float]; [3%float]]; df_values cancelling_df] ["a"] []
                 = Ok (returned (efficiency_gain_df ["old"; "new"]
                         [[[1%float]; [3%float]]; df_values cancelling_df] ["a"] [])))
      by (vm_compute; reflexivity).
    destruct (proj2 (proj2 (C9_names_and_values_paired ["old"; "new"]
                       [[[1%float]; [3%float]]; df_values cancelling_df] ["a"] [])
                     eq_refl)
                _ HR 1%nat "new" eq_refl) as (vals & Hv & Hm & _).
    injection Hv as <-. rewrite Hm. vm_compute. reflexivity.
Defined.

(** ** Identical methods *)

Lemma C8_identical_methods_witness :
  exists s g,
    loc index3_eqb
      (rows (returned (efficiency_gain_df ["old"; "new"]
                         [[[1; 1]; [1; 3]; [1; 5]]%float; [[1; 1]; [1; 3]; [1; 5]]%float]
                         ["a"; "b"] [])))
      ("std", "old", "value") = Some s /\
    loc index3_eqb
      (rows (returned (efficiency_gain_df ["old"; "new"]
                         [[[1; 1]; [1; 3]; [1; 5]]%float; [[1; 1]; [1; 3]; [1; 5]]%float]
                         ["a"; "b"] [])))
      ("std efficiency gain", "new", "value") = Some g /\
    nth 0 g nan = nan /\ nth 1 g nan = 1%float.
Proof.
  destruct (C8_identical_methods_gain_one "old" "new" [[1; 1]; [1; 3]; [1; 5]]%float
              ["a"; "b"] []
              (returned (efficiency_gain_df ["old"; "new"]
                           [[[1; 1]; [1; 3]; [1; 5]]%float;
                            [[1; 1]; [1; 3]; [1; 5]]%float] ["a"; "b"] []))
              ltac:(vm_compute; reflexivity) eq_refl "std" (or_introl eq_refl))
    as (s & g & Hs & Hg & _ & H).
  exists s, g. split; [exact Hs|]. split; [exact Hg|].
  assert (Es : s = [0; 2]%float).
  { vm_compute in Hs. now injection Hs as <-. }
  subst s. split.
  - apply (H 0%nat); [simpl; lia | reflexivity].
  - apply (H 1%nat); [simpl; lia | reflexivity].
Defined.

(** C8, the claim as stated fails: when a column has the same value in
    every repeat its standard deviation is 0, the ratio is 0/0, and the gain
    is NaN, not 1. *)
Lemma C8_counterexample_constant_column :
  efficiency_gain_df ["old"; "new"]
    [[[1%float]; [1%float]]; [[1%float]; [1%float]]] ["a"] []
  = Ok {| columns := ["a"];
          rows := [(("mean", "old", "value"), [1%float]);
                   (("mean", "old", "uncertainty"), [0%float]);
                   (("mean", "new", "value"), [1%float]);
                   (("mean", "new", "uncertainty"), [0%float]);
                   (("std", "old", "value"), [0%float]);
                   (("std", "old", "uncertainty"), [0%float]);
                   (("std", "new", "value"), [0%float]);
                   (("std", "new", "uncertainty"), [0%float]);
                   (("std efficiency gain", "new", "value"), [nan]);
                   (("std efficiency gain", "new", "uncertainty"), [nan])] |}.
Proof. vm_compute. reflexivity. Qed.

(** ** Cost adjustment with two methods *)

Lemma series_imul_scalar (row : list float) (x : float) :
  series_imul row [x] = Ok (map (fun v => (v * x)%float) row).
Proof.
  unfold series_imul. destruct row as [|v [|v' row]]; reflexivity.
Qed.

(** With [adjust_nsamp = [a0, a1]] the pass for [stat] writes the rows of the
    unadjusted pass multiplied by [a0 / a1]; it reads only the rows of
    [stat] itself. *)
Lemma add_gain_adjusted (a0 a1 : float) (base df df' df0 : list (index2 * list float))
    (stat : string) :
  add_gain None base df stat = Ok df0 ->
  (forall rt, loc index2_eqb df' (stat, rt) = loc index2_eqb df (stat, rt)) ->
  exists df1,
    add_gain (Some [a0; a1]) base df' stat = Ok df1 /\
    forall rt, rt = "value" \/ rt = "uncertainty" ->
      exists g,
        loc index2_eqb df0 (gain_key stat, rt) = Some g /\
        loc index2_eqb df1 (gain_key stat, rt)
        = Some (map (fun v => (v * (a0 / a1))%float) g).
Proof.
  unfold add_gain. fold (gain_key stat). intros H Hsame. revert H.
  unfold loc_getitem. rewrite !Hsame.
  destruct (loc index2_eqb base (stat, "value")) as [bv|]; [|intro; discriminate].
  destruct (loc index2_eqb df (stat, "value")) as [dv|]; [|intro; discriminate].
  destruct (loc index2_eqb base (stat, "uncertainty")) as [bu|]; [|intro; discriminate].
  destruct (loc index2_eqb df (stat, "uncertainty")) as [du|]; [|intro; discriminate].
  cbn [bind list_getitem nth_error tl map]. intros [= <-].
  rewrite index2_loc_set_other, index2_loc_set_same by (intros [=]).
  cbn [bind]. rewrite series_imul_scalar. cbn [bind].
  rewrite index2_loc_set_other, index2_loc_set_same by (intros [=]).
  cbn [bind]. rewrite series_imul_scalar. cbn [bind].
  eexists. split; [reflexivity|].
  intros rt [->| ->].
  - exists (map Np.square (map2 PrimFloat.div bv dv)).
    split; (rewrite index2_loc_set_other by (intros [=]); apply index2_loc_set_same).
  - eexists. split; apply index2_loc_set_same.
Qed.

Lemma add_gains_adjusted (a0 a1 : float) (base df gains0 : list (index2 * list float))
    (with_rmse : bool) :
  add_gains None base df (tracked_stats with_rmse) = Ok gains0 ->
  exists gains1,
    add_gains (Some [a0; a1]) base df (tracked_stats with_rmse) = Ok gains1 /\
    forall stat rt,
      In stat (tracked_stats with_rmse) -> rt = "value" \/ rt = "uncertainty" ->
      exists g,
        loc index2_eqb gains0 (gain_key stat, rt) = Some g /\
        loc index2_eqb gains1 (gain_key stat, rt)
        = Some (map (fun v => (v * (a0 / a1))%float) g).
Proof.
  unfold tracked_stats. cbn [add_gains]. intro H.
  bind_inv H as d0 E0.
  destruct (add_gain_adjusted a0 a1 base df df d0 "std" E0 (fun _ => eq_refl))
    as (d1 & E1 & Hstd).
  rewrite E1. cbn [bind].
  destruct with_rmse; cbn [add_gains] in *.
  - bind_inv H as e0 F0. injection H as <-.
    destruct (add_gain_adjusted a0 a1 base d0 d1 e0 "rmse" F0) as (e1 & F1 & Hrmse).
    { intro rt.
      rewrite (add_gain_loc_other _ _ _ _ _ ("rmse", rt) E0) by (cbn; intros [=]).
      rewrite (add_gain_loc_other _ _ _ _ _ ("rmse", rt) E1) by (cbn; intros [=]).
      reflexivity. }
    rewrite F1. cbn [bind]. eexists. split; [reflexivity|].
    intros stat rt [<-|[<-|[]]] Hrt.
    + destruct (Hstd rt Hrt) as (g & Hg0 & Hg1). exists g.
      rewrite (add_gain_loc_other _ _ _ _ _ (gain_key "std", rt) F0) by (cbn; intros [=]).
      rewrite (add_gain_loc_other _ _ _ _ _ (gain_key "std", rt) F1) by (cbn; intros [=]).
      now split.
    + exact (Hrmse rt Hrt).
  - injection H as <-. eexists. split; [reflexivity|].
    intros stat rt [<-|[]] Hrt. exact (Hstd rt Hrt).
Qed.

Section TwoMethods.
Variables (n0 n1 : string) (v0 v1 : list (list float)) (est_names : list string)
          (kwargs : dict pyobj).

Let true_values := option_value kwargs "true_values" PyNone.
Let include_rmse := option_value kwargs "include_rmse" (PyBool false).

Lemma efficiency_gain_two_inv (R : frame index3) :
  efficiency_gain_df [n0; n1] [v0; v1] est_names kwargs = Ok R ->
  exists adj df0 df1 with_rmse gains itv,
    unexpected gain_options kwargs = [] /\
    py_array_opt (option_value kwargs "adjust_nsamp" PyNone) = Ok adj /\
    (forall a, adj = Some a -> List.length a = 2%nat) /\
    summary_df_from_list v0 est_names (method_options true_values include_rmse) = Ok df0 /\
    summary_df_from_list v1 est_names (method_options true_values include_rmse) = Ok df1 /\
    py_truth include_rmse = Ok with_rmse /\
    add_gains adj (rows df0) (rows df1) (tracked_stats with_rmse) = Ok gains /\
    uniqueb [""; n0; n1] = true /\
    py_truth (option_value kwargs "include_true_values" (PyBool false)) = Ok itv /\
    R = gain_table [n0; n1] est_names (dict_set [(n0, rows df0)] n1 gains) itv
          true_values.
Proof.
  unfold efficiency_gain_df, dict_pop.
  rewrite unexpected_gain, !dict_get_del_ne by reflexivity.
  fold (option_value kwargs "adjust_nsamp" PyNone).
  fold (option_value kwargs "include_true_values" (PyBool false)).
  fold (option_value kwargs "include_rmse" (PyBool false)). fold include_rmse.
  fold (option_value kwargs "true_values" PyNone). fold true_values.
  destruct (unexpected gain_options kwargs); [|intro; discriminate].
  cbn [is_empty negb].
  bind_step adj Eadj. bind_step u Eu.
  cbn [List.length Nat.eqb py_assert bind].
  bind_step d Ed. bind_step results Eres. bind_step u' Eun. bind_step itv Eitv.
  intros [= <-].
  apply method_loop_two in Ed
    as (df0 & df1 & with_rmse & gains & E0 & E1 & Ew & Eg & ->).
  exists adj, df0, df1, with_rmse, gains, itv.
  split; [reflexivity|]. split; [reflexivity|]. split.
  { intros a ->. apply py_assert_Ok in Eu. now apply Nat.eqb_eq. }
  repeat (split; [assumption|]). split.
  { now destruct (uniqueb [""; n0; n1]). }
  split; [reflexivity|].
  unfold gain_table. unfold concat in Eres.
  destruct (dict_set [(n0, rows df0)] n1 gains) eqn:Ed; [discriminate|].
  now injection Eres as <-.
Qed.

Lemma efficiency_gain_two_Ok (adj : option (list float)) (df0 df1 : frame index2)
    (with_rmse : bool) (gains : list (index2 * list float)) (itv : bool) :
  unexpected gain_options kwargs = [] ->
  py_array_opt (option_value kwargs "adjust_nsamp" PyNone) = Ok adj ->
  (forall a, adj = Some a -> List.length a = 2%nat) ->
  summary_df_from_list v0 est_names (method_options true_values include_rmse) = Ok df0 ->
  summary_df_from_list v1 est_names (method_options true_values include_rmse) = Ok df1 ->
  py_truth include_rmse = Ok with_rmse ->
  add_gains adj (rows df0) (rows df1) (tracked_stats with_rmse) = Ok gains ->
  uniqueb [""; n0; n1] = true ->
  py_truth (option_value kwargs "include_true_values" (PyBool false)) = Ok itv ->
  efficiency_gain_df [n0; n1] [v0; v1] est_names kwargs
  = Ok (gain_table [n0; n1] est_names (dict_set [(n0, rows df0)] n1 gains) itv
          true_values).
Proof.
  intros Hu Eadj Hadj E0 E1 Ew Eg Hun Eitv.
  unfold efficiency_gain_df, dict_pop.
  rewrite unexpected_gain, !dict_get_del_ne by reflexivity.
  fold (option_value kwargs "adjust_nsamp" PyNone).
  fold (option_value kwargs "include_true_values" (PyBool false)).
  fold (option_value kwargs "include_rmse" (PyBool false)). fold include_rmse.
  fold (option_value kwargs "true_values" PyNone). fold true_values.
  rewrite Hu, Eadj. cbn [is_empty negb bind].
  assert (Ea : match adj with
               | Some a => py_assert (List.length a =? 2)%nat Assert_adjust_nsamp_shape
               | None => Ok tt
               end = Ok tt).
  { destruct adj as [a|]; [|reflexivity]. now rewrite (Hadj a eq_refl). }
  cbn [List.length]. rewrite Ea.
  cbn [Nat.eqb py_assert bind method_loop].
  unfold method_df at 1. cbn [list_getitem nth_error bind Nat.eqb].
  fold (method_options true_values include_rmse).
  rewrite E0. cbn [bind dict_set].
  unfold method_df. cbn [list_getitem nth_error bind Nat.eqb].
  fold (method_options true_values include_rmse).
  rewrite E1, Ew. cbn [bind]. unfold dict_getitem, dict_get.
  rewrite String.eqb_refl. cbn [bind]. fold (tracked_stats with_rmse).
  rewrite Eg. cbn [bind].
  destruct (uniqueb_three _ _ Hun) as (Hne & _ & _). apply String.eqb_neq in Hne.
  unfold gain_table, concat. cbn [dict_set]. rewrite Hne, Hun, Eitv. reflexivity.
Qed.
End TwoMethods.

Lemma gain_table_row (method_names est_names : list string)
    (d : dict (list (index2 * list float))) (itv : bool) (tvo : pyobj)
    (c m r : string) :
  NoDup (dict_keys d) -> c <> "true values" ->
  loc index3_eqb (rows (gain_table method_names est_names d itv tvo)) (c, m, r)
  = match dict_get d m with
    | Some rs => loc index2_eqb rs (c, r)
    | None => None
    end.
Proof.
  intros Hd Hc. unfold gain_table. cbn [rows]. rewrite gain_table_loc by assumption.
  destruct d as [|x d]; [reflexivity|].
  now apply loc_concat.
Qed.

Lemma option_value_same (kw0 kw1 : dict pyobj) (k : string) (default : pyobj) :
  dict_get kw1 k = dict_get kw0 k -> option_value kw1 k default = option_value kw0 k default.
Proof. unfold option_value. now intros ->. Qed.

(** X1.  With exactly two methods, [adjust_nsamp = [a0, a1]] multiplies
    every '<stat> efficiency gain' value and uncertainty entry of the second
    method by the scalar [a0 / a1]: the call succeeds whenever the call
    without [adjust_nsamp] does, and its gain rows are those of that call
    times [a0 / a1]. *)
Theorem adjust_nsamp_two_methods (n0 n1 : string) (v0 v1 : list (list float))
    (est_names : list string) (kw0 kw1 : dict pyobj) (a0 a1 : float)
    (R0 : frame index3) :
  efficiency_gain_df [n0; n1] [v0; v1] est_names kw0 = Ok R0 ->
  option_value kw0 "adjust_nsamp" PyNone = PyNone ->
  option_value kw1 "adjust_nsamp" PyNone = PyArray [a0; a1] ->
  unexpected gain_options kw1 = [] ->
  (forall k, In k summary_options -> dict_get kw1 k = dict_get kw0 k) ->
  exists R,
    efficiency_gain_df [n0; n1] [v0; v1] est_names kw1 = Ok R /\
    forall stat rt,
      stat = "std" \/
      (stat = "rmse" /\
       py_truth (option_value kw0 "include_rmse" (PyBool false)) = Ok true) ->
      rt = "value" \/ rt = "uncertainty" ->
      exists g,
        loc index3_eqb (rows R0) (gain_key stat, n1, rt) = Some g /\
        loc index3_eqb (rows R) (gain_key stat, n1, rt)
        = Some (map (fun v => (v * (a0 / a1))%float) g).
Proof.
  intros HR0 Hadj0 Hadj1 Hu1 Hsame.
  apply efficiency_gain_two_inv in HR0
    as (adj & df0 & df1 & w & gains0 & itv & _ & Eadj & _ & E0 & E1 & Ew & Eg & Hun
        & Eitv & ->).
  rewrite Hadj0 in Eadj. injection Eadj as <-.
  destruct (add_gains_adjusted a0 a1 _ _ _ _ Eg) as (gains1 & Eg1 & Hrel).
  assert (Htv : option_value kw1 "true_values" PyNone
                = option_value kw0 "true_values" PyNone)
    by (apply option_value_same, Hsame; cbn; tauto).
  assert (Hir : option_value kw1 "include_rmse" (PyBool false)
                = option_value kw0 "include_rmse" (PyBool false))
    by (apply option_value_same, Hsame; cbn; tauto).
  assert (Hit : option_value kw1 "include_true_values" (PyBool false)
                = option_value kw0 "include_true_values" (PyBool false))
    by (apply option_value_same, Hsame; cbn; tauto).
  eexists. split.
  - apply (efficiency_gain_two_Ok n0 n1 v0 v1 est_names kw1 (Some [a0; a1])
             df0 df1 w gains1 itv); rewrite ?Htv, ?Hir, ?Hit; try assumption.
    + now rewrite Hadj1.
    + now intros a [= <-].
  - intros stat rt Hstat Hrt.
    assert (Hin : In stat (tracked_stats w)).
    { unfold tracked_stats. destruct Hstat as [->|[-> Hr]]; [now left|].
      rewrite Hr in Ew. injection Ew as <-. right. now left. }
    destruct (Hrel stat rt Hin Hrt) as (g & Hg0 & Hg1).
    destruct (uniqueb_three _ _ Hun) as (Hne & _ & _).
    assert (Hc : gain_key stat <> "true values")
      by (destruct Hstat as [->|[-> _]]; cbn; intros [=]).
    exists g. rewrite !gain_table_row;
      try (apply NoDup_dict_set; repeat constructor; intros []); try assumption.
    rewrite !dict_get_set_same. now split.
Qed.

Lemma add_gain_value_adjusted (a0 a1 : float) (base df df' : list (index2 * list float))
    (stat : string) :
  add_gain (Some [a0; a1]) base df stat = Ok df' ->
  exists bv dv,
    loc index2_eqb base (stat, "value") = Some bv /\
    loc index2_eqb df (stat, "value") = Some dv /\
    loc index2_eqb df' (gain_key stat, "value")
    = Some (map (fun v => (v * (a0 / a1))%float)
              (map Np.square (map2 PrimFloat.div bv dv))).
Proof.
  unfold add_gain. fold (gain_key stat).
  bind_step bv Ebv. bind_step dv Edv. bind_step bu Ebu. bind_step du Edu.
  cbn [bind list_getitem nth_error tl map]. unfold loc_getitem at 1.
  rewrite index2_loc_set_other, index2_loc_set_same by (intros [=]).
  cbn [bind]. rewrite series_imul_scalar. cbn [bind].
  bind_step gu Egu. bind_step gu' Egu'. intros [= <-].
  exists bv, dv.
  split; [now apply loc_getitem_Ok|]. split; [now apply loc_getitem_Ok|].
  rewrite index2_loc_set_other, index2_loc_set_same; [reflexivity|].
  intros [=].
Qed.

Lemma add_gains_value_adjusted (a0 a1 : float)
    (base df gains : list (index2 * list float)) (with_rmse : bool) (stat : string) :
  add_gains (Some [a0; a1]) base df (tracked_stats with_rmse) = Ok gains ->
  In stat (tracked_stats with_rmse) ->
  exists bv dv,
    loc index2_eqb base (stat, "value") = Some bv /\
    loc index2_eqb df (stat, "value") = Some dv /\
    loc index2_eqb gains (gain_key stat, "value")
    = Some (map (fun v => (v * (a0 / a1))%float)
              (map Np.square (map2 PrimFloat.div bv dv))).
Proof.
  unfold tracked_stats. cbn [add_gains]. intros H Hin.
  bind_inv H as df1 E1.
  destruct with_rmse; cbn [add_gains] in H.
  - bind_inv H as df2 E2. injection H as <-.
    destruct Hin as [<-|[<-|[]]].
    + destruct (add_gain_value_adjusted _ _ _ _ _ _ E1) as (bv & dv & Hb & Hd & Hg).
      exists bv, dv. repeat split; try assumption.
      rewrite (add_gain_loc_other _ _ _ _ _ (gain_key "std", "value") E2); [exact Hg|].
      cbn. intros [=].
    + destruct (add_gain_value_adjusted _ _ _ _ _ _ E2) as (bv & dv & Hb & Hd & Hg).
      exists bv, dv. repeat split; try assumption.
      rewrite <- (add_gain_loc_other _ _ _ _ _ ("rmse", "value") E1); [exact Hd|].
      cbn. intros [=].
  - injection H as <-. destruct Hin as [<-|[]].
    now apply add_gain_value_adjusted.
Qed.

(** X2.  Two methods given the same per-repeat values and
    [adjust_nsamp = [1, 2]]: every gain value is exactly 0.5 in each column
    where the statistic is a finite non-zero number. *)
Theorem adjust_nsamp_identical_methods_half (n0 n1 : string) (vs : list (list float))
    (est_names : list string) (kwargs : dict pyobj) (R : frame index3) :
  efficiency_gain_df [n0; n1] [vs; vs] est_names kwargs = Ok R ->
  option_value kwargs "adjust_nsamp" PyNone = PyArray [1%float; 2%float] ->
  forall stat,
    stat = "std" \/
    (stat = "rmse" /\
     py_truth (option_value kwargs "include_rmse" (PyBool false)) = Ok true) ->
    exists s g,
      loc index3_eqb (rows R) (stat, n0, "value") = Some s /\
      loc index3_eqb (rows R) (gain_key stat, n1, "value") = Some g /\
      List.length g = List.length s /\
      forall j, (j < List.length s)%nat ->
                finite_nonzero (nth j s nan) = true -> nth j g nan = 0.5%float.
Proof.
  intros HR Hadj stat Hstat.
  apply efficiency_gain_two_inv in HR
    as (adj & df0 & df1 & w & gains & itv & _ & Eadj & _ & E0 & E1 & Ew & Eg & Hun
        & _ & ->).
  rewrite Hadj in Eadj. injection Eadj as <-.
  rewrite E0 in E1. injection E1 as <-.
  assert (Hin : In stat (tracked_stats w)).
  { unfold tracked_stats. destruct Hstat as [->|[-> Hr]]; [now left|].
    rewrite Hr in Ew. injection Ew as <-. right. now left. }
  apply summary_df_from_list_Ok_inv in E0 as (_ & _ & E0).
  destruct (method_summary_stat _ _ _ _ _ _ E0 Ew Hin) as (s & Hs).
  destruct (add_gains_value_adjusted _ _ _ _ _ _ _ Eg Hin) as (bv & dv & Hb & Hdv & Hg).
  rewrite Hs in Hb, Hdv. injection Hb as <-. injection Hdv as <-.
  destruct (uniqueb_three _ _ Hun) as (Hne & _ & _).
  assert (Hd : NoDup (dict_keys (dict_set [(n0, rows df0)] n1 gains)))
    by (apply NoDup_dict_set; repeat constructor; intros []).
  exists s, (map (fun v => (v * (1 / 2))%float)
               (map Np.square (map2 PrimFloat.div s s))).
  rewrite !gain_table_row; try assumption.
  - rewrite dict_get_set_same, dict_get_set_other by congruence.
    cbn [dict_get]. rewrite String.eqb_refl.
    split; [exact Hs|]. split; [exact Hg|]. split.
    + now rewrite !length_map, length_map2_diag.
    + intros j Hj Hf.
      change nan with ((fun v => (v * (1 / 2))%float) nan) at 1.
      rewrite map_nth, (nth_square_div_diag s j Hj Hf). reflexivity.
  - destruct Hstat as [->|[-> _]]; cbn; intros [=].
  - destruct Hstat as [->|[-> _]]; intros [=].
Qed.

Lemma adjust_nsamp_two_methods_witness :
  exists R,
    efficiency_gain_df ["old"; "new"] [df_values example_df; df_values example_df]
      ["a"; "b"] [("adjust_nsamp", PyArray [1%float; 2%float])] = Ok R /\
    exists g,
      loc index3_eqb
        (rows (returned (efficiency_gain_df ["old"; "new"]
                           [df_values example_df; df_values example_df]
                           ["a"; "b"] [])))
        ("std efficiency gain", "new", "uncertainty") = Some g /\
      loc index3_eqb (rows R) ("std efficiency gain", "new", "uncertainty")
      = Some (map (fun v => (v * (1 / 2))%float) g).
Proof.
  destruct (adjust_nsamp_two_methods "old" "new" (df_values example_df)
              (df_values example_df) ["a"; "b"] []
              [("adjust_nsamp", PyArray [1%float; 2%float])] 1%float 2%float
              (returned (efficiency_gain_df ["old"; "new"]
                           [df_values example_df; df_values example_df]
                           ["a"; "b"] [])))
    as (R & HR & Hrel).
  - vm_compute. reflexivity.
  - reflexivity.
  - reflexivity.
  - reflexivity.
  - intros k [<-|[<-|[<-|[]]]]; reflexivity.
  - exists R. split; [exact HR|].
    apply (Hrel "std" "uncertainty"); [left | right]; reflexivity.
Defined.

Lemma adjust_nsamp_identical_methods_witness :
  exists s g,
    loc index3_eqb
      (rows (returned (efficiency_gain_df ["old"; "new"]
                         [df_values example_df; df_values example_df] ["a"; "b"]
                         [("adjust_nsamp", PyArray [1%float; 2%float])])))
      ("std", "old", "value") = Some s /\
    loc index3_eqb
      (rows (returned (efficiency_gain_df ["old"; "new"]
                         [df_values example_df; df_values example_df] ["a"; "b"]
                         [("adjust_nsamp", PyArray [1%float; 2%float])])))
      ("std efficiency gain", "new", "value") = Some g /\
    List.length g = List.length s /\
    forall j, (j < List.length s)%nat ->
              finite_nonzero (nth j s nan) = true -> nth j g nan = 0.5%float.
Proof.
  apply (adjust_nsamp_identical_methods_half "old" "new" (df_values example_df)
           ["a"; "b"] [("adjust_nsamp", PyArray [1%float; 2%float])]).
  - vm_compute. reflexivity.
  - reflexivity.
  - left. reflexivity.
Defined.

(** ** Cost adjustment *)

(** C1, the code at a failing input: three methods with identical values,
    two estimators, [adjust_nsamp = [1, 2, 4]].  Without the adjustment every
    gain is 1, so the adjusted gains should be [0.5, 0.5] for the second
    method and [0.25, 0.25] for the third.  The code multiplies the row of
    every method, across its estimator columns, by the whole vector
    [adjust_nsamp[0] / adjust_nsamp[1:]] = [0.5, 0.25].  With two methods
    that vector has one entry and the result is the claimed one. *)
Theorem C1_adjust_nsamp_across_columns :
  (loc index3_eqb
     (rows (returned (efficiency_gain_df ["old"; "new"; "newer"]
                        [df_values example_df; df_values example_df;
                         df_values example_df] ["a"; "b"] [])))
     ("std efficiency gain", "new", "value") = Some [1%float; 1%float] /\
   loc index3_eqb
     (rows (returned (efficiency_gain_df ["old"; "new"; "newer"]
                        [df_values example_df; df_values example_df;
                         df_values example_df] ["a"; "b"] [])))
     ("std efficiency gain", "newer", "value") = Some [1%float; 1%float]) /\
  (loc index3_eqb
     (rows (returned (efficiency_gain_df ["old"; "new"; "newer"]
                        [df_values example_df; df_values example_df;
                         df_values example_df] ["a"; "b"]
                        [("adjust_nsamp", PyArray [1%float; 2%float; 4%float])])))
     ("std efficiency gain", "new", "value") = Some [0.5%float; 0.25%float] /\
   loc index3_eqb
     (rows (returned (efficiency_gain_df ["old"; "new"; "newer"]
                        [df_values example_df; df_values example_df;
                         df_values example_df] ["a"; "b"]
                        [("adjust_nsamp", PyArray [1%float; 2%float; 4%float])])))
     ("std efficiency gain", "newer", "value") = Some [0.5%float; 0.25%float]) /\
  loc index3_eqb
    (rows (returned (efficiency_gain_df ["old"; "new"]
                       [df_values example_df; df_values example_df] ["a"; "b"]
                       [("adjust_nsamp", PyArray [1%float; 2%float])])))
    ("std efficiency gain", "new", "value") = Some [0.5%float; 0.5%float].
Proof. vm_compute. repeat split; reflexivity. Qed.

(** ** More IEEE-754 facts *)

(** Subtracting +0.0 changes nothing, NaN and signed zeros included. *)
Lemma sub_zero (x : float) : (x - 0)%float = x.
Proof.
  rewrite <- (SF2Prim_Prim2SF (x - 0)), FloatAxioms.sub_spec.
  rewrite <- (SF2Prim_Prim2SF x) at 2. f_equal.
  change (Prim2SF 0) with (S754_zero false).
  destruct (Prim2SF x) as [[|]| [|] | |]; reflexivity.
Qed.

(** ** Shapes *)

Lemma length_reduce_axis0 (f : list float -> float) (ncols : nat)
    (rs : list (list float)) :
  List.length (reduce_axis0 f ncols rs) = ncols.
Proof. unfold reduce_axis0. now rewrite length_map, length_seq. Qed.

Lemma length_map2 {A B C : Type} (f : A -> B -> C) (xs : list A) (ys : list B) :
  List.length xs = List.length ys -> List.length (map2 f xs ys) = List.length xs.
Proof.
  revert ys. induction xs as [|x xs IH]; intros [|y ys] H; simpl in *; try lia.
  now rewrite IH by lia.
Qed.

Lemma rmse_and_unc_lengths (a : ndarray2) (tv r u : list float) :
  rmse_and_unc a tv = Ok (r, u) ->
  List.length r = nd_ncols a /\ List.length u = nd_ncols a.
Proof.
  unfold rmse_and_unc. bind_step x E. intros [= <- <-].
  rewrite length_map2; rewrite !length_map, !length_reduce_axis0; auto.
Qed.

Lemma summary_rows_lengths (df : DataFrame) (tv : option (list float))
    (itv irmse : bool) :
  (forall v, tv = Some v -> List.length v = shape1 df) ->
  Forall (fun kr => List.length (snd kr) = shape1 df) (summary_rows df tv itv irmse).
Proof.
  intro Hlen. unfold summary_rows. apply Forall_app. split; [|apply Forall_app; split].
  - destruct tv as [v|]; [|constructor]. destruct itv; [|constructor].
    apply Forall_cons; [now apply Hlen | constructor].
  - unfold mean_unc_row, std_unc_row, mean_row, std_row.
    repeat (apply Forall_cons; [cbn [snd]; now rewrite ?length_map, length_reduce_axis0|]).
    constructor.
  - destruct tv as [v|]; [|constructor]. destruct irmse; [|constructor].
    unfold rmse_rows. destruct (rmse_and_unc (values_of df) v) as [[r u]|] eqn:E;
      [|constructor].
    apply rmse_and_unc_lengths in E as [Hr Hu].
    repeat (apply Forall_cons; [assumption|]). constructor.
Qed.

(** X3.  Every table [summary_df] returns keeps the column names of its
    input, and each of its rows has one entry per column. *)
Theorem summary_df_shape (df : DataFrame) (kwargs : dict pyobj) (t : frame index2) :
  summary_df df kwargs = Ok t ->
  columns t = df_columns df /\
  Forall (fun kr => List.length (snd kr) = List.length (columns t)) (rows t).
Proof.
  intro H. apply summary_df_Ok_inv in H
    as (tv & itv & irmse & _ & _ & _ & _ & Hlen & _ & _ & -> & _).
  split; [reflexivity|]. now apply summary_rows_lengths.
Qed.

(** X4.  When [summary_df] returns.  On a table with distinct column labels,
    at least one, the call returns a table exactly when: no option other than
    [true_values], [include_true_values] and [include_rmse] is passed; the
    table does not have exactly one row (one row divides by zero in
    [1 / (2 * (num_cals - 1))]); no column is labelled 'result type';
    [true_values] is [None] or an array with one entry per column; the two
    flags have a truth value; and neither flag is set without
    [true_values]. *)
Theorem summary_df_returns_iff (df : DataFrame) (kwargs : dict pyobj) :
  wf_df df -> NoDup (df_columns df) -> df_columns df <> [] ->
  (exists t, summary_df df kwargs = Ok t) <->
  (unexpected summary_options kwargs = [] /\
   shape0 df <> 1%nat /\
   ~ In "result type" (df_columns df) /\
   exists tv itv irmse,
     py_array_opt (option_value kwargs "true_values" PyNone) = Ok tv /\
     py_truth (option_value kwargs "include_true_values" (PyBool false)) = Ok itv /\
     py_truth (option_value kwargs "include_rmse" (PyBool false)) = Ok irmse /\
     (forall v, tv = Some v -> List.length v = shape1 df) /\
     (tv = None -> itv = false /\ irmse = false)).
Proof.
  intros _ _ _. split.
  - intros [t H]. pose proof (summary_df_Ok_columns _ _ _ H) as Hrt.
    apply summary_df_Ok_inv in H
      as (tv & itv & irmse & Hu & Etv & Eitv & Eirmse & Hlen & Hnone & HN & _).
    split; [assumption|]. split; [assumption|]. split; [assumption|].
    exists tv, itv, irmse. repeat split; try assumption; now apply Hnone.
  - intros (Hu & HN & Hrt & tv & itv & irmse & Etv & Eitv & Eirmse & Hlen & Hnone).
    eexists. now apply (summary_df_Ok df kwargs tv itv irmse).
Qed.

(** ** The RMSE rows of a summary table *)

Lemma rmse_and_unc_cols (a : ndarray2) (tv : list float) :
  List.length tv = nd_ncols a -> wf_rows (nd_ncols a) (nd_rows a) ->
  rmse_and_unc a tv
  = Ok (map (fun j => PrimFloat.sqrt (Np.mean (sq_errors_col (nd_rows a) tv j)))
            (seq 0 (nd_ncols a)),
        map (fun j =>
               (0.5 * (1 / PrimFloat.sqrt (Np.mean (sq_errors_col (nd_rows a) tv j)))
                * (Np.std_ddof1 (sq_errors_col (nd_rows a) tv j)
                   / PrimFloat.sqrt (Np.of_nat (List.length (nd_rows a)))))%float)
            (seq 0 (nd_ncols a))).
Proof.
  intros Hlen Hwf. unfold rmse_and_unc. rewrite Hlen, Nat.eqb_refl.
  cbn [py_assert bind]. rewrite <- Hlen in *.
  assert (R : forall f,
             reduce_axis0 f (List.length tv)
               (map (map Np.square)
                  (map (fun row => map2 PrimFloat.sub row tv) (nd_rows a)))
             = map (fun j => f (sq_errors_col (nd_rows a) tv j))
                 (seq 0 (List.length tv))).
  { intro f. unfold reduce_axis0. apply map_ext_in. intros j Hj.
    apply in_seq in Hj. rewrite sq_errors_column; [reflexivity | assumption | lia]. }
  rewrite !R, !map_map, map2_map, !length_map. reflexivity.
Qed.

Lemma sq_errors_col_zero (rs : list (list float)) (tv : list float) (j : nat) :
  Forall (fun x => x = 0%float) tv -> (j < List.length tv)%nat ->
  sq_errors_col rs tv j = map Np.square (column j rs).
Proof.
  intros Hz Hj. unfold sq_errors_col, column. rewrite map_map.
  apply map_ext. intro r.
  rewrite Forall_forall in Hz. rewrite (Hz (nth j tv nan)) by now apply nth_In.
  now rewrite sub_zero.
Qed.

(** ** Sums in numpy's order *)

Lemma any_order_perm (xs ys : list float) (s : float) :
  Permutation xs ys -> Spec.any_order xs s -> Spec.any_order ys s.
Proof.
  intros HP H. destruct xs as [|x xs].
  - apply Permutation_nil in HP. now subst.
  - destruct ys as [|y ys]; [apply Permutation_sym, Permutation_nil in HP; discriminate|].
    destruct H as (t & Ht & Hv). exists t. split; [|exact Hv].
    now apply (Permutation_trans Ht).
Qed.

Lemma any_order_tree (t : Spec.addition) : Spec.any_order (Spec.terms t) (Spec.value t).
Proof.
  unfold Spec.any_order. destruct (Spec.terms t) eqn:E.
  - destruct t; cbn in E; [discriminate|].
    exfalso. apply app_eq_nil in E as [E _].
    clear - E. induction t1; cbn in E; [discriminate|].
    apply app_eq_nil in E as [E _]. auto.
  - exists t. now rewrite E.
Qed.

Lemma any_order_of_tree (t : Spec.addition) (xs : list float) (s : float) :
  Permutation (Spec.terms t) xs -> Spec.value t = s -> Spec.any_order xs s.
Proof.
  intros HP <-. apply (any_order_perm (Spec.terms t)); [exact HP|]. apply any_order_tree.
Qed.

Lemma fold_left_tree (rest : list float) :
  forall t, exists t',
    Spec.terms t' = Spec.terms t ++ rest /\
    Spec.value t' = fold_left PrimFloat.add rest (Spec.value t).
Proof.
  induction rest as [|y rest IH]; intro t; cbn [fold_left].
  - exists t. now rewrite app_nil_r.
  - destruct (IH (Spec.Plus t (Spec.Term y))) as (t' & Ht & Hv).
    exists t'. cbn in Ht, Hv. now rewrite Ht, <- app_assoc.
Qed.

Lemma sum_in_order_tree (xs : list float) :
  xs <> [] -> exists t, Spec.terms t = xs /\ Spec.value t = Np.sum_in_order xs.
Proof.
  destruct xs as [|x rest]; [contradiction|]. intros _.
  destruct (fold_left_tree rest (Spec.Term x)) as (t & Ht & Hv). now exists t.
Qed.

Lemma combine_trees (ts : list Spec.addition) :
  forall ys, List.length ys = List.length ts ->
    exists ts',
      List.length ts' = List.length ts /\
      map Spec.value ts'
      = map (fun p => (fst p + snd p)%float) (combine (map Spec.value ts) ys) /\
      Permutation (flat_map Spec.terms ts') (flat_map Spec.terms ts ++ ys).
Proof.
  induction ts as [|t ts IH]; intros [|y ys] Hlen; try discriminate.
  - exists []. repeat split. constructor.
  - destruct (IH ys) as (ts' & Hl & Hv & HP); [cbn in Hlen; lia|].
    exists (Spec.Plus t (Spec.Term y) :: ts'). cbn. split; [now rewrite Hl|].
    split; [now rewrite Hv|].
    rewrite <- !app_assoc. apply Permutation_app_head.
    cbn. apply (Permutation_trans (l' := y :: flat_map Spec.terms ts ++ ys)).
    + constructor. exact HP.
    + apply Permutation_middle.
Qed.

Lemma add_blocks_trees (fuel : nat) :
  forall (ts : list Spec.addition) (xs r rest : list float),
    List.length ts = 8%nat ->
    Np.add_blocks fuel (map Spec.value ts) xs = (r, rest) ->
    exists ts',
      List.length ts' = 8%nat /\ map Spec.value ts' = r /\
      Permutation (flat_map Spec.terms ts' ++ rest) (flat_map Spec.terms ts ++ xs).
Proof.
  induction fuel as [|fuel IH]; intros ts xs r rest Hts H; cbn [Np.add_blocks] in H.
  - injection H as <- <-. now exists ts.
  - destruct (Nat.leb_spec 8 (List.length xs)) as [Hlen|Hlen].
    + destruct (combine_trees ts (firstn 8 xs)) as (ts1 & Hl1 & Hv1 & HP1).
      { rewrite length_firstn. lia. }
      rewrite <- Hv1 in H.
      assert (H8 : List.length ts1 = 8%nat) by lia.
      destruct (IH ts1 _ _ _ H8 H) as (ts' & Hl & Hv & HP).
      exists ts'. split; [exact Hl|]. split; [exact Hv|].
      apply (Permutation_trans HP).
      apply (Permutation_trans
               (l' := (flat_map Spec.terms ts ++ firstn 8 xs) ++ skipn 8 xs)).
      * now apply Permutation_app_tail.
      * rewrite <- app_assoc, firstn_skipn. apply Permutation_refl.
    + injection H as <- <-. now exists ts.
Qed.

Lemma sum8_tree (ts : list Spec.addition) :
  List.length ts = 8%nat ->
  exists t, Spec.terms t = flat_map Spec.terms ts /\
            Spec.value t = Np.sum8 (map Spec.value ts).
Proof.
  intro H.
  destruct ts as [|t0 [|t1 [|t2 [|t3 [|t4 [|t5 [|t6 [|t7 [|]]]]]]]]]; try discriminate.
  exists (Spec.Plus (Spec.Plus (Spec.Plus t0 t1) (Spec.Plus t2 t3))
            (Spec.Plus (Spec.Plus t4 t5) (Spec.Plus t6 t7))).
  cbn. rewrite app_nil_r, <- !app_assoc. split; reflexivity.
Qed.

Lemma blocked_sum_tree (xs : list float) :
  (8 <= List.length xs)%nat ->
  exists t, Permutation (Spec.terms t) xs /\ Spec.value t = Np.blocked_sum xs.
Proof.
  intro Hlen. unfold Np.blocked_sum.
  destruct (Np.add_blocks (List.length xs) (firstn 8 xs) (skipn 8 xs)) as [r rest] eqn:E.
  assert (Hf : firstn 8 xs = map Spec.value (map Spec.Term (firstn 8 xs))).
  { rewrite map_map. cbn. now rewrite map_id. }
  rewrite Hf in E.
  assert (H8 : List.length (map Spec.Term (firstn 8 xs)) = 8%nat)
    by (rewrite length_map, length_firstn; lia).
  destruct (add_blocks_trees _ _ _ _ _ H8 E) as (ts & Hl & Hv & HP).
  destruct (sum8_tree ts Hl) as (t8 & Ht8 & Hv8).
  destruct (fold_left_tree rest t8) as (t & Ht & Hvt).
  exists t. split.
  - rewrite Ht, Ht8. apply (Permutation_trans HP).
    assert (Hterms : flat_map Spec.terms (map Spec.Term (firstn 8 xs)) = firstn 8 xs).
    { clear. induction (firstn 8 xs) as [|y ys IH]; cbn; [reflexivity | now rewrite IH]. }
    rewrite Hterms, firstn_skipn. apply Permutation_refl.
  - now rewrite Hvt, Hv8, Hv.
Qed.

Lemma pairwise_sum_tree (fuel : nat) :
  forall xs, xs <> [] ->
    exists t, Permutation (Spec.terms t) xs /\ Spec.value t = Np.pairwise_sum fuel xs.
Proof.
  induction fuel as [|fuel IH]; intros xs Hne; cbn [Np.pairwise_sum];
    destruct (Nat.ltb_spec (List.length xs) 8) as [H8|H8].
  - destruct (sum_in_order_tree xs Hne) as (t & Ht & Hv). exists t. now rewrite Ht.
  - destruct (List.length xs <=? 128)%nat; now apply blocked_sum_tree.
  - destruct (sum_in_order_tree xs Hne) as (t & Ht & Hv). exists t. now rewrite Ht.
  - destruct (Nat.leb_spec (List.length xs) 128) as [H128|H128];
      [now apply blocked_sum_tree|].
    set (n2 := (List.length xs / 2 - (List.length xs / 2) mod 8)%nat).
    assert (Hn2 : (0 < n2 < List.length xs)%nat).
    { unfold n2.
      pose proof (Nat.div_mod_eq (List.length xs) 2) as Hdm.
      assert (Hr : (List.length xs mod 2 < 2)%nat) by (apply Nat.mod_upper_bound; lia).
      assert (Hm : ((List.length xs / 2) mod 8 < 8)%nat)
        by (apply Nat.mod_upper_bound; lia).
      lia. }
    clearbody n2.
    destruct (IH (firstn n2 xs)) as (t1 & Ht1 & Hv1).
    { intro E. apply (f_equal (@List.length float)) in E.
      rewrite length_firstn in E. cbn [List.length] in E. lia. }
    destruct (IH (skipn n2 xs)) as (t2 & Ht2 & Hv2).
    { intro E. apply (f_equal (@List.length float)) in E.
      rewrite length_skipn in E. cbn [List.length] in E. lia. }
    exists (Spec.Plus t1 t2). cbn. split; [|now rewrite Hv1, Hv2].
    apply (Permutation_trans (l' := firstn n2 xs ++ skipn n2 xs)).
    * now apply Permutation_app.
    * rewrite firstn_skipn. apply Permutation_refl.
Qed.

Lemma sum_reduce (xs : list float) : Spec.reduce xs (Np.sum xs).
Proof.
  split.
  - unfold Spec.any_order. destruct xs as [|x l] eqn:E; [reflexivity|].
    rewrite <- E.
    assert (Hne : xs <> []) by (rewrite E; discriminate).
    exact (pairwise_sum_tree (List.length xs) xs Hne).
  - intro H. unfold Np.sum, Spec.in_order.
    apply Nat.ltb_lt in H.
    destruct (List.length xs) as [|n] eqn:E; cbn [Np.pairwise_sum]; rewrite E, H;
      reflexivity.
Qed.

(** ** Means and standard deviations *)

Lemma of_nat_spec (n : nat) : Np.of_nat n = Spec.float_of_nat n.
Proof.
  unfold Np.of_nat, Np.of_Z, Spec.float_of_nat.
  destruct (Z.ltb_spec (Z.of_nat n) 0); [lia | reflexivity].
Qed.


Lemma notnan_fill0 (xs : list float) :
  Forall (fun x => PrimFloat.is_nan x = false) xs ->
  Nanops.fill0 xs = xs /\ Nanops.count xs = List.length xs.
Proof.
  unfold Nanops.fill0, Nanops.count, Nanops.notna.
  induction 1 as [|x xs Hx Hxs [IH1 IH2]]; [now split|].
  cbn [map filter]. rewrite Hx. cbn [negb List.length]. now rewrite IH1, IH2.
Qed.

Lemma nanmean_spec (xs : list float) :
  Forall (fun x => PrimFloat.is_nan x = false) xs ->
  Spec.mean Spec.reduce xs (Nanops.nanmean xs).
Proof.
  intro H. destruct (notnan_fill0 xs H) as [Hf Hc].
  unfold Nanops.nanmean. rewrite Hf, Hc, of_nat_spec.
  exists (Np.sum xs). split; [apply sum_reduce | reflexivity].
Qed.

Lemma nanstd_spec (xs : list float) :
  Forall (fun x => PrimFloat.is_nan x = false) xs ->
  (2 <= List.length xs)%nat ->
  Spec.sample_std Spec.reduce xs (Nanops.nanstd xs).
Proof.
  intros H Hlen. destruct (notnan_fill0 xs H) as [Hf Hc].
  unfold Nanops.nanstd. rewrite Hf, Hc.
  destruct (Nat.leb_spec (List.length xs) 1); [lia|].
  rewrite !of_nat_spec.
  set (avg := (Np.sum xs / Spec.float_of_nat (List.length xs))%float).
  assert (E : map (fun x => if Nanops.notna x then Np.square (avg - x) else 0%float) xs
              = map (fun x => ((avg - x) * (avg - x))%float) xs).
  { apply map_ext_in. intros x Hx. rewrite Forall_forall in H.
    unfold Nanops.notna. now rewrite (H x Hx). }
  rewrite E. exists avg, (Np.sum (map (fun x => ((avg - x) * (avg - x))%float) xs)).
  split; [|split; [apply sum_reduce | reflexivity]].
  exists (Np.sum xs). split; [apply sum_reduce | reflexivity].
Qed.

Lemma np_mean_spec (xs : list float) : Spec.mean Spec.reduce xs (Np.mean xs).
Proof.
  unfold Np.mean. rewrite of_nat_spec.
  exists (Np.sum xs). split; [apply sum_reduce | reflexivity].
Qed.

Lemma np_std_spec (xs : list float) : Spec.sample_std_np Spec.reduce xs (Np.std_ddof1 xs).
Proof.
  unfold Np.std_ddof1. rewrite !of_nat_spec, map_map.
  set (m := (Np.sum xs / Spec.float_of_nat (List.length xs))%float).
  exists m, (Np.sum (map (fun x => ((x - m) * (x - m))%float) xs)).
  split; [|split; [apply sum_reduce | reflexivity]].
  exists (Np.sum xs). split; [apply sum_reduce | reflexivity].
Qed.

(** Statistics under another sum, and under a permutation of the entries. *)
Section SpecFacts.
Variables sum sum' : list float -> float -> Prop.
Hypothesis weaker : forall xs s, sum xs s -> sum' xs s.

Lemma mean_weaken (xs : list float) (m : float) : Spec.mean sum xs m -> Spec.mean sum' xs m.
Proof. intros (s & Hs & ->). exists s. split; [now apply weaker | reflexivity]. Qed.

Lemma sample_std_weaken (xs : list float) (sd : float) :
  Spec.sample_std sum xs sd -> Spec.sample_std sum' xs sd.
Proof.
  intros (m & q & Hm & Hq & ->). exists m, q.
  split; [now apply mean_weaken|]. split; [now apply weaker | reflexivity].
Qed.

Lemma sample_std_np_weaken (xs : list float) (sd : float) :
  Spec.sample_std_np sum xs sd -> Spec.sample_std_np sum' xs sd.
Proof.
  intros (m & q & Hm & Hq & ->). exists m, q.
  split; [now apply mean_weaken|]. split; [now apply weaker | reflexivity].
Qed.
End SpecFacts.

Lemma reduce_any_order (xs : list float) (s : float) :
  Spec.reduce xs s -> Spec.any_order xs s.
Proof. now intros [H _]. Qed.

Lemma mean_perm (xs ys : list float) (m : float) :
  Permutation xs ys -> Spec.mean Spec.any_order xs m -> Spec.mean Spec.any_order ys m.
Proof.
  intros HP (s & Hs & ->). exists s. split; [now apply (any_order_perm xs)|].
  now rewrite (Permutation_length HP).
Qed.

Lemma sample_std_perm (xs ys : list float) (sd : float) :
  Permutation xs ys ->
  Spec.sample_std Spec.any_order xs sd -> Spec.sample_std Spec.any_order ys sd.
Proof.
  intros HP (m & q & Hm & Hq & ->). exists m, q.
  split; [now apply (mean_perm xs)|]. split.
  - apply (any_order_perm (map (fun x => ((m - x) * (m - x))%float) xs));
      [now apply Permutation_map | exact Hq].
  - now rewrite (Permutation_length HP).
Qed.

Lemma sample_std_np_perm (xs ys : list float) (sd : float) :
  Permutation xs ys ->
  Spec.sample_std_np Spec.any_order xs sd -> Spec.sample_std_np Spec.any_order ys sd.
Proof.
  intros HP (m & q & Hm & Hq & ->). exists m, q.
  split; [now apply (mean_perm xs)|]. split.
  - apply (any_order_perm (map (fun x => ((x - m) * (x - m))%float) xs));
      [now apply Permutation_map | exact Hq].
  - now rewrite (Permutation_length HP).
Qed.

(** ** The rows of the summary table against the formulas *)

Lemma nth_map_seq {A : Type} (f : nat -> A) (n j : nat) (d : A) :
  (j < n)%nat -> nth j (map f (seq 0 n)) d = f j.
Proof.
  intro H. rewrite (nth_indep _ d (f 0%nat)) by (now rewrite length_map, length_seq).
  rewrite (map_nth f (seq 0 n) 0%nat j), seq_nth by exact H. reflexivity.
Qed.

Lemma column_no_nan (rs : list (list float)) (ncols j : nat) :
  wf_rows ncols rs -> no_nan rs -> (j < ncols)%nat ->
  Forall (fun x => PrimFloat.is_nan x = false) (column j rs).
Proof.
  unfold wf_rows, no_nan, column. intros Hwf Hnn Hj.
  apply Forall_map, Forall_forall. intros r Hr.
  rewrite Forall_forall in Hwf, Hnn.
  pose proof (Hnn r Hr) as Hrow. rewrite Forall_forall in Hrow.
  apply Hrow, nth_In. rewrite (Hwf r Hr). exact Hj.
Qed.


(** The mean and std rows of any summary of a NaN-free table. *)
Lemma mean_std_rows_spec (df : DataFrame) :
  wf_df df -> no_nan (df_values df) -> (2 <= shape0 df)%nat ->
  List.length (mean_row df) = shape1 df /\
  List.length (std_row df) = shape1 df /\
  forall j, (j < shape1 df)%nat ->
    Spec.mean Spec.reduce (map (fun row => nth j row nan) (df_values df))
      (nth j (mean_row df) nan) /\
    Spec.sample_std Spec.reduce (map (fun row => nth j row nan) (df_values df))
      (nth j (std_row df) nan).
Proof.
  intros Hwf Hnn HN. unfold mean_row, std_row, reduce_axis0.
  rewrite !length_map, !length_seq. split; [reflexivity|]. split; [reflexivity|].
  intros j Hj. rewrite !nth_map_seq by exact Hj.
  pose proof (column_no_nan _ _ j Hwf Hnn Hj) as Hcol.
  split.
  - now apply nanmean_spec.
  - apply nanstd_spec; [exact Hcol|]. unfold column. now rewrite length_map.
Qed.




(** ** RMSE and its uncertainty against the formulas *)

Lemma rmse_and_unc_spec (a : ndarray2) (tv : list float) :
  List.length tv = nd_ncols a -> wf_rows (nd_ncols a) (nd_rows a) ->
  exists rmse rmse_unc,
    rmse_and_unc a tv = Ok (rmse, rmse_unc) /\
    List.length rmse = nd_ncols a /\
    List.length rmse_unc = nd_ncols a /\
    forall j, (j < nd_ncols a)%nat ->
      exists mse sd,
        Spec.mean Spec.reduce
          (map (fun row => ((nth j row nan - nth j tv nan)
                            * (nth j row nan - nth j tv nan))%float) (nd_rows a)) mse /\
        nth j rmse nan = PrimFloat.sqrt mse /\
        Spec.sample_std_np Spec.reduce
          (map (fun row => ((nth j row nan - nth j tv nan)
                            * (nth j row nan - nth j tv nan))%float) (nd_rows a)) sd /\
        nth j rmse_unc nan
        = (0.5 * (1 / nth j rmse nan)
           * (sd / PrimFloat.sqrt (Spec.float_of_nat (List.length (nd_rows a)))))%float.
Proof.
  intros Hlen Hwf. rewrite (rmse_and_unc_cols a tv Hlen Hwf).
  do 2 eexists. split; [reflexivity|].
  rewrite !length_map, !length_seq. split; [reflexivity|]. split; [reflexivity|].
  intros j Hj. rewrite !nth_map_seq by exact Hj.
  exists (Np.mean (sq_errors_col (nd_rows a) tv j)),
         (Np.std_ddof1 (sq_errors_col (nd_rows a) tv j)).
  split; [apply np_mean_spec|]. split; [reflexivity|].
  split; [apply np_std_spec|]. now rewrite of_nat_spec.
Qed.

(** C3.  [rmse_and_unc] ends in the assertion of line 263 when the number of
    true values differs from the number of columns.  Otherwise, on an array
    of N rows, it returns one RMSE and one uncertainty per column: the RMSE
    is the square root of the mean over the rows of the squared errors
    [(value - true) * (value - true)], their sum over N; the uncertainty is
    [0.5 * (1 / RMSE) * (sd / sqrt(N))], where [sd] is the sample standard
    deviation with [ddof = 1] of the squared errors, the square root of the
    sum of their squared deviations from their mean over N - 1.  The sums
    are float64 sums of the entries, taken in row order when there are fewer
    than eight rows. *)
Theorem C3_rmse_and_unc (a : ndarray2) (tv : list float) :
  (List.length tv <> nd_ncols a ->
   rmse_and_unc a tv = Raise (AssertionError Assert_rmse_shape)) /\
  (List.length tv = nd_ncols a -> wf_rows (nd_ncols a) (nd_rows a) ->
   exists rmse rmse_unc,
     rmse_and_unc a tv = Ok (rmse, rmse_unc) /\
     List.length rmse = nd_ncols a /\
     List.length rmse_unc = nd_ncols a /\
     forall j, (j < nd_ncols a)%nat ->
       exists mse sd,
         Spec.mean Spec.reduce
           (map (fun row => ((nth j row nan - nth j tv nan)
                             * (nth j row nan - nth j tv nan))%float) (nd_rows a)) mse /\
         nth j rmse nan = PrimFloat.sqrt mse /\
         Spec.sample_std_np Spec.reduce
           (map (fun row => ((nth j row nan - nth j tv nan)
                             * (nth j row nan - nth j tv nan))%float) (nd_rows a)) sd /\
         nth j rmse_unc nan
         = (0.5 * (1 / nth j rmse nan)
            * (sd / PrimFloat.sqrt (Spec.float_of_nat (List.length (nd_rows a)))))%float).
Proof.
  split.
  - intro Hne. unfold rmse_and_unc. apply Nat.eqb_neq in Hne. now rewrite Hne.
  - apply rmse_and_unc_spec.
Qed.

Lemma C3_rmse_and_unc_witness :
  rmse_and_unc {| nd_ncols := 1; nd_rows := [[3]; [3]; [3]; [5]]%float |} [3; 0]%float
  = Raise (AssertionError Assert_rmse_shape) /\
  exists rmse rmse_unc,
    rmse_and_unc {| nd_ncols := 1; nd_rows := [[3]; [3]; [3]; [5]]%float |} [3%float]
    = Ok (rmse, rmse_unc) /\
    nth 0 rmse nan = 1%float /\ nth 0 rmse_unc nan = 0.5%float.
Proof.
  split.
  - apply (proj1 (C3_rmse_and_unc _ _)). simpl. discriminate.
  - destruct (proj2 (C3_rmse_and_unc
                       {| nd_ncols := 1; nd_rows := [[3]; [3]; [3]; [5]]%float |}
                       [3%float]))
      as (rmse & rmse_unc & Hret & _ & _ & Hcols).
    + reflexivity.
    + repeat constructor.
    + exists rmse, rmse_unc. split; [exact Hret|].
      destruct (Hcols 0%nat)
        as (mse & sd & (s & (_ & Hs) & Em) & Er & (m & q & (s' & (_ & Hs') & Em') & (_ & Hq) & Esd)
            & Eu); [simpl; lia|].
      assert (H4 : (4 < 8)%nat) by lia.
      rewrite Eu, Er, Em, Esd, (Hq H4), Em', (Hs H4), (Hs' H4).
      split; vm_compute; reflexivity.
Defined.

(** X5.  The RMSE rows of a summary.  In every table [summary_df] returns
    the rows 'rmse' are absent unless [include_rmse] is set.  When it is
    set, [true_values] is an array with one entry per column and in column j
    the value is the square root of the mean over the N repeats of
    [(x - true_values[j]) * (x - true_values[j])], and the uncertainty is
    [0.5 * (1 / rmse) * (sd / sqrt(N))], [sd] being the sample standard
    deviation with [ddof = 1] of these squared errors.  The sums are float64
    sums of the entries, taken in row order when there are fewer than eight
    rows.  With all true values zero the rmse is the root mean square of the
    column. *)
Theorem summary_df_rmse_rows (df : DataFrame) (kwargs : dict pyobj)
    (t : frame index2) (with_rmse : bool) :
  summary_df df kwargs = Ok t ->
  wf_df df ->
  py_truth (option_value kwargs "include_rmse" (PyBool false)) = Ok with_rmse ->
  (with_rmse = false ->
   loc index2_eqb (rows t) ("rmse", "value") = None /\
   loc index2_eqb (rows t) ("rmse", "uncertainty") = None) /\
  (with_rmse = true ->
   exists tv rmse rmse_unc,
     option_value kwargs "true_values" PyNone = PyArray tv /\
     List.length tv = shape1 df /\
     loc index2_eqb (rows t) ("rmse", "value") = Some rmse /\
     loc index2_eqb (rows t) ("rmse", "uncertainty") = Some rmse_unc /\
     List.length rmse = shape1 df /\
     List.length rmse_unc = shape1 df /\
     (forall j, (j < shape1 df)%nat ->
        exists mse sd,
          Spec.mean Spec.reduce
            (map (fun row => ((nth j row nan - nth j tv nan)
                              * (nth j row nan - nth j tv nan))%float) (df_values df)) mse /\
          nth j rmse nan = PrimFloat.sqrt mse /\
          Spec.sample_std_np Spec.reduce
            (map (fun row => ((nth j row nan - nth j tv nan)
                              * (nth j row nan - nth j tv nan))%float) (df_values df)) sd /\
          nth j rmse_unc nan
          = (0.5 * (1 / nth j rmse nan)
             * (sd / PrimFloat.sqrt (Spec.float_of_nat (shape0 df))))%float) /\
     (Forall (fun x => x = 0%float) tv ->
      forall j, (j < shape1 df)%nat ->
        exists ms,
          Spec.mean Spec.reduce
            (map (fun row => (nth j row nan * nth j row nan)%float) (df_values df)) ms /\
          nth j rmse nan = PrimFloat.sqrt ms)).
Proof.
  intros H Hwf Ew. apply summary_df_Ok_inv in H
    as (tv & itv & irmse & _ & Etv & _ & Eirmse & Hlen & Hnone & _ & -> & _).
  rewrite Ew in Eirmse. injection Eirmse as <-. cbn [rows]. split.
  - intros ->. unfold summary_rows.
    destruct tv as [v|]; [destruct itv|]; split; reflexivity.
  - intros ->. destruct tv as [v|]; [|now destruct (Hnone eq_refl)].
    specialize (Hlen v eq_refl).
    destruct (rmse_and_unc_spec (values_of df) v Hlen Hwf)
      as (rmse & rmse_unc & Er & Lr & Lu & Hcols).
    cbn [values_of nd_ncols nd_rows] in Lr, Lu, Hcols.
    exists v, rmse, rmse_unc. split.
    { destruct (option_value kwargs "true_values" PyNone); try discriminate.
      cbn in Etv. congruence. }
    split; [exact Hlen|].
    split; [unfold summary_rows, rmse_rows; rewrite Er; destruct itv; reflexivity|].
    split; [unfold summary_rows, rmse_rows; rewrite Er; destruct itv; reflexivity|].
    split; [exact Lr|]. split; [exact Lu|]. split; [exact Hcols|].
    intros Hz j Hj. destruct (Hcols j Hj) as (mse & _ & Hm & Ej & _).
    exists mse. split; [|exact Ej].
    assert (Ez : nth j v nan = 0%float).
    { rewrite Forall_forall in Hz. apply Hz, nth_In. unfold shape1 in *. lia. }
    erewrite map_ext; [exact Hm|].
    intro row. cbv beta. now rewrite Ez, sub_zero.
Qed.

(** ** Permuting the repeat rows *)

Lemma no_nan_perm (rs rs' : list (list float)) :
  Permutation rs rs' -> no_nan rs -> no_nan rs'.
Proof. intros HP H. unfold no_nan in *. now apply (Permutation_Forall HP). Qed.

Lemma wf_df_perm (df df' : DataFrame) :
  df_columns df' = df_columns df -> Permutation (df_values df) (df_values df') ->
  wf_df df -> wf_df df'.
Proof.
  intros Hc HP H. unfold wf_df, wf_rows, shape1 in *. rewrite Hc.
  now apply (Permutation_Forall HP).
Qed.

(** The statistics of a full summary, the sums taken in some order. *)
Lemma full_summary_stats (df : DataFrame) (tv : list float) :
  wf_df df -> no_nan (df_values df) -> (2 <= shape0 df)%nat ->
  List.length tv = shape1 df ->
  exists mean std rmse,
    loc index2_eqb (summary_rows df (Some tv) true true) ("mean", "value") = Some mean /\
    loc index2_eqb (summary_rows df (Some tv) true true) ("std", "value") = Some std /\
    loc index2_eqb (summary_rows df (Some tv) true true) ("rmse", "value") = Some rmse /\
    forall j, (j < shape1 df)%nat ->
      Spec.mean Spec.any_order (map (fun row => nth j row nan) (df_values df))
        (nth j mean nan) /\
      Spec.sample_std Spec.any_order (map (fun row => nth j row nan) (df_values df))
        (nth j std nan) /\
      exists mse,
        Spec.mean Spec.any_order
          (map (fun row => ((nth j row nan - nth j tv nan)
                            * (nth j row nan - nth j tv nan))%float) (df_values df)) mse /\
        nth j rmse nan = PrimFloat.sqrt mse.
Proof.
  intros Hwf Hnan HN Hlen.
  destruct (mean_std_rows_spec df Hwf Hnan HN) as (_ & _ & Hms).
  destruct (rmse_and_unc_spec (values_of df) tv Hlen Hwf)
    as (rmse & rmse_unc & Er & _ & _ & Hcols).
  cbn [values_of nd_ncols nd_rows] in Hcols.
  exists (mean_row df), (std_row df), rmse.
  split; [reflexivity|]. split; [reflexivity|].
  split; [unfold summary_rows, rmse_rows; rewrite Er; reflexivity|].
  intros j Hj. destruct (Hms j Hj) as (Hm & Hs).
  destruct (Hcols j Hj) as (mse & _ & Hmse & Ej & _).
  split; [exact (mean_weaken _ _ reduce_any_order _ _ Hm)|].
  split; [exact (sample_std_weaken _ _ reduce_any_order _ _ Hs)|].
  exists mse. split; [exact (mean_weaken _ _ reduce_any_order _ _ Hmse) | exact Ej].
Qed.

(** C5 (as amended).  On a table with at least two repeat rows, no NaN entry
    and column labels that are distinct, at least one, and none of them
    'result type', with [true_values] of the right length,
    [include_true_values=True] and [include_rmse=True], [summary_df] returns
    a table with exactly the seven rows true values/value, mean/value,
    mean/uncertainty, std/value, std/uncertainty, rmse/value,
    rmse/uncertainty, in this order, whose true-values row is the vector
    that was passed.  For every permutation of the repeat rows the call
    returns a table with the same columns, the same seven labels in the same
    order and the same true-values row, and whose mean, std and rmse entries
    are the mean, the sample standard deviation ([ddof = 1]) and the root of
    the mean squared error of the columns of the table before the
    permutation, each sum being a float64 sum of the same terms in some
    order and grouping.  (The order matters: the entries are not claimed to
    be identical.) *)
Theorem C5_seven_rows_any_row_order (df : DataFrame) (tv : list float) :
  wf_df df -> plain_labels (df_columns df) -> no_nan (df_values df) ->
  (2 <= shape0 df)%nat -> List.length tv = shape1 df ->
  exists t,
    summary_df df (full_options tv) = Ok t /\
    map fst (rows t) = seven_rows /\
    loc index2_eqb (rows t) ("true values", "value") = Some tv /\
    forall df',
      df_columns df' = df_columns df ->
      Permutation (df_values df) (df_values df') ->
      exists t' mean' std' rmse',
        summary_df df' (full_options tv) = Ok t' /\
        columns t' = columns t /\
        map fst (rows t') = map fst (rows t) /\
        loc index2_eqb (rows t') ("true values", "value")
        = loc index2_eqb (rows t) ("true values", "value") /\
        loc index2_eqb (rows t') ("mean", "value") = Some mean' /\
        loc index2_eqb (rows t') ("std", "value") = Some std' /\
        loc index2_eqb (rows t') ("rmse", "value") = Some rmse' /\
        forall j, (j < shape1 df)%nat ->
          Spec.mean Spec.any_order (map (fun row => nth j row nan) (df_values df))
            (nth j mean' nan) /\
          Spec.sample_std Spec.any_order (map (fun row => nth j row nan) (df_values df))
            (nth j std' nan) /\
          exists mse,
            Spec.mean Spec.any_order
              (map (fun row => ((nth j row nan - nth j tv nan)
                                * (nth j row nan - nth j tv nan))%float) (df_values df))
              mse /\
            nth j rmse' nan = PrimFloat.sqrt mse.
Proof.
  intros Hwf (Hnd & Hne & Hrt) Hnan HN Hlen.
  assert (HN1 : shape0 df <> 1%nat) by lia.
  destruct (full_summary df tv HN1 Hlen Hrt) as (t & Ht & Hc & Hk & Htv).
  exists t. repeat (split; [assumption|]).
  intros df' Hcols Hperm.
  assert (HN' : shape0 df' = shape0 df)
    by (unfold shape0; now rewrite (Permutation_length Hperm)).
  assert (Hs1 : shape1 df' = shape1 df) by (unfold shape1; now rewrite Hcols).
  assert (Hret : summary_df df' (full_options tv)
                 = Ok {| columns := df_columns df';
                         rows := summary_rows df' (Some tv) true true |}).
  { apply (summary_df_Ok df' (full_options tv) (Some tv) true true);
      try reflexivity; try discriminate.
    - intros v [= <-]. congruence.
    - lia.
    - now rewrite Hcols. }
  destruct (full_summary df' tv) as (t' & Ht' & Hc' & Hk' & Htv');
    [lia | congruence | now rewrite Hcols |].
  destruct (full_summary_stats df' tv) as (mean' & std' & rmse' & Em & Es & Er & Hst);
    [now apply (wf_df_perm df) | now apply (no_nan_perm (df_values df)) | lia
     | congruence |].
  rewrite Hret in Ht'. injection Ht' as <-. cbn [rows columns] in *.
  exists {| columns := df_columns df'; rows := summary_rows df' (Some tv) true true |},
         mean', std', rmse'.
  cbn [rows columns].
  split; [exact Hret|]. split; [congruence|]. split; [congruence|].
  split; [congruence|]. repeat (split; [assumption|]).
  intros j Hj. destruct (Hst j) as (Hm & Hs & mse & Hmse & Ej); [lia|].
  assert (HP : forall f : list float -> float,
             Permutation (map f (df_values df')) (map f (df_values df)))
    by (intro f; apply Permutation_map; now symmetry).
  split; [exact (mean_perm _ _ _ (HP _) Hm)|].
  split; [exact (sample_std_perm _ _ _ (HP _) Hs)|].
  exists mse. split; [exact (mean_perm _ _ _ (HP _) Hmse) | exact Ej].
Qed.

Lemma C5_seven_rows_witness :
  exists t,
    summary_df cancelling_df (full_options [0%float]) = Ok t /\
    map fst (rows t) = seven_rows /\
    exists t' mean',
      summary_df cancelling_df_permuted (full_options [0%float]) = Ok t' /\
      map fst (rows t') = seven_rows /\
      loc index2_eqb (rows t') ("mean", "value") = Some mean' /\
      Spec.mean Spec.any_order [1%float; two_pow_53; (- two_pow_53)%float]
        (nth 0 mean' nan).
Proof.
  destruct (C5_seven_rows_any_row_order cancelling_df [0%float])
    as (t & Ht & Hk & _ & Hperm).
  - repeat constructor.
  - split; [apply uniqueb_NoDup; reflexivity|].
    split; [discriminate | simpl; intros [H|[]]; discriminate H].
  - repeat constructor.
  - unfold shape0, cancelling_df. simpl. lia.
  - reflexivity.
  - exists t. split; [exact Ht|]. split; [exact Hk|].
    destruct (Hperm cancelling_df_permuted eq_refl)
      as (t' & mean' & std' & rmse' & Ht' & _ & Hk' & _ & Em & _ & _ & Hst).
    + apply (Permutation_rev (df_values cancelling_df)).
    + exists t', mean'. split; [exact Ht'|]. split; [congruence|].
      split; [exact Em|].
      destruct (Hst 0%nat) as (Hm & _); [unfold shape1; simpl; lia|]. exact Hm.
Defined.

(** ** The adapters *)

Lemma nth_nil {A : Type} (j : nat) (d : A) : nth j [] d = d.
Proof. now destruct j. Qed.

Lemma map_nth_seq {A : Type} (l : list A) (d : A) :
  map (fun i => nth i l d) (seq 0 (List.length l)) = l.
Proof.
  induction l as [|x l IH]; [reflexivity|].
  cbn [List.length seq map nth]. f_equal.
  rewrite <- seq_shift, map_map. exact IH.
Qed.

Lemma transpose_involutive (a : ndarray2) :
  wf_rows (nd_ncols a) (nd_rows a) -> transpose (transpose a) = a.
Proof.
  destruct a as [c rs]. unfold transpose, wf_rows. cbn [nd_ncols nd_rows].
  intro Hwf. rewrite length_map, length_seq. f_equal.
  rewrite <- (map_nth_seq rs []) at 2.
  apply map_ext_in. intros i Hi. apply in_seq in Hi.
  unfold column. rewrite map_map.
  assert (E : forall j, nth i (map (fun r : list float => nth j r nan) rs) nan
                        = nth j (nth i rs []) nan).
  { intro j. rewrite <- (nth_nil j nan) at 1.
    exact (map_nth (fun r : list float => nth j r nan) rs [] i). }
  rewrite (map_ext _ _ E).
  rewrite Forall_forall in Hwf.
  rewrite <- (Hwf (nth i rs [])) by (apply nth_In; lia).
  apply map_nth_seq.
Qed.

Lemma summary_df_from_list_eq (results_list : list (list float)) (names : list string)
    (kwargs : dict pyobj) :
  results_list <> [] ->
  Forall (fun arr => List.length arr = List.length names) results_list ->
  summary_df_from_list results_list names kwargs
  = summary_df (list_df results_list names) kwargs.
Proof.
  intros Hne Hall. unfold summary_df_from_list.
  assert (Hb : forallb (fun arr => (List.length arr =? List.length names)%nat)
                 results_list = true).
  { apply forallb_forall. intros arr Harr. apply Nat.eqb_eq.
    rewrite Forall_forall in Hall. now apply Hall. }
  rewrite Hb. destruct results_list as [|r rs]; [contradiction|].
  unfold stack, set_columns. cbn [py_assert bind nd_ncols nd_rows].
  now rewrite Nat.eqb_refl.
Qed.

(** X6.  The adapters.  For a non-empty list of arrays with one entry per
    name, [summary_df_from_list] and [summary_df_from_array] on the stacked
    array (axis 0) are [summary_df] on the frame whose rows are the arrays,
    whatever the options, also when that call raises.  For an array with
    fewer than eight rows, [summary_df_from_array] with [axis=1] on the
    transposed array is the call with [axis=0] on the array itself.  (With
    eight rows or more the two calls can add the entries of a column in
    different orders.) *)
Theorem adapters_agree (names : list string) (kwargs : dict pyobj) :
  (forall results_list,
     results_list <> [] ->
     Forall (fun arr => List.length arr = List.length names) results_list ->
     summary_df_from_list results_list names kwargs
     = summary_df {| df_columns := names; df_values := results_list |} kwargs /\
     summary_df_from_array
       {| nd_ncols := List.length names; nd_rows := results_list |} names 0 kwargs
     = summary_df {| df_columns := names; df_values := results_list |} kwargs) /\
  (forall a,
     wf_rows (nd_ncols a) (nd_rows a) ->
     (List.length (nd_rows a) < 8)%nat ->
     summary_df_from_array (transpose a) names 1 kwargs
     = summary_df_from_array a names 0 kwargs).
Proof.
  split.
  - intros l Hne Hall. split.
    + now apply summary_df_from_list_eq.
    + unfold summary_df_from_array, set_columns.
      cbn [Z.eqb orb py_assert bind nd_ncols nd_rows].
      now rewrite Nat.eqb_refl.
  - intros a Hwf _. unfold summary_df_from_array.
    cbn [Z.eqb orb py_assert bind]. now rewrite transpose_involutive.
Qed.

(** ** The efficiency-gain builder: what a call returns *)

Lemma uniqueb_iff (l : list string) : uniqueb l = true <-> NoDup l.
Proof.
  split; [apply uniqueb_NoDup|].
  induction 1 as [|x l Hx Hl IH]; cbn [uniqueb]; [reflexivity|].
  rewrite IH, andb_true_r. apply negb_true_iff.
  destruct (existsb (String.eqb x) l) eqn:E; [|reflexivity].
  apply existsb_eqb_In in E. contradiction.
Qed.

Section GainLoopFacts.
Variables (method_names : list string) (method_values : list (list (list float)))
          (est_names : list string)
          (true_values include_rmse : pyobj) (adjust_nsamp : option (list float)).

Lemma method_df_inv (i : nat) (d : dict (list (index2 * list float)))
    (rs : list (index2 * list float)) :
  method_df method_names method_values est_names true_values include_rmse
    adjust_nsamp i d = Ok rs ->
  exists vals df,
    nth_error method_values i = Some vals /\
    summary_df_from_list vals est_names (method_options true_values include_rmse)
    = Ok df /\
    (i = 0%nat -> rs = rows df) /\
    (i <> 0%nat ->
     exists w n0 base,
       py_truth include_rmse = Ok w /\
       nth_error method_names 0 = Some n0 /\
       dict_get d n0 = Some base /\
       add_gains adjust_nsamp base (rows df) (tracked_stats w) = Ok rs).
Proof.
  unfold method_df, list_getitem. intro H.
  destruct (nth_error method_values i) as [vals|]; [|discriminate].
  cbn [bind] in H. bind_inv H as df Edf.
  exists vals, df. split; [reflexivity|]. split; [exact Edf|].
  destruct (Nat.eqb_spec i 0) as [->|Hi].
  - injection H as <-. split; [reflexivity|]. intro; contradiction.
  - split; [intro; contradiction|]. intros _.
    bind_inv H as w Ew.
    destruct (nth_error method_names 0) as [n0|]; [|discriminate].
    cbn [bind] in H. unfold dict_getitem in H.
    destruct (dict_get d n0) as [base|] eqn:Eb; [|discriminate].
    cbn [bind] in H. exists w, n0, base. repeat split; assumption.
Qed.

Lemma method_loop_frames (names : list string) :
  forall (i : nat) (d d' : dict (list (index2 * list float))),
    method_loop method_names method_values est_names true_values include_rmse
      adjust_nsamp i names d = Ok d' ->
    NoDup names ->
    forall j name,
      nth_error names j = Some name ->
      exists rs d0,
        method_df method_names method_values est_names true_values include_rmse
          adjust_nsamp (i + j) d0 = Ok rs /\
        dict_get d' name = Some rs /\
        (forall k, ~ In k (firstn j names) -> dict_get d0 k = dict_get d k) /\
        (forall k, In k (firstn j names) -> dict_get d0 k = dict_get d' k).
Proof.
  induction names as [|name names IH]; intros i d d' H Hnd j name' E.
  - destruct j; discriminate E.
  - pose proof H as Hloop. cbn [method_loop] in H. bind_inv H as rs Ers.
    inversion Hnd as [|? ? Hnotin Hnd']; subst.
    destruct (method_loop_spec _ _ _ _ _ _ _ _ _ _ H Hnd') as (Hother & _ & _).
    destruct j as [|j]; cbn [nth_error firstn] in *.
    + injection E as <-. exists rs, d. rewrite Nat.add_0_r.
      split; [exact Ers|]. split.
      * rewrite (Hother name Hnotin). apply dict_get_set_same.
      * split; [reflexivity | intros k []].
    + destruct (IH _ _ _ H Hnd' j name' E) as (rs' & d0 & Hdf & Hget & Hout & Hin).
      exists rs', d0. replace (i + S j)%nat with (S i + j)%nat by lia.
      split; [exact Hdf|]. split; [exact Hget|]. split.
      * intros k Hk. rewrite Hout by (intro; apply Hk; now right).
        apply dict_get_set_other. intros <-. apply Hk. now left.
      * intros k [<-|Hk]; [|now apply Hin].
        destruct (in_dec string_dec name (firstn j names)) as [Hf|Hf];
          [now apply Hin|].
        rewrite (Hout name Hf), (Hother name Hnotin). reflexivity.
Qed.

Lemma method_loop_keys (names : list string) :
  forall (i : nat) (d d' : dict (list (index2 * list float))),
    method_loop method_names method_values est_names true_values include_rmse
      adjust_nsamp i names d = Ok d' ->
    NoDup (dict_keys d ++ names) ->
    dict_keys d' = dict_keys d ++ names.
Proof.
  induction names as [|name names IH]; intros i d d' H Hnd; cbn [method_loop] in H.
  - injection H as <-. now rewrite app_nil_r.
  - bind_inv H as rs Ers.
    assert (Hk : dict_keys (dict_set d name rs) = dict_keys d ++ [name]).
    { rewrite dict_keys_set.
      destruct (existsb (String.eqb name) (dict_keys d)) eqn:E; [|reflexivity].
      apply existsb_eqb_In in E. apply NoDup_remove_2 in Hnd.
      exfalso. apply Hnd, in_or_app. now left. }
    rewrite (IH _ _ _ H); rewrite Hk, <- app_assoc; [reflexivity | exact Hnd].
Qed.
End GainLoopFacts.

Lemma method_options_values (true_values include_rmse : pyobj) :
  unexpected summary_options (method_options true_values include_rmse) = [] /\
  option_value (method_options true_values include_rmse) "true_values" PyNone
  = true_values /\
  option_value (method_options true_values include_rmse) "include_true_values"
    (PyBool false) = PyBool false /\
  option_value (method_options true_values include_rmse) "include_rmse" (PyBool false)
  = include_rmse.
Proof. repeat split. Qed.

(** What a successful call passes to [summary_df] for one method. *)
Lemma method_summary_inv (vals : list (list float)) (est_names : list string)
    (true_values include_rmse : pyobj) (df : frame index2) :
  summary_df_from_list vals est_names (method_options true_values include_rmse) = Ok df ->
  exists tvo w,
    py_array_opt true_values = Ok tvo /\
    py_truth include_rmse = Ok w /\
    (forall v, tvo = Some v -> List.length v = List.length est_names) /\
    (tvo = None -> w = false) /\
    vals <> [] /\ List.length vals <> 1%nat /\
    Forall (fun arr => List.length arr = List.length est_names) vals /\
    df = {| columns := est_names;
            rows := summary_rows (list_df vals est_names) tvo false w |}.
Proof.
  intro H. apply summary_df_from_list_Ok_inv in H as (Hne & Hwf & H).
  apply summary_df_Ok_inv in H
    as (tvo & itv & w & _ & Etv & Eitv & Ew & Hlen & Hnone & HN & -> & _).
  injection Eitv as <-.
  exists tvo, w. repeat (split; [solve [assumption | now apply Hnone]|]).
  reflexivity.
Qed.

Section GainCall.
Variables (method_names : list string) (method_values : list (list (list float)))
          (est_names : list string) (kwargs : dict pyobj).

Let true_values := option_value kwargs "true_values" PyNone.
Let include_rmse := option_value kwargs "include_rmse" (PyBool false).
Let include_true_values := option_value kwargs "include_true_values" (PyBool false).

Lemma efficiency_gain_inv (R : frame index3) :
  efficiency_gain_df method_names method_values est_names kwargs = Ok R ->
  exists adj d itv,
    unexpected gain_options kwargs = [] /\
    py_array_opt (option_value kwargs "adjust_nsamp" PyNone) = Ok adj /\
    (forall a, adj = Some a -> List.length a = List.length method_names) /\
    List.length method_names = List.length method_values /\
    method_loop method_names method_values est_names true_values include_rmse adj
      0 method_names [] = Ok d /\
    d <> [] /\
    NoDup ("" :: method_names) /\
    py_truth include_true_values = Ok itv /\
    R = gain_table method_names est_names d itv true_values.
Proof.
  unfold efficiency_gain_df, dict_pop.
  rewrite unexpected_gain, !dict_get_del_ne by reflexivity.
  fold (option_value kwargs "adjust_nsamp" PyNone).
  fold (option_value kwargs "include_true_values" (PyBool false)).
  fold include_true_values.
  fold (option_value kwargs "include_rmse" (PyBool false)). fold include_rmse.
  fold (option_value kwargs "true_values" PyNone). fold true_values.
  destruct (unexpected gain_options kwargs); [|intro; discriminate].
  cbn [is_empty negb].
  bind_step adj Eadj. bind_step u Eu. bind_step u0 Elen.
  bind_step d Ed. bind_step results Eres. bind_step u' Eun. bind_step itv Eitv.
  intros [= <-].
  exists adj, d, itv.
  split; [reflexivity|]. split; [first [reflexivity | assumption]|]. split.
  { intros a ->. apply py_assert_Ok in Eu. now apply Nat.eqb_eq. }
  split. { apply py_assert_Ok in Elen. now apply Nat.eqb_eq. }
  split; [first [reflexivity | assumption]|].
  split. { intros ->. discriminate Eres. }
  split. { apply uniqueb_NoDup. now destruct (uniqueb ("" :: method_names)). }
  split; [first [reflexivity | assumption]|].
  unfold gain_table. unfold concat in Eres.
  destruct d; [discriminate|]. now injection Eres as <-.
Qed.

Lemma efficiency_gain_Ok (adj : option (list float))
    (d : dict (list (index2 * list float))) (itv : bool) :
  unexpected gain_options kwargs = [] ->
  py_array_opt (option_value kwargs "adjust_nsamp" PyNone) = Ok adj ->
  (forall a, adj = Some a -> List.length a = List.length method_names) ->
  List.length method_names = List.length method_values ->
  method_loop method_names method_values est_names true_values include_rmse adj
    0 method_names [] = Ok d ->
  d <> [] ->
  NoDup ("" :: method_names) ->
  py_truth include_true_values = Ok itv ->
  efficiency_gain_df method_names method_values est_names kwargs
  = Ok (gain_table method_names est_names d itv true_values).
Proof.
  intros Hu Eadj Hadj Hlen Ed Hd Hnd Eitv.
  unfold efficiency_gain_df, dict_pop.
  rewrite unexpected_gain, !dict_get_del_ne by reflexivity.
  fold (option_value kwargs "adjust_nsamp" PyNone).
  fold (option_value kwargs "include_true_values" (PyBool false)).
  fold include_true_values.
  fold (option_value kwargs "include_rmse" (PyBool false)). fold include_rmse.
  fold (option_value kwargs "true_values" PyNone). fold true_values.
  rewrite Hu, Eadj. cbn [is_empty negb bind].
  assert (Ea : match adj with
               | Some a => py_assert (List.length a =? List.length method_names)%nat
                             Assert_adjust_nsamp_shape
               | None => Ok tt
               end = Ok tt).
  { destruct adj as [a|]; [|reflexivity]. now rewrite (Hadj a eq_refl), Nat.eqb_refl. }
  rewrite Ea, Hlen, Nat.eqb_refl. cbn [py_assert bind]. rewrite Ed. cbn [bind].
  apply uniqueb_iff in Hnd. rewrite Hnd, Eitv.
  unfold gain_table, concat. destruct d; [contradiction|]. reflexivity.
Qed.

(** The frames behind a returned table: the baseline's frame is its
    summary; every other method's frame is its summary with the gain rows
    computed against the baseline's summary. *)
Lemma efficiency_gain_structure (R : frame index3) :
  efficiency_gain_df method_names method_values est_names kwargs = Ok R ->
  exists adj d itv w tvo n0 vals0,
    py_array_opt (option_value kwargs "adjust_nsamp" PyNone) = Ok adj /\
    (forall a, adj = Some a -> List.length a = List.length method_names) /\
    py_truth include_true_values = Ok itv /\
    py_truth include_rmse = Ok w /\
    py_array_opt true_values = Ok tvo /\
    (forall v, tvo = Some v -> List.length v = List.length est_names) /\
    (tvo = None -> w = false) /\
    NoDup ("" :: method_names) /\
    List.length method_names = List.length method_values /\
    nth_error method_names 0 = Some n0 /\
    nth_error method_values 0 = Some vals0 /\
    dict_keys d = method_names /\
    R = gain_table method_names est_names d itv true_values /\
    forall i name,
      nth_error method_names i = Some name ->
      exists vals,
        nth_error method_values i = Some vals /\
        vals <> [] /\ List.length vals <> 1%nat /\
        Forall (fun arr => List.length arr = List.length est_names) vals /\
        (i = 0%nat ->
         dict_get d name = Some (summary_rows (list_df vals est_names) tvo false w)) /\
        (i <> 0%nat ->
         exists gains,
           add_gains adj (summary_rows (list_df vals0 est_names) tvo false w)
             (summary_rows (list_df vals est_names) tvo false w) (tracked_stats w)
           = Ok gains /\
           dict_get d name = Some gains).
Proof.
  intro HR. apply efficiency_gain_inv in HR
    as (adj & d & itv & _ & Eadj & Hadj & Hlen & Ed & Hd & Hnd & Eitv & ->).
  inversion Hnd as [|? ? Hempty Hnd']; subst.
  pose proof (method_loop_keys _ _ _ _ _ _ _ _ _ _ Ed Hnd') as Hkeys.
  cbn [dict_keys map app] in Hkeys.
  pose proof (method_loop_frames _ _ _ _ _ _ _ _ _ _ Ed Hnd') as Hframes.
  destruct method_names as [|n0 names] eqn:Enames.
  { destruct d; [contradiction | discriminate Hkeys]. }
  rewrite <- Enames in *.
  assert (E0 : nth_error method_names 0 = Some n0) by now rewrite Enames.
  destruct (Hframes 0%nat n0 E0) as (rs0 & d00 & Hdf0 & Hget0 & _ & _).
  apply method_df_inv in Hdf0 as (vals0 & df0 & Hv0 & Es0 & Hrs0 & _).
  specialize (Hrs0 eq_refl). subst rs0.
  destruct (method_summary_inv _ _ _ _ _ Es0)
    as (tvo & w & Etv & Ew & Htv & Hnone & _ & _ & _ & Hdf0).
  exists adj, d, itv, w, tvo, n0, vals0.
  repeat (split; [assumption|]). split; [reflexivity|].
  intros i name Hi.
  destruct (Hframes i name Hi) as (rs & d0 & Hdf & Hget & Hout & Hin).
  apply method_df_inv in Hdf as (vals & df & Hv & Es & Hrs & Hgains).
  destruct (method_summary_inv _ _ _ _ _ Es)
    as (tvo' & w' & Etv' & Ew' & _ & _ & Hne & HN & Hall & Hdf).
  rewrite Etv in Etv'. injection Etv' as <-.
  rewrite Ew in Ew'. injection Ew' as <-.
  exists vals. repeat (split; [assumption|]). split.
  - intros ->. rewrite Hget, (Hrs eq_refl), Hdf. reflexivity.
  - intro Hi0. destruct (Hgains Hi0) as (w' & n0' & base & Ew' & En0 & Hbase & Hg).
    rewrite Ew in Ew'. injection Ew' as <-.
    cbn [Nat.add] in En0. rewrite E0 in En0. injection En0 as <-.
    rewrite Hin in Hbase.
    2:{ destruct i as [|i]; [contradiction|]. rewrite Enames. now left. }
    rewrite Hget0, Hdf0 in Hbase. injection Hbase as <-. cbn [rows] in Hg.
    rewrite Hdf in Hg. cbn [rows] in Hg.
    exists rs. split; assumption.
Qed.
End GainCall.

(** ** Elementwise operations *)

Lemma map2_nth_seq {A B C : Type} (f : A -> B -> C) (da : A) (db : B) (n : nat) :
  forall (xs : list A) (ys : list B),
    List.length xs = n -> List.length ys = n ->
    map2 f xs ys = map (fun j => f (nth j xs da) (nth j ys db)) (seq 0 n).
Proof.
  induction n as [|n IH]; intros [|x xs] [|y ys] Hx Hy; try discriminate; [reflexivity|].
  cbn [map2 seq map nth]. f_equal.
  rewrite <- seq_shift, map_map. apply IH; simpl in *; lia.
Qed.

Lemma array_ratio_std_nth (n : nat) (values_n sigmas_n values_d sigmas_d : list float) :
  List.length values_n = n -> List.length sigmas_n = n ->
  List.length values_d = n -> List.length sigmas_d = n ->
  array_ratio_std values_n sigmas_n values_d sigmas_d
  = map (fun j => ratio_std (nth j values_n nan) (nth j sigmas_n nan)
                    (nth j values_d nan) (nth j sigmas_d nan))
        (seq 0 n).
Proof.
  intros Hvn Hsn Hvd Hsd. unfold array_ratio_std.
  rewrite (map2_nth_seq PrimFloat.div nan nan n values_n values_d Hvn Hvd).
  rewrite (map2_nth_seq PrimFloat.div nan nan n sigmas_n values_n Hsn Hvn).
  rewrite (map2_nth_seq PrimFloat.div nan nan n sigmas_d values_d Hsd Hvd).
  rewrite !map_map, map2_map, map_map, map2_map. reflexivity.
Qed.

Lemma loc_In {I : Type} (eqb : I -> I -> bool) (rs : list (I * list float)) (k : I)
    (r : list float) :
  loc eqb rs k = Some r -> exists k', In (k', r) rs.
Proof.
  induction rs as [|[k0 r0] rs IH]; cbn [loc]; [discriminate|].
  destruct (eqb k0 k).
  - intros [= <-]. exists k0. now left.
  - intro H. destruct (IH H) as (k' & Hin). exists k'. now right.
Qed.

Lemma loc_length {I : Type} (eqb : I -> I -> bool) (rs : list (I * list float)) (k : I)
    (r : list float) (n : nat) :
  Forall (fun kr => List.length (snd kr) = n) rs ->
  loc eqb rs k = Some r -> List.length r = n.
Proof.
  intros Hall H. destruct (loc_In _ _ _ _ H) as (k' & Hin).
  rewrite Forall_forall in Hall. exact (Hall _ Hin).
Qed.

(** ** Gain rows against the baseline *)

Lemma add_gain_rows (base df df' : list (index2 * list float)) (stat : string) :
  add_gain None base df stat = Ok df' ->
  exists bv bu dv du,
    loc index2_eqb base (stat, "value") = Some bv /\
    loc index2_eqb base (stat, "uncertainty") = Some bu /\
    loc index2_eqb df (stat, "value") = Some dv /\
    loc index2_eqb df (stat, "uncertainty") = Some du /\
    loc index2_eqb df' (gain_key stat, "value")
    = Some (map Np.square (map2 PrimFloat.div bv dv)) /\
    loc index2_eqb df' (gain_key stat, "uncertainty")
    = Some (map2 PrimFloat.mul (map (PrimFloat.mul 2) (map2 PrimFloat.div bv dv))
              (array_ratio_std bv bu dv du)).
Proof.
  unfold add_gain. fold (gain_key stat).
  bind_step bv Ebv. bind_step dv Edv. bind_step bu Ebu. bind_step du Edu.
  intros [= <-]. exists bv, bu, dv, du.
  repeat (split; [now apply loc_getitem_Ok|]). split.
  - rewrite index2_loc_set_other, index2_loc_set_same; [reflexivity|]. intros [=].
  - apply index2_loc_set_same.
Qed.

Lemma add_gains_rows (base df gains : list (index2 * list float))
    (with_rmse : bool) (stat : string) :
  add_gains None base df (tracked_stats with_rmse) = Ok gains ->
  In stat (tracked_stats with_rmse) ->
  exists bv bu dv du,
    loc index2_eqb base (stat, "value") = Some bv /\
    loc index2_eqb base (stat, "uncertainty") = Some bu /\
    loc index2_eqb df (stat, "value") = Some dv /\
    loc index2_eqb df (stat, "uncertainty") = Some du /\
    loc index2_eqb gains (gain_key stat, "value")
    = Some (map Np.square (map2 PrimFloat.div bv dv)) /\
    loc index2_eqb gains (gain_key stat, "uncertainty")
    = Some (map2 PrimFloat.mul (map (PrimFloat.mul 2) (map2 PrimFloat.div bv dv))
              (array_ratio_std bv bu dv du)).
Proof.
  unfold tracked_stats. cbn [add_gains]. intros H Hin.
  bind_inv H as df1 E1.
  destruct with_rmse; cbn [add_gains] in H.
  - bind_inv H as df2 E2. injection H as <-.
    destruct Hin as [<-|[<-|[]]].
    + destruct (add_gain_rows _ _ _ _ E1) as (bv & bu & dv & du & Hb & Hbu & Hd & Hdu & Hg & Hgu).
      exists bv, bu, dv, du. repeat (split; [assumption|]).
      rewrite !(add_gain_loc_other _ _ _ _ _ (gain_key "std", _) E2) by (cbn; intros [=]).
      now split.
    + destruct (add_gain_rows _ _ _ _ E2) as (bv & bu & dv & du & Hb & Hbu & Hd & Hdu & Hg & Hgu).
      exists bv, bu, dv, du. split; [assumption|]. split; [assumption|].
      rewrite <- !(add_gain_loc_other _ _ _ _ _ ("rmse", _) E1) by (cbn; intros [=]).
      repeat split; assumption.
  - injection H as <-. destruct Hin as [<-|[]].
    now apply add_gain_rows.
Qed.

Lemma tracked_stats_In (include_rmse : pyobj) (w : bool) (stat : string) :
  py_truth include_rmse = Ok w ->
  stat = "std" \/ (stat = "rmse" /\ py_truth include_rmse = Ok true) ->
  In stat (tracked_stats w).
Proof.
  intros Ew [->|[-> Hr]]; [now left|].
  rewrite Hr in Ew. injection Ew as <-. right. now left.
Qed.

Lemma tracked_stats_not_gain (w : bool) (stat : string) :
  In stat (tracked_stats w) ->
  ~ In stat (map gain_key (tracked_stats w)) /\ stat <> "true values" /\
  gain_key stat <> "true values".
Proof.
  unfold tracked_stats. destruct w; cbn; intuition (subst; discriminate).
Qed.

(** X7.  The gain rows, for any number of methods.  Without [adjust_nsamp],
    in every table returned, for every method other than the first and every
    tracked statistic (std, and rmse when [include_rmse] is set): the value
    and uncertainty rows of the statistic exist for the first method and for
    this method with one entry per estimator, and in column j the gain value
    is [(base / new) ** 2] and the gain uncertainty is
    [2 * (base / new) * ratio_std], where base and new are the statistic of
    the first method and of this method and [ratio_std] is what
    [array_ratio_std] gives at that column:
    [(base / new) * sqrt((base_unc / base) ** 2 + (new_unc / new) ** 2)]. *)
Theorem gain_rows_formula (method_names : list string)
    (method_values : list (list (list float))) (est_names : list string)
    (kwargs : dict pyobj) (R : frame index3) :
  efficiency_gain_df method_names method_values est_names kwargs = Ok R ->
  option_value kwargs "adjust_nsamp" PyNone = PyNone ->
  forall i name stat,
    nth_error method_names i = Some name ->
    i <> 0%nat ->
    stat = "std" \/
    (stat = "rmse" /\
     py_truth (option_value kwargs "include_rmse" (PyBool false)) = Ok true) ->
    exists n0 bv bu dv du,
      nth_error method_names 0 = Some n0 /\
      loc index3_eqb (rows R) (stat, n0, "value") = Some bv /\
      loc index3_eqb (rows R) (stat, n0, "uncertainty") = Some bu /\
      loc index3_eqb (rows R) (stat, name, "value") = Some dv /\
      loc index3_eqb (rows R) (stat, name, "uncertainty") = Some du /\
      List.length bv = List.length est_names /\
      List.length bu = List.length est_names /\
      List.length dv = List.length est_names /\
      List.length du = List.length est_names /\
      loc index3_eqb (rows R) (gain_key stat, name, "value")
      = Some (map (fun j => Np.square (nth j bv nan / nth j dv nan)%float)
                  (seq 0 (List.length est_names))) /\
      loc index3_eqb (rows R) (gain_key stat, name, "uncertainty")
      = Some (map (fun j =>
                     (2 * (nth j bv nan / nth j dv nan)
                      * ratio_std (nth j bv nan) (nth j bu nan)
                          (nth j dv nan) (nth j du nan))%float)
                  (seq 0 (List.length est_names))).
Proof.
  intros HR Hadj i name stat Hi Hi0 Hstat.
  apply efficiency_gain_structure in HR
    as (adj & d & itv & w & tvo & n0 & vals0 & Eadj & _ & _ & Ew & _ & Htv & _ & Hnd
        & _ & En0 & Ev0 & Hkeys & -> & Hmeth).
  rewrite Hadj in Eadj. injection Eadj as <-.
  pose proof (tracked_stats_In _ _ _ Ew Hstat) as Hin.
  destruct (tracked_stats_not_gain _ _ Hin) as (Hng & Hs & Hgk).
  destruct (Hmeth 0%nat n0 En0) as (vals0' & Ev0' & _ & _ & _ & Hbase & _).
  rewrite Ev0 in Ev0'. injection Ev0' as <-. specialize (Hbase eq_refl).
  destruct (Hmeth i name Hi) as (vals & Ev & _ & _ & _ & _ & Hg).
  destruct (Hg Hi0) as (gains & Eg & Hget).
  destruct (add_gains_rows _ _ _ _ _ Eg Hin)
    as (bv & bu & dv & du & Hbv & Hbu & Hdv & Hdu & Hgv & Hgu).
  assert (Hd : NoDup (dict_keys d)) by (rewrite Hkeys; now inversion Hnd).
  assert (Hl : forall vs k r,
             loc index2_eqb (summary_rows (list_df vs est_names) tvo false w) k = Some r ->
             List.length r = List.length est_names).
  { intros vs k r. apply loc_length.
    exact (summary_rows_lengths (list_df vs est_names) tvo false w Htv). }
  pose proof (Hl _ _ _ Hbv) as Lbv. pose proof (Hl _ _ _ Hbu) as Lbu.
  pose proof (Hl _ _ _ Hdv) as Ldv. pose proof (Hl _ _ _ Hdu) as Ldu.
  exists n0, bv, bu, dv, du.
  rewrite !gain_table_row by assumption. rewrite Hbase, Hget.
  rewrite !(add_gains_loc_other _ _ _ _ _ (stat, _) Eg) by exact Hng.
  repeat (split; [assumption|]).
  rewrite Hgv, Hgu.
  rewrite (array_ratio_std_nth (List.length est_names)) by assumption.
  rewrite (map2_nth_seq PrimFloat.div nan nan (List.length est_names) bv dv Lbv Ldv).
  rewrite !map_map, map2_map. split; reflexivity.
Qed.

Lemma gain_rows_formula_witness :
  exists (n0 : string) (bv bu dv du : list float),
    nth_error ["old"; "new"; "newer"] 0 = Some n0 /\
    loc index3_eqb
      (rows (returned (efficiency_gain_df ["old"; "new"; "newer"]
                         [df_values example_df; [[1; 2]; [2; 5]]%float;
                          [[0; 1]; [4; 9]]%float] ["a"; "b"] [])))
      ("std", "newer", "value") = Some dv /\
    loc index3_eqb
      (rows (returned (efficiency_gain_df ["old"; "new"; "newer"]
                         [df_values example_df; [[1; 2]; [2; 5]]%float;
                          [[0; 1]; [4; 9]]%float] ["a"; "b"] [])))
      ("std efficiency gain", "newer", "value")
    = Some (map (fun j => Np.square (nth j bv nan / nth j dv nan)%float) [0; 1]%nat) /\
    List.length bu = List.length du.
Proof.
  destruct (gain_rows_formula ["old"; "new"; "newer"]
              [df_values example_df; [[1; 2]; [2; 5]]%float; [[0; 1]; [4; 9]]%float]
              ["a"; "b"] []
              (returned (efficiency_gain_df ["old"; "new"; "newer"]
                           [df_values example_df; [[1; 2]; [2; 5]]%float;
                            [[0; 1]; [4; 9]]%float] ["a"; "b"] [])))
    with (i := 2%nat) (name := "newer") (stat := "std")
    as (n0 & bv & bu & dv & du & H0 & _ & _ & Hdv & _ & _ & Lbu & _ & Ldu & Hg & _).
  - vm_compute. reflexivity.
  - reflexivity.
  - reflexivity.
  - discriminate.
  - left. reflexivity.
  - exists n0, bv, bu, dv, du. repeat (split; [assumption|]). congruence.
Defined.

(** ** The shape of the efficiency table *)

Lemma length_map2_eq {A B C : Type} (f : A -> B -> C) (n : nat) (xs : list A)
    (ys : list B) :
  List.length xs = n -> List.length ys = n -> List.length (map2 f xs ys) = n.
Proof. intros Hx Hy. rewrite length_map2; congruence. Qed.

Lemma series_imul_length (row adjust r : list float) :
  series_imul row adjust = Ok r -> List.length r = List.length row.
Proof.
  unfold series_imul. destruct (Nat.eqb_spec (List.length adjust) (List.length row)).
  - intros [= <-]. now apply length_map2_eq.
  - destruct adjust as [|a [|]]; try discriminate. intros [= <-]. apply length_map.
Qed.

Lemma loc_set_Forall {I : Type} (eqb : I -> I -> bool) (P : list float -> Prop)
    (rs : list (I * list float)) (k : I) (row : list float) :
  Forall (fun kr => P (snd kr)) rs -> P row ->
  Forall (fun kr => P (snd kr)) (loc_set eqb rs k row).
Proof.
  intros Hall Hrow. induction Hall as [|[k0 r0] rs H0 Hall IH]; cbn [loc_set].
  - now repeat constructor.
  - destruct (eqb k0 k); constructor; assumption.
Qed.

Lemma array_ratio_std_length (n : nat) (vn sn vd sd : list float) :
  List.length vn = n -> List.length sn = n -> List.length vd = n ->
  List.length sd = n -> List.length (array_ratio_std vn sn vd sd) = n.
Proof.
  intros. unfold array_ratio_std.
  repeat first [apply length_map2_eq | rewrite length_map]; assumption.
Qed.

Lemma add_gain_lengths (n : nat) (adjust_nsamp : option (list float))
    (base df df' : list (index2 * list float)) (stat : string) :
  Forall (fun kr => List.length (snd kr) = n) base ->
  Forall (fun kr => List.length (snd kr) = n) df ->
  add_gain adjust_nsamp base df stat = Ok df' ->
  Forall (fun kr => List.length (snd kr) = n) df'.
Proof.
  intros Hb Hd. unfold add_gain.
  bind_step bv Ebv. bind_step dv Edv. bind_step bu Ebu. bind_step du Edu.
  apply loc_getitem_Ok in Ebv, Edv, Ebu, Edu.
  pose proof (loc_length _ _ _ _ _ Hb Ebv). pose proof (loc_length _ _ _ _ _ Hb Ebu).
  pose proof (loc_length _ _ _ _ _ Hd Edv). pose proof (loc_length _ _ _ _ _ Hd Edu).
  match goal with
  | |- match _ with Some _ => _ | None => Ok ?t end = _ -> _ =>
      assert (Ht : Forall (fun kr => List.length (snd kr) = n) t)
  end.
  { apply (loc_set_Forall _ (fun r => List.length r = n)).
    - apply (loc_set_Forall _ (fun r => List.length r = n)); [assumption|].
      rewrite length_map. now apply length_map2_eq.
    - apply length_map2_eq; [rewrite length_map; now apply length_map2_eq|].
      now apply array_ratio_std_length. }
  destruct adjust_nsamp as [a|]; [|now intros [= <-]].
  bind_step a0 Ea0. bind_step g Eg. bind_step g' Eg'. bind_step gu Egu.
  bind_step gu' Egu'. intros [= <-].
  apply loc_getitem_Ok in Eg. pose proof (loc_length _ _ _ _ _ Ht Eg) as Lg.
  apply series_imul_length in Eg'.
  assert (Ht' : Forall (fun kr => List.length (snd kr) = n)
                  (loc_set index2_eqb
                     (loc_set index2_eqb
                        (loc_set index2_eqb df
                           (String.append stat " efficiency gain", "value")
                           (map Np.square (map2 PrimFloat.div bv dv)))
                        (String.append stat " efficiency gain", "uncertainty")
                        (map2 PrimFloat.mul
                           (map (PrimFloat.mul 2) (map2 PrimFloat.div bv dv))
                           (array_ratio_std bv bu dv du)))
                     (String.append stat " efficiency gain", "value") g')).
  { apply (loc_set_Forall _ (fun r => List.length r = n)); [assumption | congruence]. }
  apply loc_getitem_Ok in Egu. pose proof (loc_length _ _ _ _ _ Ht' Egu) as Lgu.
  apply series_imul_length in Egu'.
  apply (loc_set_Forall _ (fun r => List.length r = n)); [assumption | congruence].
Qed.

Lemma add_gains_lengths (n : nat) (adjust_nsamp : option (list float))
    (base : list (index2 * list float)) (stats : list string) :
  Forall (fun kr => List.length (snd kr) = n) base ->
  forall df df',
    Forall (fun kr => List.length (snd kr) = n) df ->
    add_gains adjust_nsamp base df stats = Ok df' ->
    Forall (fun kr => List.length (snd kr) = n) df'.
Proof.
  intro Hb. induction stats as [|stat stats IH]; intros df df' Hd H; cbn [add_gains] in H.
  - now injection H as <-.
  - bind_inv H as df1 E1. apply (IH df1); [|exact H].
    exact (add_gain_lengths n _ _ _ _ _ Hb Hd E1).
Qed.

Lemma dict_get_In {V : Type} (d : dict V) (k : string) (v : V) :
  NoDup (dict_keys d) -> In (k, v) d -> dict_get d k = Some v.
Proof.
  induction d as [|[k0 v0] d IH]; intros Hnd Hin; [destruct Hin|].
  inversion Hnd as [|? ? Hnotin Hnd']; subst. cbn [dict_get].
  destruct Hin as [[= -> ->]|Hin]; [now rewrite String.eqb_refl|].
  destruct (String.eqb_spec k0 k) as [->|_]; [|now apply IH].
  exfalso. apply Hnotin. apply (in_map fst) in Hin. exact Hin.
Qed.

(** The frames of a returned table, one per method name. *)
Lemma gain_table_frames (method_names : list string)
    (method_values : list (list (list float))) (est_names : list string)
    (kwargs : dict pyobj) (R : frame index3) :
  efficiency_gain_df method_names method_values est_names kwargs = Ok R ->
  exists adj d itv w tvo vals0,
    py_array_opt (option_value kwargs "adjust_nsamp" PyNone) = Ok adj /\
    py_truth (option_value kwargs "include_true_values" (PyBool false)) = Ok itv /\
    py_truth (option_value kwargs "include_rmse" (PyBool false)) = Ok w /\
    py_array_opt (option_value kwargs "true_values" PyNone) = Ok tvo /\
    (forall v, tvo = Some v -> List.length v = List.length est_names) /\
    (tvo = None -> w = false) /\
    NoDup ("" :: method_names) /\
    dict_keys d = method_names /\
    R = gain_table method_names est_names d itv
          (option_value kwargs "true_values" PyNone) /\
    forall name rs,
      In (name, rs) d <->
      exists i vals,
        nth_error method_names i = Some name /\
        nth_error method_values i = Some vals /\
        (i = 0%nat -> rs = summary_rows (list_df vals est_names) tvo false w) /\
        (i <> 0%nat ->
         add_gains adj (summary_rows (list_df vals0 est_names) tvo false w)
           (summary_rows (list_df vals est_names) tvo false w) (tracked_stats w)
         = Ok rs).
Proof.
  intro HR. apply efficiency_gain_structure in HR
    as (adj & d & itv & w & tvo & n0 & vals0 & Eadj & _ & Eitv & Ew & Etv & Htv & Hnone
        & Hnd & _ & En0 & Ev0 & Hkeys & -> & Hmeth).
  exists adj, d, itv, w, tvo, vals0.
  repeat (split; [assumption|]). split; [reflexivity|].
  assert (Hd : NoDup (dict_keys d)) by (rewrite Hkeys; now inversion Hnd).
  intros name rs. split.
  - intro Hin. pose proof (dict_get_In _ _ _ Hd Hin) as Hget.
    assert (Hn : In name method_names)
      by (rewrite <- Hkeys; apply (in_map fst) in Hin; exact Hin).
    apply In_nth_error in Hn as (i & Hi).
    destruct (Hmeth i name Hi) as (vals & Ev & _ & _ & _ & H0 & Hg).
    exists i, vals. split; [exact Hi|]. split; [exact Ev|]. split.
    + intro E. rewrite (H0 E) in Hget. now injection Hget.
    + intro E. destruct (Hg E) as (gains & Eg & Hget').
      rewrite Hget in Hget'. injection Hget' as <-. exact Eg.
  - intros (i & vals & Hi & Ev & H0 & Hg).
    destruct (Hmeth i name Hi) as (vals' & Ev' & _ & _ & _ & H0' & Hg').
    rewrite Ev in Ev'. injection Ev' as <-.
    assert (Hget : dict_get d name = Some rs).
    { destruct (Nat.eq_dec i 0) as [E|E].
      - rewrite (H0 E). exact (H0' E).
      - destruct (Hg' E) as (gains & Eg & Hget). rewrite (Hg E) in Eg.
        injection Eg as <-. exact Hget. }
    clear - Hget. induction d as [|[k0 v0] d IH]; [discriminate|].
    cbn [dict_get] in Hget. destruct (String.eqb_spec k0 name) as [->|_].
    + injection Hget as <-. now left.
    + right. now apply IH.
Qed.

(** X8.  Every table [efficiency_gain_df] returns has the estimator names
    as its columns, and every row (summaries, gains with or without
    [adjust_nsamp], the true-values row) has one entry per estimator. *)
Theorem efficiency_gain_df_shape (method_names : list string)
    (method_values : list (list (list float))) (est_names : list string)
    (kwargs : dict pyobj) (R : frame index3) :
  efficiency_gain_df method_names method_values est_names kwargs = Ok R ->
  columns R = est_names /\
  Forall (fun kr => List.length (snd kr) = List.length (columns R)) (rows R).
Proof.
  intro HR. apply gain_table_frames in HR
    as (adj & d & itv & w & tvo & vals0 & _ & _ & _ & Etv & Htv & _ & _ & _ & -> & Hd).
  split; [reflexivity|]. cbn [gain_table columns rows].
  assert (Hs : forall vs, Forall (fun kr : index2 * list float =>
                                    List.length (snd kr) = List.length est_names)
                            (summary_rows (list_df vs est_names) tvo false w)).
  { intro vs. exact (summary_rows_lengths (list_df vs est_names) tvo false w Htv). }
  assert (HF : Forall (fun kr : index3 * list float =>
                         List.length (snd kr) = List.length est_names)
                 (flat_map frame_rows3 d)).
  { apply Forall_flat_map, Forall_forall. intros [name rs] Hin.
    apply Hd in Hin as (i & vals & _ & _ & H0 & Hg).
    unfold frame_rows3. cbn [fst snd]. apply Forall_map. cbn [snd].
    destruct (Nat.eq_dec i 0) as [E|E].
    - rewrite (H0 E). apply Hs.
    - exact (add_gains_lengths _ _ _ _ (Hs vals0) _ _ (Hs vals) (Hg E)). }
  eapply Permutation_Forall; [apply sort_index_perm|].
  destruct itv; [|exact HF].
  apply (loc_set_Forall _ (fun r => List.length r = List.length est_names));
    [exact HF|].
  destruct (option_value kwargs "true_values" PyNone); try apply repeat_length.
  apply Htv. cbn in Etv. congruence.
Qed.

(** ** The labels of the efficiency table *)

Section LocKeys.
Context {I : Type} (eqb : I -> I -> bool) (eqb_eq : forall a b, eqb a b = true <-> a = b).

Lemma loc_set_In_keys (rs : list (I * list float)) (k : I) (row : list float) (k' : I) :
  In k' (map fst (loc_set eqb rs k row)) <-> k' = k \/ In k' (map fst rs).
Proof.
  induction rs as [|[k0 r0] rs IH]; cbn [loc_set map fst In].
  - intuition.
  - destruct (eqb k0 k) eqn:E; cbn [map fst In].
    + apply eqb_eq in E. subst k0. intuition.
    + rewrite IH. intuition.
Qed.

Lemma loc_set_NoDup (rs : list (I * list float)) (k : I) (row : list float) :
  NoDup (map fst rs) -> NoDup (map fst (loc_set eqb rs k row)).
Proof.
  induction rs as [|[k0 r0] rs IH]; cbn [loc_set map fst]; intro H.
  - repeat constructor. intros [].
  - inversion H as [|? ? Hnotin Hnd]; subst.
    destruct (eqb k0 k) eqn:E; cbn [map fst]; [exact H|].
    constructor; [|now apply IH].
    rewrite loc_set_In_keys. intros [->|Hin]; [|contradiction].
    assert (eqb k k = true) by now apply eqb_eq. congruence.
Qed.

Lemma loc_None_iff (rs : list (I * list float)) (k : I) :
  loc eqb rs k = None <-> ~ In k (map fst rs).
Proof.
  induction rs as [|[k0 r0] rs IH]; cbn [loc map fst In]; [intuition|].
  destruct (eqb k0 k) eqn:E.
  - apply eqb_eq in E. subst. split; [discriminate | intro H; exfalso; apply H; now left].
  - rewrite IH. split; [|tauto]. intros H [->|Hin]; [|contradiction].
    assert (eqb k k = true) by now apply eqb_eq. congruence.
Qed.
End LocKeys.

Lemma add_gain_In_keys (adjust_nsamp : option (list float))
    (base df df' : list (index2 * list float)) (stat : string) (k : index2) :
  add_gain adjust_nsamp base df stat = Ok df' ->
  In k (map fst df') <->
  In k (map fst df) \/ k = (gain_key stat, "value") \/ k = (gain_key stat, "uncertainty").
Proof.
  unfold add_gain. fold (gain_key stat).
  bind_step bv Ebv. bind_step dv Edv. bind_step bu Ebu. bind_step du Edu.
  destruct adjust_nsamp as [a|].
  - bind_step a0 Ea0. bind_step g Eg. bind_step g' Eg'.
    bind_step gu Egu. bind_step gu' Egu'. intros [= <-].
    rewrite !(loc_set_In_keys _ index2_eqb_eq). tauto.
  - intros [= <-]. rewrite !(loc_set_In_keys _ index2_eqb_eq). tauto.
Qed.

Lemma add_gain_NoDup (adjust_nsamp : option (list float))
    (base df df' : list (index2 * list float)) (stat : string) :
  add_gain adjust_nsamp base df stat = Ok df' ->
  NoDup (map fst df) -> NoDup (map fst df').
Proof.
  unfold add_gain.
  bind_step bv Ebv. bind_step dv Edv. bind_step bu Ebu. bind_step du Edu.
  destruct adjust_nsamp as [a|].
  - bind_step a0 Ea0. bind_step g Eg. bind_step g' Eg'.
    bind_step gu Egu. bind_step gu' Egu'. intros [= <-] H.
    now repeat apply (loc_set_NoDup _ index2_eqb_eq).
  - intros [= <-] H. now repeat apply (loc_set_NoDup _ index2_eqb_eq).
Qed.

Lemma add_gains_keys (adjust_nsamp : option (list float))
    (base : list (index2 * list float)) (stats : list string) :
  forall df df',
    add_gains adjust_nsamp base df stats = Ok df' ->
    (NoDup (map fst df) -> NoDup (map fst df')) /\
    forall k,
      In k (map fst df') <->
      In k (map fst df) \/
      exists stat, In stat stats /\
                   (k = (gain_key stat, "value") \/ k = (gain_key stat, "uncertainty")).
Proof.
  induction stats as [|stat stats IH]; intros df df' H; cbn [add_gains] in H.
  - injection H as <-. split; [auto|]. intro k. split; [auto|].
    intros [Hk|(s & [] & _)]. exact Hk.
  - bind_inv H as df1 E1. destruct (IH _ _ H) as (Hnd & Hk). split.
    + intro Hd. apply Hnd. exact (add_gain_NoDup _ _ _ _ _ E1 Hd).
    + intro k. rewrite Hk, (add_gain_In_keys _ _ _ _ _ k E1). split.
      * intros [[Hdf|Hs]|(s & Hs & Hks)].
        -- now left.
        -- right. exists stat. split; [now left | exact Hs].
        -- right. exists s. split; [now right | exact Hks].
      * intros [Hdf|(s & [<-|Hs] & Hks)].
        -- left. now left.
        -- left. now right.
        -- right. exists s. now split.
Qed.

Lemma summary_rows_In_keys (df : DataFrame) (tvo : option (list float)) (w : bool)
    (c r : string) :
  (forall v, tvo = Some v -> List.length v = shape1 df) ->
  (tvo = None -> w = false) ->
  In (c, r) (map fst (summary_rows df tvo false w)) <->
  In r result_types /\ (c = "mean" \/ c = "std" \/ (c = "rmse" /\ w = true)).
Proof.
  intros Htv Hnone. unfold summary_rows, result_types.
  assert (Hw : w = true ->
               exists v x u, tvo = Some v /\ rmse_rows df v
                             = [(("rmse", "value"), x); (("rmse", "uncertainty"), u)]).
  { intros ->. destruct tvo as [v|]; [|now discriminate Hnone].
    destruct (rmse_and_unc_Ok (values_of df) v (Htv v eq_refl)) as (x & u & E).
    exists v, x, u. split; [reflexivity|]. unfold rmse_rows. now rewrite E. }
  destruct w.
  - destruct (Hw eq_refl) as (v & x & u & -> & ->). cbn iota. cbn [app map fst In]. split.
    + intros [H|[H|[H|[H|[H|[H|[]]]]]]]; injection H as <- <-; tauto.
    + intros [[<-|[<-|[]]] [->|[->|[-> _]]]]; tauto.
  - clear. destruct tvo as [v|]; cbn iota; cbn [app map fst In]; split;
      try (intros [H|[H|[H|[H|[]]]]]; injection H as <- <-; tauto);
      intros [[<-|[<-|[]]] [->|[->|[_ [=]]]]]; tauto.
Qed.

Lemma gain_key_not_summary (stat : string) :
  gain_key stat <> "mean" /\ gain_key stat <> "std" /\ gain_key stat <> "rmse" /\
  gain_key stat <> "true values".
Proof.
  unfold gain_key.
  destruct stat as [|a0 [|a1 [|a2 [|a3 [|a4 [|a5 [|a6 [|a7 [|a8 [|a9 [|a10 [|a11 s]]]]]]]]]]]];
    cbn; repeat split; discriminate.
Qed.

Lemma flat_map_frame_keys (d : dict (list (index2 * list float))) (c m r : string) :
  In (c, m, r) (map fst (flat_map frame_rows3 d)) <->
  exists rs, In (m, rs) d /\ In (c, r) (map fst rs).
Proof.
  rewrite in_map_iff. split.
  - intros ([k row] & E & Hin). cbn [fst] in E. subst k.
    apply in_flat_map in Hin as ([name rs] & Hd & Hin).
    unfold frame_rows3 in Hin. cbn [fst snd] in Hin.
    apply in_map_iff in Hin as ([[c0 r0] row0] & E & Hin). cbn [fst snd] in E.
    injection E as -> -> -> ->. exists rs. split; [exact Hd|].
    apply in_map_iff. exists ((c, r), row). now split.
  - intros (rs & Hd & Hin). apply in_map_iff in Hin as ([[c0 r0] row] & E & Hin).
    cbn [fst] in E. injection E as -> ->.
    exists ((c, m, r), row). split; [reflexivity|].
    apply in_flat_map. exists (m, rs). split; [exact Hd|].
    unfold frame_rows3. cbn [fst snd]. apply in_map_iff.
    exists ((c, r), row). now split.
Qed.

Lemma NoDup_map_injective {A B : Type} (f : A -> B) (l : list A) :
  (forall x y, f x = f y -> x = y) -> NoDup l -> NoDup (map f l).
Proof.
  intros Hf. induction 1 as [|x l Hx Hl IH]; cbn [map]; constructor; [|exact IH].
  intro Hin. apply in_map_iff in Hin as (y & E & Hy). apply Hf in E. now subst.
Qed.

Lemma flat_map_frame_NoDup (d : dict (list (index2 * list float))) :
  NoDup (dict_keys d) ->
  (forall name rs, In (name, rs) d -> NoDup (map fst rs)) ->
  NoDup (map fst (flat_map frame_rows3 d)).
Proof.
  induction d as [|[name rs] d IH]; intros Hnd Hrs; cbn [flat_map]; [constructor|].
  inversion Hnd as [|? ? Hnotin Hnd']; subst.
  rewrite map_app. apply NoDup_app.
  - unfold frame_rows3. cbn [fst snd]. rewrite map_map. cbn [fst].
    rewrite <- (map_map fst (fun k : index2 => (fst k, name, snd k))).
    apply NoDup_map_injective.
    + intros [c r] [c' r'] [= -> ->]. reflexivity.
    + apply (Hrs name). now left.
  - apply IH; [exact Hnd'|]. intros n rs' Hin. apply (Hrs n). now right.
  - intros [[c m] r] H1 H2.
    rewrite <- (app_nil_r (frame_rows3 (name, rs))) in H1.
    change (frame_rows3 (name, rs) ++ []) with (flat_map frame_rows3 [(name, rs)]) in H1.
    apply flat_map_frame_keys in H1 as (rs1 & [[= <- <-]|[]] & _).
    apply flat_map_frame_keys in H2 as (rs2 & Hin & _).
    apply Hnotin. apply (in_map fst) in Hin. exact Hin.
Qed.

(** The labels of a returned table. *)
Lemma gain_table_keys (method_names : list string)
    (method_values : list (list (list float))) (est_names : list string)
    (kwargs : dict pyobj) (R : frame index3) :
  efficiency_gain_df method_names method_values est_names kwargs = Ok R ->
  exists itv w,
    py_truth (option_value kwargs "include_true_values" (PyBool false)) = Ok itv /\
    py_truth (option_value kwargs "include_rmse" (PyBool false)) = Ok w /\
    NoDup ("" :: method_names) /\
    NoDup (map fst (rows R)) /\
    forall c m r,
      In (c, m, r) (map fst (rows R)) <->
      (itv = true /\ c = "true values" /\ m = "" /\ r = "value") \/
      (exists i,
         nth_error method_names i = Some m /\
         In r result_types /\
         (c = "mean" \/ c = "std" \/ (c = "rmse" /\ w = true) \/
          (i <> 0%nat /\ exists stat, In stat (tracked_stats w) /\ c = gain_key stat))).
Proof.
  intro HR. apply gain_table_frames in HR
    as (adj & d & itv & w & tvo & vals0 & _ & Eitv & Ew & _ & Htv & Hnone & Hnd & Hkeys
        & -> & Hd).
  exists itv, w. repeat (split; [assumption|]).
  assert (Hnd' : NoDup method_names) by now inversion Hnd.
  assert (Hs : forall vs c r,
             In (c, r) (map fst (summary_rows (list_df vs est_names) tvo false w)) <->
             In r result_types /\ (c = "mean" \/ c = "std" \/ (c = "rmse" /\ w = true))).
  { intros vs c r. now apply summary_rows_In_keys. }
  assert (Hframe : forall i name rs c r,
             nth_error method_names i = Some name -> In (name, rs) d ->
             NoDup (map fst rs) /\
             (In (c, r) (map fst rs) <->
              In r result_types /\
              (c = "mean" \/ c = "std" \/ (c = "rmse" /\ w = true) \/
               (i <> 0%nat /\
                exists stat, In stat (tracked_stats w) /\ c = gain_key stat)))).
  { intros i name rs c r Hi Hin.
    apply Hd in Hin as (i' & vals & Hi' & _ & H0 & Hg).
    assert (i' = i).
    { apply (proj1 (NoDup_nth_error method_names) Hnd').
      - apply nth_error_Some. congruence.
      - congruence. }
    subst i'. destruct (Nat.eq_dec i 0) as [E|E].
    - rewrite (H0 E). split; [apply summary_rows_keys|].
      rewrite Hs. split; [tauto|]. intros [Hr [H|[H|[H|[H _]]]]]; tauto.
    - destruct (add_gains_keys _ _ _ _ _ (Hg E)) as (Hn & Hk). split.
      + apply Hn, summary_rows_keys.
      + rewrite Hk, Hs. unfold result_types. cbn [In]. split.
        * intros [[Hr Hc]|(stat & Hin & [[= -> ->]|[= -> ->]])]; [tauto| |];
            (split; [tauto|]; do 3 right; split; [exact E|]; now exists stat).
        * intros [Hr [H|[H|[H|(_ & stat & Hin & ->)]]]]; try tauto.
          right. exists stat. split; [exact Hin|].
          destruct Hr as [<-|[<-|[]]]; tauto. }
  assert (HF : forall c m r,
             In (c, m, r) (map fst (flat_map frame_rows3 d)) <->
             exists i,
               nth_error method_names i = Some m /\
               In r result_types /\
               (c = "mean" \/ c = "std" \/ (c = "rmse" /\ w = true) \/
                (i <> 0%nat /\
                 exists stat, In stat (tracked_stats w) /\ c = gain_key stat))).
  { intros c m r. rewrite flat_map_frame_keys. split.
    - intros (rs & Hin & Hk).
      assert (Hm : In m method_names)
        by (rewrite <- Hkeys; apply (in_map fst) in Hin; exact Hin).
      apply In_nth_error in Hm as (i & Hi). exists i. split; [exact Hi|].
      now apply (Hframe i m rs c r Hi Hin).
    - intros (i & Hi & Hk).
      assert (Hm : In m (dict_keys d)) by (rewrite Hkeys; eapply nth_error_In; eauto).
      apply in_map_iff in Hm as ([m' rs] & E & Hin). cbn [fst] in E. subst m'.
      exists rs. split; [exact Hin|]. now apply (Hframe i m rs c r Hi Hin). }
  assert (HN : NoDup (map fst (flat_map frame_rows3 d))).
  { apply flat_map_frame_NoDup; [now rewrite Hkeys|].
    intros name rs Hin.
    assert (Hm : In name method_names)
      by (rewrite <- Hkeys; apply (in_map fst) in Hin; exact Hin).
    apply In_nth_error in Hm as (i & Hi).
    now apply (Hframe i name rs "" "" Hi Hin). }
  cbn [gain_table rows].
  match goal with
  | |- NoDup (map fst (sort_index ?codes ?X)) /\ _ =>
      pose proof (Permutation_map fst (sort_index_perm codes X)) as HP
  end.
  split.
  - eapply Permutation_NoDup; [exact HP|].
    destruct itv; [|exact HN]. now apply (loc_set_NoDup _ index3_eqb_eq).
  - intros c m r. split.
    + intro Hin. apply (Permutation_in _ (Permutation_sym HP)) in Hin.
      destruct itv.
      * apply (loc_set_In_keys _ index3_eqb_eq) in Hin as [[= -> -> ->]|Hin];
          [left; tauto | right; now apply HF].
      * right. now apply HF.
    + intro H. apply (Permutation_in _ HP).
      destruct H as [(-> & -> & -> & ->)|H].
      * apply (loc_set_In_keys _ index3_eqb_eq). now left.
      * apply HF in H. destruct itv; [|exact H].
        apply (loc_set_In_keys _ index3_eqb_eq). now right.
Qed.

(** X9.  The rows of the efficiency table.  A label (calculation type,
    method, result type) is in the returned table exactly when it is
    ('true values', '', 'value') and [include_true_values] is set, or the
    method is one of [method_names], the result type is 'value' or
    'uncertainty', and the calculation type is 'mean', 'std', 'rmse' (with
    [include_rmse]) or, for a method other than the first, the gain of a
    tracked statistic.  So the first method has no gain rows and no method
    has a 'true values' row. *)
Theorem efficiency_gain_df_index (method_names : list string)
    (method_values : list (list (list float))) (est_names : list string)
    (kwargs : dict pyobj) (R : frame index3) :
  efficiency_gain_df method_names method_values est_names kwargs = Ok R ->
  exists itv w,
    py_truth (option_value kwargs "include_true_values" (PyBool false)) = Ok itv /\
    py_truth (option_value kwargs "include_rmse" (PyBool false)) = Ok w /\
    forall c m r,
      In (c, m, r) (map fst (rows R)) <->
      (itv = true /\ c = "true values" /\ m = "" /\ r = "value") \/
      (exists i,
         nth_error method_names i = Some m /\
         In r result_types /\
         (c = "mean" \/ c = "std" \/ (c = "rmse" /\ w = true) \/
          (i <> 0%nat /\ exists stat, In stat (tracked_stats w) /\ c = gain_key stat))).
Proof.
  intro HR. apply gain_table_keys in HR as (itv & w & Eitv & Ew & _ & _ & H).
  exists itv, w. repeat split; try assumption; now apply H.
Qed.

Lemma efficiency_gain_df_index_witness :
  exists itv w,
    py_truth (option_value [("include_rmse", PyBool false)] "include_true_values"
                (PyBool false)) = Ok itv /\
    py_truth (option_value [("include_rmse", PyBool false)] "include_rmse"
                (PyBool false)) = Ok w /\
    forall c m r,
      In (c, m, r)
         (map fst (rows (returned (efficiency_gain_df ["old"; "new"]
                                     [df_values example_df; [[1; 2]; [2; 5]]%float]
                                     ["a"; "b"] [("include_rmse", PyBool false)])))) <->
      (itv = true /\ c = "true values" /\ m = "" /\ r = "value") \/
      (exists i,
         nth_error ["old"; "new"] i = Some m /\
         In r result_types /\
         (c = "mean" \/ c = "std" \/ (c = "rmse" /\ w = true) \/
          (i <> 0%nat /\ exists stat, In stat (tracked_stats w) /\ c = gain_key stat))).
Proof.
  apply (efficiency_gain_df_index ["old"; "new"]
           [df_values example_df; [[1; 2]; [2; 5]]%float] ["a"; "b"]
           [("include_rmse", PyBool false)]).
  vm_compute. reflexivity.
Defined.

(** X10.  The returned efficiency table is the output of the sort on the
    ordered categoricals: its rows are in increasing order of (position of
    the calculation type in [true values, mean, std, rmse, std efficiency
    gain, rmse efficiency gain], position of the method in
    [''] + method_names, position of the result type in
    [value, uncertainty]); no label occurs twice and every label lies in
    these categories. *)
Theorem efficiency_gain_df_canonical_order (method_names : list string)
    (method_values : list (list (list float))) (est_names : list string)
    (kwargs : dict pyobj) (R : frame index3) :
  efficiency_gain_df method_names method_values est_names kwargs = Ok R ->
  (exists l, rows R = sort_index (gain_codes method_names) l) /\
  sorted_by (gain_codes method_names) (rows R) /\
  NoDup (map fst (rows R)) /\
  Forall (fun k : index3 =>
            In (fst (fst k)) gain_calculation_types /\
            In (snd (fst k)) ("" :: method_names) /\
            In (snd k) result_types)
         (map fst (rows R)).
Proof.
  intro HR. pose proof (gain_table_keys _ _ _ _ _ HR)
    as (itv & w & _ & _ & _ & HN & Hk).
  apply efficiency_gain_inv in HR as (adj & d & itv' & _ & _ & _ & _ & _ & _ & _ & _ & HR).
  assert (Hl : exists l, rows R = sort_index (gain_codes method_names) l).
  { rewrite HR. unfold gain_table. cbn [rows]. eexists. reflexivity. }
  split; [exact Hl|]. split.
  { destruct Hl as (l & ->). apply sort_index_sorted. }
  split; [exact HN|].
  apply Forall_forall. intros [[c m] r] Hin. cbn [fst snd].
  apply Hk in Hin as [(_ & -> & -> & ->)|(i & Hi & Hr & Hc)].
  - cbn. tauto.
  - split; [|split; [right; eapply nth_error_In; eauto | exact Hr]].
    destruct Hc as [->|[->|[[-> _]|(_ & stat & Hs & ->)]]]; try (cbn; tauto).
    unfold tracked_stats in Hs. destruct w; cbn in Hs |- *;
      intuition (subst; cbn; tauto).
Qed.

Lemma efficiency_gain_df_canonical_order_witness :
  sorted_by (gain_codes ["old"; "new"])
    (rows (returned (efficiency_gain_df ["old"; "new"]
                       [df_values example_df; [[1; 2]; [2; 5]]%float] ["a"; "b"]
                       [("true_values", PyArray [0; 0]%float);
                        ("include_true_values", PyBool true);
                        ("include_rmse", PyBool true)]))).
Proof.
  refine (proj1 (proj2 (efficiency_gain_df_canonical_order ["old"; "new"]
                          [df_values example_df; [[1; 2]; [2; 5]]%float] ["a"; "b"]
                          [("true_values", PyArray [0; 0]%float);
                           ("include_true_values", PyBool true);
                           ("include_rmse", PyBool true)] _ _))).
  vm_compute. reflexivity.
Defined.

(** X11.  The true-values row.  A returned table has no row
    ('true values', m, r) other than ('true values', '', 'value'), and that
    one only when [include_true_values] is set; when it is set and
    [true_values] is an array, the row holds [true_values], which has one
    entry per estimator. *)
Theorem true_values_row (method_names : list string)
    (method_values : list (list (list float))) (est_names : list string)
    (kwargs : dict pyobj) (R : frame index3) (include_true_values : bool) :
  efficiency_gain_df method_names method_values est_names kwargs = Ok R ->
  py_truth (option_value kwargs "include_true_values" (PyBool false))
  = Ok include_true_values ->
  (forall m r,
     (include_true_values = true -> (m, r) <> ("", "value")) ->
     loc index3_eqb (rows R) ("true values", m, r) = None) /\
  (include_true_values = true ->
   forall tv,
     option_value kwargs "true_values" PyNone = PyArray tv ->
     List.length tv = List.length est_names /\
     loc index3_eqb (rows R) ("true values", "", "value") = Some tv).
Proof.
  intros HR Eitv. split.
  - intros m r Hmr. apply (loc_None_iff _ index3_eqb_eq).
    apply gain_table_keys in HR as (itv & w & Eitv' & _ & _ & _ & Hk).
    rewrite Eitv in Eitv'. injection Eitv' as <-.
    rewrite Hk. intros [(Ht & _ & -> & ->)|(i & _ & _ & Hc)].
    + now apply (Hmr Ht).
    + destruct Hc as [H|[H|[[H _]|(_ & stat & _ & H)]]]; try discriminate H.
      symmetry in H. now apply gain_key_not_summary in H.
  - intros -> tv Htv.
    apply gain_table_frames in HR
      as (adj & d & itv & w & tvo & vals0 & _ & Eitv' & _ & Etv & Hlen & _ & _ & _ & ->
          & _).
    rewrite Eitv in Eitv'. injection Eitv' as <-.
    rewrite Htv in Etv. injection Etv as <-. split; [now apply Hlen|].
    unfold gain_table. cbn [rows]. rewrite Htv.
    rewrite (loc_sort_index _ _ index3_eqb_eq).
    apply (loc_set_same _ index3_eqb_eq).
Qed.

Lemma true_values_row_witness :
  loc index3_eqb
    (rows (returned (efficiency_gain_df ["old"; "new"]
                       [df_values example_df; [[1; 2]; [2; 5]]%float] ["a"; "b"]
                       [("true_values", PyArray [0; 0]%float);
                        ("include_true_values", PyBool true)])))
    ("true values", "", "value") = Some [0; 0]%float /\
  loc index3_eqb
    (rows (returned (efficiency_gain_df ["old"; "new"]
                       [df_values example_df; [[1; 2]; [2; 5]]%float] ["a"; "b"]
                       [("true_values", PyArray [0; 0]%float);
                        ("include_true_values", PyBool true)])))
    ("true values", "old", "value") = None.
Proof.
  destruct (true_values_row ["old"; "new"]
              [df_values example_df; [[1; 2]; [2; 5]]%float] ["a"; "b"]
              [("true_values", PyArray [0; 0]%float);
               ("include_true_values", PyBool true)]
              (returned (efficiency_gain_df ["old"; "new"]
                           [df_values example_df; [[1; 2]; [2; 5]]%float] ["a"; "b"]
                           [("true_values", PyArray [0; 0]%float);
                            ("include_true_values", PyBool true)]))
              true) as (Hnone & Hsome).
  - vm_compute. reflexivity.
  - reflexivity.
  - split.
    + apply (Hsome eq_refl). reflexivity.
    + apply Hnone. intros _. discriminate.
Defined.

(** ** When the efficiency-gain builder returns *)

Lemma method_summary_Ok (vals : list (list float)) (est_names : list string)
    (true_values include_rmse : pyobj) (tvo : option (list float)) (w : bool) :
  py_array_opt true_values = Ok tvo ->
  py_truth include_rmse = Ok w ->
  (forall v, tvo = Some v -> List.length v = List.length est_names) ->
  (tvo = None -> w = false) ->
  vals <> [] -> List.length vals <> 1%nat ->
  Forall (fun arr => List.length arr = List.length est_names) vals ->
  ~ In "result type" est_names ->
  summary_df_from_list vals est_names (method_options true_values include_rmse)
  = Ok {| columns := est_names;
          rows := summary_rows (list_df vals est_names) tvo false w |}.
Proof.
  intros Etv Ew Htv Hnone Hne HN Hall Hrt.
  rewrite summary_df_from_list_eq by assumption.
  apply (summary_df_Ok (list_df vals est_names)); try assumption; try reflexivity.
  intro E. split; [reflexivity | now apply Hnone].
Qed.

(** A table is returned only when no estimator is named 'result type': the
    summary of the first method would raise. *)
Lemma efficiency_gain_columns (method_names : list string)
    (method_values : list (list (list float))) (est_names : list string)
    (kwargs : dict pyobj) (R : frame index3) :
  efficiency_gain_df method_names method_values est_names kwargs = Ok R ->
  ~ In "result type" est_names.
Proof.
  intro HR. apply efficiency_gain_inv in HR
    as (adj & d & itv & _ & _ & _ & _ & Ed & Hd & Hnd & _ & _).
  inversion Hnd as [|? ? _ Hnd']; subst.
  pose proof (method_loop_keys _ _ _ _ _ _ _ _ _ _ Ed Hnd') as Hkeys.
  cbn [dict_keys map app] in Hkeys.
  destruct method_names as [|n0 names] eqn:Enames.
  { destruct d; [contradiction | discriminate Hkeys]. }
  rewrite <- Enames in *.
  assert (E0 : nth_error method_names 0 = Some n0) by now rewrite Enames.
  destruct (method_loop_frames _ _ _ _ _ _ _ _ _ _ Ed Hnd' 0%nat n0 E0)
    as (rs0 & d00 & Hdf0 & _).
  apply method_df_inv in Hdf0 as (vals0 & df0 & _ & Es0 & _).
  apply summary_df_from_list_Ok_inv in Es0 as (_ & _ & Es0).
  exact (summary_df_Ok_columns _ _ _ Es0).
Qed.

Lemma series_imul_Ok_iff (row adjust : list float) :
  (exists r, series_imul row adjust = Ok r) <->
  List.length adjust = List.length row \/ List.length adjust = 1%nat.
Proof.
  unfold series_imul. destruct (Nat.eqb_spec (List.length adjust) (List.length row)).
  - split; [now left | eauto].
  - destruct adjust as [|a [|b adjust]]; cbn [List.length]; split;
      try (intros [r [=]]); try (intros [H|H]; (contradiction || discriminate));
      eauto.
Qed.

Lemma add_gain_Ok_iff (n : nat) (adjust_nsamp : option (list float))
    (base df : list (index2 * list float)) (stat : string) :
  Forall (fun kr => List.length (snd kr) = n) base ->
  Forall (fun kr => List.length (snd kr) = n) df ->
  (forall rt, In rt result_types ->
              loc index2_eqb base (stat, rt) <> None /\
              loc index2_eqb df (stat, rt) <> None) ->
  (exists df', add_gain adjust_nsamp base df stat = Ok df') <->
  adjust_fits adjust_nsamp n.
Proof.
  intros Hb Hd Hrows. unfold add_gain, loc_getitem, adjust_fits.
  destruct (Hrows "value") as (Hbv & Hdv); [now left|].
  destruct (Hrows "uncertainty") as (Hbu & Hdu); [right; now left|].
  destruct (loc index2_eqb base (stat, "value")) as [bv|] eqn:Ebv; [|contradiction].
  destruct (loc index2_eqb df (stat, "value")) as [dv|] eqn:Edv; [|contradiction].
  destruct (loc index2_eqb base (stat, "uncertainty")) as [bu|] eqn:Ebu; [|contradiction].
  destruct (loc index2_eqb df (stat, "uncertainty")) as [du|] eqn:Edu; [|contradiction].
  cbn [bind].
  pose proof (loc_length _ _ _ _ _ Hb Ebv) as Lbv.
  pose proof (loc_length _ _ _ _ _ Hb Ebu) as Lbu.
  pose proof (loc_length _ _ _ _ _ Hd Edv) as Ldv.
  pose proof (loc_length _ _ _ _ _ Hd Edu) as Ldu.
  destruct adjust_nsamp as [a|].
  2:{ split; [intros _ a [=] | eauto]. }
  rewrite index2_loc_set_other, index2_loc_set_same by (intros [=]). cbn [bind].
  assert (Lg : List.length (map Np.square (map2 PrimFloat.div bv dv)) = n)
    by (rewrite length_map; now apply length_map2_eq).
  assert (Lu : List.length
                 (map2 PrimFloat.mul (map (PrimFloat.mul 2) (map2 PrimFloat.div bv dv))
                    (array_ratio_std bv bu dv du)) = n).
  { apply length_map2_eq; [rewrite length_map; now apply length_map2_eq|].
    now apply array_ratio_std_length. }
  destruct a as [|a0 a]; cbn [list_getitem nth_error bind tl].
  { split; [intros [df' [=]] | intro H; now destruct (H [] eq_refl)]. }
  split.
  - intros [df' H] a' [= <-]. split; [discriminate|]. cbn [tl].
    destruct (series_imul (map Np.square (map2 PrimFloat.div bv dv))
                (map (fun x => (a0 / x)%float) a)) as [g|] eqn:Eg; [|discriminate].
    assert (Hex : exists r, series_imul (map Np.square (map2 PrimFloat.div bv dv))
                              (map (fun x => (a0 / x)%float) a) = Ok r) by eauto.
    apply series_imul_Ok_iff in Hex. rewrite length_map, Lg in Hex. exact Hex.
  - intro H. destruct (H _ eq_refl) as (_ & Hfit). cbn [tl] in Hfit.
    destruct (proj2 (series_imul_Ok_iff (map Np.square (map2 PrimFloat.div bv dv))
                       (map (fun x => (a0 / x)%float) a))) as (g & Eg).
    { rewrite length_map, Lg. exact Hfit. }
    rewrite Eg. cbn [bind].
    destruct (proj2 (series_imul_Ok_iff
                       (map2 PrimFloat.mul
                          (map (PrimFloat.mul 2) (map2 PrimFloat.div bv dv))
                          (array_ratio_std bv bu dv du))
                       (map (fun x => (a0 / x)%float) a))) as (gu & Egu).
    { rewrite length_map, Lu. exact Hfit. }
    rewrite index2_loc_set_other, index2_loc_set_same by (intros [=]).
    cbn [bind]. rewrite Egu. cbn [bind]. eauto.
Qed.

Lemma summary_rows_stat (df : DataFrame) (tvo : option (list float)) (w : bool)
    (stat rt : string) :
  (forall v, tvo = Some v -> List.length v = shape1 df) ->
  (tvo = None -> w = false) ->
  In stat (tracked_stats w) -> In rt result_types ->
  loc index2_eqb (summary_rows df tvo false w) (stat, rt) <> None.
Proof.
  intros Htv Hnone Hs Hrt H.
  apply (loc_None_iff _ index2_eqb_eq) in H. apply H.
  apply summary_rows_In_keys; try assumption. split; [exact Hrt|].
  unfold tracked_stats in Hs. destruct w; cbn in Hs; intuition.
Qed.

Lemma add_gains_Ok_iff (n : nat) (adjust_nsamp : option (list float))
    (base df : list (index2 * list float)) (w : bool) :
  Forall (fun kr => List.length (snd kr) = n) base ->
  Forall (fun kr => List.length (snd kr) = n) df ->
  (forall stat rt, In stat (tracked_stats w) -> In rt result_types ->
                   loc index2_eqb base (stat, rt) <> None /\
                   loc index2_eqb df (stat, rt) <> None) ->
  (exists gains, add_gains adjust_nsamp base df (tracked_stats w) = Ok gains) <->
  adjust_fits adjust_nsamp n.
Proof.
  intros Hb Hd Hrows.
  assert (Hstd : (exists df', add_gain adjust_nsamp base df "std" = Ok df') <->
                 adjust_fits adjust_nsamp n).
  { apply add_gain_Ok_iff; try assumption. intros rt Hrt. apply Hrows; [now left|exact Hrt]. }
  unfold tracked_stats in *. cbn [add_gains]. split.
  - intros [gains H]. bind_inv H as df1 E1. apply Hstd. eauto.
  - intro Hfit. destruct (proj2 Hstd Hfit) as (df1 & E1). rewrite E1. cbn [bind].
    destruct w; cbn [add_gains]; [|eauto].
    assert (Hrmse : forall rt, In rt result_types ->
                      loc index2_eqb base ("rmse", rt) <> None /\
                      loc index2_eqb df1 ("rmse", rt) <> None).
    { intros rt Hrt. destruct (Hrows "rmse" rt) as (Hb' & Hd'); [right; now left|exact Hrt|].
      split; [exact Hb'|].
      rewrite (add_gain_loc_other _ _ _ _ _ ("rmse", rt) E1); [exact Hd'|].
      cbn. intros [=]. }
    destruct (proj2 (add_gain_Ok_iff n adjust_nsamp base df1 "rmse" Hb
                       (add_gain_lengths n _ _ _ _ _ Hb Hd E1) Hrmse) Hfit)
      as (df2 & E2).
    rewrite E2. cbn [bind]. eauto.
Qed.

Section GainLoopForward.
Variables (method_names : list string) (method_values : list (list (list float)))
          (est_names : list string)
          (true_values include_rmse : pyobj) (adjust_nsamp : option (list float))
          (tvo : option (list float)) (w : bool) (n0 : string)
          (vals0 : list (list float)).
Hypotheses (Etv : py_array_opt true_values = Ok tvo)
           (Ew : py_truth include_rmse = Ok w)
           (Htv : forall v, tvo = Some v -> List.length v = List.length est_names)
           (Hnone : tvo = None -> w = false)
           (En0 : nth_error method_names 0 = Some n0)
           (Hfit : adjust_fits adjust_nsamp (List.length est_names))
           (Hrt : ~ In "result type" est_names).

Lemma method_loop_Ok (rest : list string) :
  forall (i : nat) (d : dict (list (index2 * list float))),
    i <> 0%nat -> ~ In n0 rest ->
    dict_get d n0 = Some (summary_rows (list_df vals0 est_names) tvo false w) ->
    (forall j, (j < List.length rest)%nat ->
               exists vals,
                 nth_error method_values (i + j) = Some vals /\
                 vals <> [] /\ List.length vals <> 1%nat /\
                 Forall (fun arr => List.length arr = List.length est_names) vals) ->
    exists d',
      method_loop method_names method_values est_names true_values include_rmse
        adjust_nsamp i rest d = Ok d'.
Proof.
  induction rest as [|name rest IH]; intros i d Hi Hn0 Hget Hvals; cbn [method_loop].
  - eauto.
  - destruct (Hvals 0%nat) as (vals & Ev & Hne & HN & Hall); [cbn; lia|].
    rewrite Nat.add_0_r in Ev.
    unfold method_df, list_getitem, dict_getitem. rewrite Ev. cbn [bind].
    fold (method_options true_values include_rmse).
    rewrite (method_summary_Ok vals est_names true_values include_rmse tvo w)
      by assumption.
    cbn [bind rows]. apply Nat.eqb_neq in Hi. rewrite Hi, Ew, En0. cbn [bind].
    rewrite Hget. cbn [bind]. fold (tracked_stats w).
    assert (Hs : forall vs, Forall (fun kr : index2 * list float =>
                                      List.length (snd kr) = List.length est_names)
                              (summary_rows (list_df vs est_names) tvo false w)).
    { intro vs. exact (summary_rows_lengths (list_df vs est_names) tvo false w Htv). }
    destruct (proj2 (add_gains_Ok_iff (List.length est_names) adjust_nsamp
                       (summary_rows (list_df vals0 est_names) tvo false w)
                       (summary_rows (list_df vals est_names) tvo false w) w
                       (Hs vals0) (Hs vals)
                       (fun stat rt Hst Hrt =>
                          conj (summary_rows_stat (list_df vals0 est_names) tvo w
                                  stat rt Htv Hnone Hst Hrt)
                               (summary_rows_stat (list_df vals est_names) tvo w
                                  stat rt Htv Hnone Hst Hrt)))
                    Hfit) as (gains & Eg).
    rewrite Eg. cbn [bind]. apply IH.
    + discriminate.
    + intro H. apply Hn0. now right.
    + rewrite dict_get_set_other; [exact Hget|]. intros ->. apply Hn0. now left.
    + intros j Hj. replace (S i + j)%nat with (i + S j)%nat by lia.
      apply Hvals. cbn. lia.
Qed.
End GainLoopForward.

(** X12.  When [efficiency_gain_df] returns.  With distinct estimator names,
    at least one, the call returns a table exactly when: no unexpected
    option is passed; no estimator is named 'result type'; there is at least
    one method; the method names are distinct and none is the empty string;
    there are as many value lists as names; every value list has at least
    two arrays, each with one entry per estimator; [true_values] is [None] or
    an array with one entry per estimator; the flags have a truth value;
    [include_rmse] is not set without [true_values]; and [adjust_nsamp], when
    given, has one entry per method while the number of methods is 1, 2 or
    one more than the number of estimators (otherwise [*= adjust] cannot be
    broadcast against a row).  [include_true_values] without [true_values]
    is not rejected here. *)
Theorem efficiency_gain_df_returns_iff (method_names : list string)
    (method_values : list (list (list float))) (est_names : list string)
    (kwargs : dict pyobj) :
  NoDup est_names -> est_names <> [] ->
  (exists R, efficiency_gain_df method_names method_values est_names kwargs = Ok R) <->
  (unexpected gain_options kwargs = [] /\
   ~ In "result type" est_names /\
   method_names <> [] /\
   NoDup ("" :: method_names) /\
   List.length method_names = List.length method_values /\
   Forall (fun vals =>
             (2 <= List.length vals)%nat /\
             Forall (fun arr => List.length arr = List.length est_names) vals)
          method_values /\
   exists adj tvo itv w,
     py_array_opt (option_value kwargs "adjust_nsamp" PyNone) = Ok adj /\
     py_array_opt (option_value kwargs "true_values" PyNone) = Ok tvo /\
     py_truth (option_value kwargs "include_true_values" (PyBool false)) = Ok itv /\
     py_truth (option_value kwargs "include_rmse" (PyBool false)) = Ok w /\
     (forall v, tvo = Some v -> List.length v = List.length est_names) /\
     (tvo = None -> w = false) /\
     (forall a, adj = Some a ->
                List.length a = List.length method_names /\
                (List.length method_names = 1%nat \/
                 List.length method_names = 2%nat \/
                 List.length method_names = S (List.length est_names)))).
Proof.
  intros _ _.
  assert (Hs : forall tvo w,
             (forall v, tvo = Some v -> List.length v = List.length est_names) ->
             forall vs, Forall (fun kr : index2 * list float =>
                                  List.length (snd kr) = List.length est_names)
                          (summary_rows (list_df vs est_names) tvo false w)).
  { intros tvo w Htv vs.
    exact (summary_rows_lengths (list_df vs est_names) tvo false w Htv). }
  assert (Hrows : forall tvo w vs vs',
             (forall v, tvo = Some v -> List.length v = List.length est_names) ->
             (tvo = None -> w = false) ->
             forall stat rt, In stat (tracked_stats w) -> In rt result_types ->
               loc index2_eqb (summary_rows (list_df vs est_names) tvo false w) (stat, rt)
               <> None /\
               loc index2_eqb (summary_rows (list_df vs' est_names) tvo false w) (stat, rt)
               <> None).
  { intros tvo w vs vs' Htv Hnone stat rt Hst Hrt.
    split; [exact (summary_rows_stat (list_df vs est_names) tvo w stat rt Htv Hnone Hst Hrt)
           | exact (summary_rows_stat (list_df vs' est_names) tvo w stat rt Htv Hnone
                      Hst Hrt)]. }
  split.
  - intros [R HR]. pose proof (efficiency_gain_columns _ _ _ _ _ HR) as Hrt.
    pose proof (efficiency_gain_inv _ _ _ _ _ HR) as (_ & _ & _ & Hu & _).
    apply efficiency_gain_structure in HR
      as (adj & d & itv & w & tvo & n0 & vals0 & Eadj & Hadj & Eitv & Ew & Etv & Htv
          & Hnone & Hnd & Hlen & En0 & Ev0 & Hkeys & _ & Hmeth).
    split; [exact Hu|]. split; [exact Hrt|].
    split; [intros E; rewrite E in En0; discriminate|].
    split; [exact Hnd|]. split; [exact Hlen|]. split.
    + apply Forall_forall. intros vals Hin. apply In_nth_error in Hin as (i & Hi).
      assert (Hlt : (i < List.length method_names)%nat)
        by (rewrite Hlen; apply nth_error_Some; congruence).
      apply nth_error_Some in Hlt.
      destruct (nth_error method_names i) as [name|] eqn:En; [|contradiction].
      destruct (Hmeth i name En) as (vals' & Ev & Hne & HN & Hall & _).
      rewrite Hi in Ev. injection Ev as <-. split; [|exact Hall].
      destruct vals as [|x [|y vals]]; cbn in *; try contradiction; lia.
    + exists adj, tvo, itv, w. repeat (split; [assumption|]).
      intros a ->. split; [now apply Hadj|].
      destruct method_names as [|m0 [|m1 names]]; [discriminate | now left | right].
      destruct (Hmeth 1%nat m1 eq_refl) as (vals & _ & _ & _ & _ & _ & Hg).
      destruct (Hg ltac:(discriminate)) as (gains & Eg & _).
      assert (Hfit : adjust_fits (Some a) (List.length est_names)).
      { apply (add_gains_Ok_iff _ _ _ _ w (Hs tvo w Htv vals0) (Hs tvo w Htv vals)
                 (Hrows tvo w vals0 vals Htv Hnone)).
        eauto. }
      destruct (Hfit a eq_refl) as (_ & Hl).
      pose proof (Hadj a eq_refl) as La. cbn [List.length] in *.
      destruct a as [|a0 a]; [discriminate|]. cbn [tl List.length] in *. lia.
  - intros (Hu & Hrt & Hne & Hnd & Hlen & Hvals & adj & tvo & itv & w & Eadj & Etv & Eitv & Ew
            & Htv & Hnone & Hadj).
    destruct method_names as [|n0 rest] eqn:Enames; [contradiction|].
    rewrite <- Enames in *.
    destruct method_values as [|vals0 vrest] eqn:Evalues;
      [rewrite Enames in Hlen; discriminate|].
    rewrite <- Evalues in *.
    assert (Hgood : forall i vals,
               nth_error method_values i = Some vals ->
               vals <> [] /\ List.length vals <> 1%nat /\
               Forall (fun arr => List.length arr = List.length est_names) vals).
    { intros i vals Hi. apply nth_error_In in Hi.
      rewrite Forall_forall in Hvals. destruct (Hvals vals Hi) as (H2 & Hall).
      repeat split; [intros ->; cbn in H2; lia | lia | exact Hall]. }
    assert (Hnd' : NoDup method_names) by now inversion Hnd.
    assert (Hloop : exists d,
               method_loop method_names method_values est_names
                 (option_value kwargs "true_values" PyNone)
                 (option_value kwargs "include_rmse" (PyBool false)) adj 0
                 method_names [] = Ok d).
    { assert (Hgen : forall l, l = method_names ->
                 exists d,
                   method_loop method_names method_values est_names
                     (option_value kwargs "true_values" PyNone)
                     (option_value kwargs "include_rmse" (PyBool false)) adj 0 l []
                   = Ok d); [|exact (Hgen _ eq_refl)].
      intros l El. rewrite Enames in El. subst l. cbn [method_loop].
      assert (E0 : nth_error method_values 0 = Some vals0) by now rewrite Evalues.
      unfold method_df at 1. unfold list_getitem. rewrite E0.
      cbn [bind]. fold (method_options (option_value kwargs "true_values" PyNone)
                                    (option_value kwargs "include_rmse" (PyBool false))).
      destruct (Hgood 0%nat vals0) as (Hne0 & HN0 & Hall0); [now rewrite Evalues|].
      rewrite (method_summary_Ok vals0 est_names _ _ tvo w) by assumption.
      cbn [bind Nat.eqb rows dict_set].
      destruct rest as [|n1 rest']; [cbn [method_loop]; eauto|].
      apply (method_loop_Ok method_names method_values est_names _ _ adj tvo w n0 vals0);
        try assumption.
      - now rewrite Enames.
      - intros a Ea. destruct (Hadj a Ea) as (La & HM). rewrite Enames in La, HM.
        cbn [List.length] in La, HM. destruct a as [|a0 a]; [discriminate|].
        split; [discriminate|]. cbn [tl List.length] in *. lia.
      - discriminate.
      - rewrite Enames in Hnd'. now inversion Hnd'.
      - cbn [dict_get]. now rewrite String.eqb_refl.
      - intros j Hj.
        assert (Hlt : (1 + j < List.length method_values)%nat).
        { rewrite <- Hlen, Enames. cbn [List.length] in *. lia. }
        apply nth_error_Some in Hlt.
        destruct (nth_error method_values (1 + j)) as [vals|] eqn:Ev; [|contradiction].
        exists vals. split; [reflexivity|]. exact (Hgood _ _ Ev). }
    destruct Hloop as (d & Ed).
    exists (gain_table method_names est_names d itv
              (option_value kwargs "true_values" PyNone)).
    apply (efficiency_gain_Ok _ _ _ _ adj d itv); try assumption.
    + intros a Ea. now apply Hadj.
    + pose proof (method_loop_keys _ _ _ _ _ _ _ _ _ _ Ed Hnd') as Hk.
      cbn [dict_keys map app] in Hk. intros ->. cbn in Hk. congruence.
Qed.

(** ** Cost adjustment with any number of methods *)

Lemma series_imul_nth (row adjust r : list float) (j : nat) :
  series_imul row adjust = Ok r -> (j < List.length row)%nat ->
  nth j r nan
  = (nth j row nan
     * nth (if (List.length adjust =? List.length row)%nat then j else 0%nat) adjust nan)%float.
Proof.
  unfold series_imul. intros H Hj.
  destruct (Nat.eqb_spec (List.length adjust) (List.length row)) as [E|E].
  - injection H as <-. apply nth_map2; [exact Hj | now symmetry].
  - destruct adjust as [|a [|]]; try discriminate. injection H as <-.
    rewrite (nth_indep _ nan ((fun x => (x * a)%float) nan))
      by (now rewrite length_map).
    exact (map_nth (fun x => (x * a)%float) row nan j).
Qed.

Lemma add_gain_adjust_rel (a : list float) (base df df' d0 d1 : list (index2 * list float))
    (stat : string) :
  add_gain None base df stat = Ok d0 ->
  (forall rt, loc index2_eqb df' (stat, rt) = loc index2_eqb df (stat, rt)) ->
  add_gain (Some a) base df' stat = Ok d1 ->
  forall rt, In rt result_types ->
    exists g g',
      loc index2_eqb d0 (gain_key stat, rt) = Some g /\
      series_imul g (map (fun x => (nth 0 a nan / x)%float) (tl a)) = Ok g' /\
      loc index2_eqb d1 (gain_key stat, rt) = Some g'.
Proof.
  unfold add_gain. fold (gain_key stat). intros H Hsame. revert H.
  unfold loc_getitem. rewrite !Hsame.
  destruct (loc index2_eqb base (stat, "value")) as [bv|]; [|intro; discriminate].
  destruct (loc index2_eqb df (stat, "value")) as [dv|]; [|intro; discriminate].
  destruct (loc index2_eqb base (stat, "uncertainty")) as [bu|]; [|intro; discriminate].
  destruct (loc index2_eqb df (stat, "uncertainty")) as [du|]; [|intro; discriminate].
  cbn [bind]. intros [= <-].
  destruct a as [|a0 a]; [intro; discriminate|].
  cbn [list_getitem nth_error bind tl nth].
  rewrite index2_loc_set_other, index2_loc_set_same by (intros [=]). cbn [bind].
  destruct (series_imul (map Np.square (map2 PrimFloat.div bv dv)) _) as [g'|] eqn:Eg;
    [|intro; discriminate].
  cbn [bind]. rewrite index2_loc_set_other, index2_loc_set_same by (intros [=]).
  cbn [bind].
  destruct (series_imul (map2 PrimFloat.mul _ _) _) as [gu'|] eqn:Egu;
    [|intro; discriminate].
  cbn [bind]. intros [= <-]. intros rt [<-|[<-|[]]].
  - exists (map Np.square (map2 PrimFloat.div bv dv)), g'.
    split; [rewrite index2_loc_set_other by (intros [=]); apply index2_loc_set_same|].
    split; [exact Eg|].
    rewrite index2_loc_set_other by (intros [=]). apply index2_loc_set_same.
  - eexists. exists gu'. split; [apply index2_loc_set_same|].
    split; [exact Egu | apply index2_loc_set_same].
Qed.

Lemma add_gains_adjust_rel (a : list float) (base df g0 g1 : list (index2 * list float))
    (w : bool) :
  add_gains None base df (tracked_stats w) = Ok g0 ->
  add_gains (Some a) base df (tracked_stats w) = Ok g1 ->
  forall stat rt, In stat (tracked_stats w) -> In rt result_types ->
    exists g g',
      loc index2_eqb g0 (gain_key stat, rt) = Some g /\
      series_imul g (map (fun x => (nth 0 a nan / x)%float) (tl a)) = Ok g' /\
      loc index2_eqb g1 (gain_key stat, rt) = Some g'.
Proof.
  unfold tracked_stats. cbn [add_gains]. intros H0 H1.
  bind_inv H0 as d0 E0. bind_inv H1 as d1 E1.
  pose proof (add_gain_adjust_rel a base df df d0 d1 "std" E0 (fun _ => eq_refl) E1)
    as Hstd.
  destruct w; cbn [add_gains] in *.
  - bind_inv H0 as e0 F0. bind_inv H1 as e1 F1. injection H0 as <-. injection H1 as <-.
    intros stat rt [<-|[<-|[]]] Hrt.
    + destruct (Hstd rt Hrt) as (g & g' & Hg & Hs & Hg'). exists g, g'.
      rewrite (add_gain_loc_other _ _ _ _ _ (gain_key "std", rt) F0) by (cbn; intros [=]).
      rewrite (add_gain_loc_other _ _ _ _ _ (gain_key "std", rt) F1) by (cbn; intros [=]).
      repeat split; assumption.
    + apply (add_gain_adjust_rel a base d0 d1 e0 e1 "rmse" F0); [|exact F1|exact Hrt].
      intro rt'.
      rewrite (add_gain_loc_other _ _ _ _ _ ("rmse", rt') E0) by (cbn; intros [=]).
      rewrite (add_gain_loc_other _ _ _ _ _ ("rmse", rt') E1) by (cbn; intros [=]).
      reflexivity.
  - injection H0 as <-. injection H1 as <-.
    intros stat rt [<-|[]] Hrt. exact (Hstd rt Hrt).
Qed.

(** X13.  Cost adjustment with any number of methods.  When the call with
    [adjust_nsamp = a] and the call without it both return, every gain row
    (value and uncertainty) of every method other than the first is the
    unadjusted row times [a[0] / a[1:]] taken across the estimator columns:
    with two methods every entry is multiplied by [a[0] / a[1]]; with more,
    entry j is multiplied by [a[0] / a[j + 1]], whichever method the row
    belongs to. *)
Theorem adjust_nsamp_across_columns (method_names : list string)
    (method_values : list (list (list float))) (est_names : list string)
    (kw0 kw1 : dict pyobj) (a : list float) (R0 R1 : frame index3) :
  efficiency_gain_df method_names method_values est_names kw0 = Ok R0 ->
  efficiency_gain_df method_names method_values est_names kw1 = Ok R1 ->
  option_value kw0 "adjust_nsamp" PyNone = PyNone ->
  option_value kw1 "adjust_nsamp" PyNone = PyArray a ->
  (forall k, In k summary_options -> dict_get kw1 k = dict_get kw0 k) ->
  forall i name stat rt,
    nth_error method_names i = Some name ->
    i <> 0%nat ->
    stat = "std" \/
    (stat = "rmse" /\
     py_truth (option_value kw0 "include_rmse" (PyBool false)) = Ok true) ->
    In rt result_types ->
    exists g g1,
      loc index3_eqb (rows R0) (gain_key stat, name, rt) = Some g /\
      loc index3_eqb (rows R1) (gain_key stat, name, rt) = Some g1 /\
      List.length g = List.length est_names /\
      List.length g1 = List.length est_names /\
      forall j, (j < List.length est_names)%nat ->
        nth j g1 nan
        = (nth j g nan
           * (nth 0 a nan
              / nth (if (List.length method_names =? 2)%nat then 1%nat else S j) a nan))%float.
Proof.
  intros HR0 HR1 Hadj0 Hadj1 Hsame i name stat rt Hi Hi0 Hstat Hrt.
  assert (Htv : option_value kw1 "true_values" PyNone
                = option_value kw0 "true_values" PyNone)
    by (apply option_value_same, Hsame; cbn; tauto).
  assert (Hir : option_value kw1 "include_rmse" (PyBool false)
                = option_value kw0 "include_rmse" (PyBool false))
    by (apply option_value_same, Hsame; cbn; tauto).
  apply efficiency_gain_structure in HR0
    as (adj0 & d0 & itv0 & w & tvo & n0 & vals0 & Eadj0 & _ & _ & Ew & Etv & Hlen & _
        & Hnd & _ & _ & Ev0 & Hkeys0 & -> & Hmeth0).
  apply efficiency_gain_structure in HR1
    as (adj1 & d1 & itv1 & w1 & tvo1 & n1 & vals1 & Eadj1 & Hadj & _ & Ew1 & Etv1 & _ & _
        & _ & _ & _ & Ev1 & Hkeys1 & -> & Hmeth1).
  rewrite Hadj0 in Eadj0. injection Eadj0 as <-.
  rewrite Hadj1 in Eadj1. injection Eadj1 as <-.
  rewrite Hir, Ew in Ew1. injection Ew1 as <-.
  rewrite Htv, Etv in Etv1. injection Etv1 as <-.
  rewrite Ev0 in Ev1. injection Ev1 as <-.
  pose proof (tracked_stats_In _ _ _ Ew Hstat) as Hin.
  destruct (tracked_stats_not_gain _ _ Hin) as (_ & _ & Hgk).
  destruct (Hmeth0 i name Hi) as (vals & Ev & _ & _ & _ & _ & Hg0).
  destruct (Hg0 Hi0) as (gains0 & Eg0 & Hget0).
  destruct (Hmeth1 i name Hi) as (vals' & Ev' & _ & _ & _ & _ & Hg1).
  rewrite Ev in Ev'. injection Ev' as <-.
  destruct (Hg1 Hi0) as (gains1 & Eg1 & Hget1).
  destruct (add_gains_adjust_rel a _ _ _ _ _ Eg0 Eg1 stat rt Hin Hrt)
    as (g & g1 & Hg & Hs & Hg').
  assert (Hsum : forall vs, Forall (fun kr : index2 * list float =>
                                      List.length (snd kr) = List.length est_names)
                              (summary_rows (list_df vs est_names) tvo false w)).
  { intro vs. exact (summary_rows_lengths (list_df vs est_names) tvo false w Hlen). }
  pose proof (loc_length _ _ _ _ _
                (add_gains_lengths _ _ _ _ (Hsum vals0) _ _ (Hsum vals) Eg0) Hg) as Lg.
  pose proof (loc_length _ _ _ _ _
                (add_gains_lengths _ _ _ _ (Hsum vals0) _ _ (Hsum vals) Eg1) Hg') as Lg1.
  assert (Hd0 : NoDup (dict_keys d0)) by (rewrite Hkeys0; now inversion Hnd).
  assert (Hd1 : NoDup (dict_keys d1)) by (rewrite Hkeys1; now inversion Hnd).
  exists g, g1. rewrite !gain_table_row by assumption. rewrite Hget0, Hget1.
  repeat (split; [assumption|]).
  intros j Hj. rewrite (series_imul_nth _ _ _ j Hs) by lia.
  f_equal. rewrite length_map, Lg.
  pose proof (Hadj a eq_refl) as La.
  assert (Hfit : List.length (tl a) = List.length est_names \/ List.length (tl a) = 1%nat).
  { assert (Hex : exists r, series_imul g (map (fun x => (nth 0 a nan / x)%float) (tl a))
                            = Ok r) by eauto.
    apply series_imul_Ok_iff in Hex. now rewrite length_map, Lg in Hex. }
  destruct a as [|a0 a]; [destruct method_names; [destruct i|]; discriminate|].
  cbn [tl nth List.length] in *.
  assert (Hk : forall k, (k < List.length a)%nat ->
                 nth k (map (fun x => (a0 / x)%float) a) nan = (a0 / nth k a nan)%float).
  { intros k Hk.
    rewrite (nth_indep _ nan ((fun x => (a0 / x)%float) nan)) by (now rewrite length_map).
    exact (map_nth (fun x => (a0 / x)%float) a nan k). }
  destruct (Nat.eqb_spec (List.length a) (List.length est_names)) as [E|E].
  - rewrite Hk by lia.
    destruct (Nat.eqb_spec (List.length method_names) 2) as [E2|E2]; [|reflexivity].
    assert (j = 0%nat) by lia. now subst j.
  - destruct Hfit as [Hfit|Hfit]; [contradiction|].
    rewrite Hk by lia.
    destruct (Nat.eqb_spec (List.length method_names) 2) as [E2|E2]; [reflexivity|lia].
Qed.

Lemma adjust_nsamp_across_columns_witness :
  exists g g1,
    loc index3_eqb
      (rows (returned (efficiency_gain_df ["old"; "new"; "newer"]
                         [df_values example_df; df_values example_df;
                          df_values example_df] ["a"; "b"] [])))
      ("std efficiency gain", "newer", "value") = Some g /\
    loc index3_eqb
      (rows (returned (efficiency_gain_df ["old"; "new"; "newer"]
                         [df_values example_df; df_values example_df;
                          df_values example_df] ["a"; "b"]
                         [("adjust_nsamp", PyArray [1; 2; 4]%float)])))
      ("std efficiency gain", "newer", "value") = Some g1 /\
    nth 0 g1 nan = (nth 0 g nan * (1 / 2))%float /\
    nth 1 g1 nan = (nth 1 g nan * (1 / 4))%float.
Proof.
  destruct (adjust_nsamp_across_columns ["old"; "new"; "newer"]
              [df_values example_df; df_values example_df; df_values example_df]
              ["a"; "b"] [] [("adjust_nsamp", PyArray [1; 2; 4]%float)]
              [1; 2; 4]%float
              (returned (efficiency_gain_df ["old"; "new"; "newer"]
                           [df_values example_df; df_values example_df;
                            df_values example_df] ["a"; "b"] []))
              (returned (efficiency_gain_df ["old"; "new"; "newer"]
                           [df_values example_df; df_values example_df;
                            df_values example_df] ["a"; "b"]
                           [("adjust_nsamp", PyArray [1; 2; 4]%float)])))
    with (i := 2%nat) (name := "newer") (stat := "std") (rt := "value")
    as (g & g1 & H0 & H1 & _ & _ & Hj).
  - vm_compute. reflexivity.
  - vm_compute. reflexivity.
  - reflexivity.
  - reflexivity.
  - intros k [<-|[<-|[<-|[]]]]; reflexivity.
  - reflexivity.
  - discriminate.
  - left. reflexivity.
  - left. reflexivity.
  - exists g, g1. split; [exact H0|]. split; [exact H1|]. split.
    + apply (Hj 0%nat). cbn. lia.
    + apply (Hj 1%nat). cbn. lia.
Defined.

(** ** Witnesses *)

Lemma summary_df_returns_iff_witness :
  exists t, summary_df example_df (full_options [0; 0]%float) = Ok t.
Proof.
  apply summary_df_returns_iff.
  - repeat constructor.
  - apply uniqueb_NoDup. reflexivity.
  - discriminate.
  - split; [reflexivity|]. split; [cbn; lia|].
    split; [simpl; intros [H|[H|[]]]; discriminate H|].
    exists (Some [0; 0]%float), true, true.
    repeat split; try reflexivity; try discriminate.
    intros v [= <-]. reflexivity.
Defined.

Lemma summary_df_shape_witness :
  columns (returned (summary_df example_df [])) = df_columns example_df /\
  Forall (fun kr => List.length (snd kr)
                    = List.length (columns (returned (summary_df example_df []))))
         (rows (returned (summary_df example_df []))).
Proof.
  apply (summary_df_shape example_df []). vm_compute. reflexivity.
Defined.

Lemma summary_df_rmse_rows_witness :
  exists rmse rmse_unc,
    loc index2_eqb
      (rows (returned (summary_df {| df_columns := ["a"];
                                     df_values := [[3]; [3]; [3]; [5]]%float |}
                                  (full_options [3%float]))))
      ("rmse", "value") = Some rmse /\
    loc index2_eqb
      (rows (returned (summary_df {| df_columns := ["a"];
                                     df_values := [[3]; [3]; [3]; [5]]%float |}
                                  (full_options [3%float]))))
      ("rmse", "uncertainty") = Some rmse_unc /\
    nth 0 rmse nan = 1%float /\ nth 0 rmse_unc nan = 0.5%float.
Proof.
  destruct (summary_df_rmse_rows
              {| df_columns := ["a"]; df_values := [[3]; [3]; [3]; [5]]%float |}
              (full_options [3%float])
              (returned (summary_df {| df_columns := ["a"];
                                       df_values := [[3]; [3]; [3]; [5]]%float |}
                                    (full_options [3%float]))) true)
    as (_ & H).
  - vm_compute. reflexivity.
  - repeat constructor.
  - reflexivity.
  - destruct (H eq_refl) as (tv & rmse & rmse_unc & Etv & _ & Hv & Hu & _ & _ & Hcols & _).
    injection Etv as <-.
    exists rmse, rmse_unc. split; [exact Hv|]. split; [exact Hu|].
    destruct (Hcols 0%nat)
      as (mse & sd & (s & (_ & Hs) & Em) & Er
          & (m & q & (s' & (_ & Hs') & Em') & (_ & Hq) & Esd) & Eu);
      [unfold shape1; simpl; lia|].
    assert (H4 : (4 < 8)%nat) by lia.
    rewrite Eu, Er, Em, Esd, (Hq H4), Em', (Hs H4), (Hs' H4).
    split; vm_compute; reflexivity.
Defined.

Lemma adapters_agree_witness :
  summary_df_from_array
    (transpose {| nd_ncols := 2; nd_rows := df_values example_df |}) ["a"; "b"] 1 []
  = summary_df_from_array {| nd_ncols := 2; nd_rows := df_values example_df |}
      ["a"; "b"] 0 [] /\
  summary_df_from_list (df_values example_df) ["a"; "b"] [] = summary_df example_df [].
Proof.
  split.
  - apply (proj2 (adapters_agree ["a"; "b"] [])); [repeat constructor | simpl; lia].
  - apply (proj1 (adapters_agree ["a"; "b"] []) (df_values example_df)).
    + discriminate.
    + repeat constructor.
Defined.

Lemma efficiency_gain_df_shape_witness :
  columns (returned (efficiency_gain_df ["old"; "new"]
                       [df_values example_df; [[1; 2]; [2; 5]]%float] ["a"; "b"]
                       [("adjust_nsamp", PyArray [1; 2]%float)]))
  = ["a"; "b"] /\
  Forall (fun kr : index3 * list float =>
            List.length (snd kr)
            = List.length
                (columns (returned (efficiency_gain_df ["old"; "new"]
                                      [df_values example_df; [[1; 2]; [2; 5]]%float]
                                      ["a"; "b"]
                                      [("adjust_nsamp", PyArray [1; 2]%float)]))))
         (rows (returned (efficiency_gain_df ["old"; "new"]
                            [df_values example_df; [[1; 2]; [2; 5]]%float] ["a"; "b"]
                            [("adjust_nsamp", PyArray [1; 2]%float)]))).
Proof.
  apply (efficiency_gain_df_shape ["old"; "new"]
           [df_values example_df; [[1; 2]; [2; 5]]%float] ["a"; "b"]
           [("adjust_nsamp", PyArray [1; 2]%float)]).
  vm_compute. reflexivity.
Defined.

Lemma efficiency_gain_df_returns_iff_witness :
  exists R,
    efficiency_gain_df ["old"; "new"; "newer"]
      [df_values example_df; [[1; 2]; [2; 5]]%float; [[0; 1]; [4; 9]]%float]
      ["a"; "b"] [("adjust_nsamp", PyArray [1; 2; 4]%float)] = Ok R.
Proof.
  apply efficiency_gain_df_returns_iff.
  - apply uniqueb_NoDup. reflexivity.
  - discriminate.
  - split; [reflexivity|]. split; [simpl; intros [H|[H|[]]]; discriminate H|].
    split; [discriminate|].
    split; [apply uniqueb_NoDup; reflexivity|]. split; [reflexivity|]. split.
    + repeat constructor.
    + exists (Some [1; 2; 4]%float), None, false, false.
      do 4 (split; [reflexivity|]). split; [discriminate|].
      split; [reflexivity|]. intros a [= <-].
      split; [reflexivity|]. right. right. reflexivity.
Defined.

(** ** The summaries inside the efficiency table *)

(** X14.  The efficiency table contains the summary of each method: for
    every method name, [summary_df_from_list] on its value list with
    [include_true_values=False] and the caller's [true_values] and
    [include_rmse] returns, and the rows 'mean', 'std' and 'rmse' of the
    method in the efficiency table, values and uncertainties, are the rows of
    that summary. *)
Theorem method_rows_are_summary (method_names : list string)
    (method_values : list (list (list float))) (est_names : list string)
    (kwargs : dict pyobj) (R : frame index3) :
  efficiency_gain_df method_names method_values est_names kwargs = Ok R ->
  forall i name,
    nth_error method_names i = Some name ->
    exists vals t,
      nth_error method_values i = Some vals /\
      summary_df_from_list vals est_names
        [("true_values", option_value kwargs "true_values" PyNone);
         ("include_true_values", PyBool false);
         ("include_rmse", option_value kwargs "include_rmse" (PyBool false))]
      = Ok t /\
      forall c r,
        In c ["mean"; "std"; "rmse"] ->
        loc index3_eqb (rows R) (c, name, r) = loc index2_eqb (rows t) (c, r).
Proof.
  intros HR i name Hi. pose proof HR as HR0.
  apply efficiency_gain_structure in HR
    as (adj & d & itv & w & tvo & n0 & vals0 & _ & _ & _ & Ew & Etv & Htv & Hnone & Hnd
        & _ & _ & _ & Hkeys & -> & Hmeth).
  destruct (Hmeth i name Hi) as (vals & Ev & Hne & HN & Hall & H0 & Hg).
  exists vals, {| columns := est_names;
                  rows := summary_rows (list_df vals est_names) tvo false w |}.
  split; [exact Ev|]. split.
  { apply method_summary_Ok; try assumption. exact (efficiency_gain_columns _ _ _ _ _ HR0). }
  intros c r Hc. cbn [rows].
  assert (Hd : NoDup (dict_keys d)) by (rewrite Hkeys; now inversion Hnd).
  rewrite gain_table_row; [|exact Hd|destruct Hc as [<-|[<-|[<-|[]]]]; discriminate].
  destruct (Nat.eq_dec i 0) as [E|E].
  - now rewrite (H0 E).
  - destruct (Hg E) as (gains & Eg & ->).
    apply (add_gains_loc_other _ _ _ _ _ (c, r) Eg). cbn [fst].
    unfold tracked_stats. destruct w; cbn; destruct Hc as [<-|[<-|[<-|[]]]];
      intuition discriminate.
Qed.

Lemma method_rows_are_summary_witness :
  exists vals t,
    nth_error [df_values example_df; [[1; 2]; [2; 5]]%float] 1 = Some vals /\
    summary_df_from_list vals ["a"; "b"]
      [("true_values", PyArray [0; 0]%float); ("include_true_values", PyBool false);
       ("include_rmse", PyBool true)] = Ok t /\
    loc index3_eqb
      (rows (returned (efficiency_gain_df ["old"; "new"]
                         [df_values example_df; [[1; 2]; [2; 5]]%float] ["a"; "b"]
                         [("true_values", PyArray [0; 0]%float);
                          ("include_rmse", PyBool true)])))
      ("rmse", "new", "uncertainty")
    = loc index2_eqb (rows t) ("rmse", "uncertainty").
Proof.
  destruct (method_rows_are_summary ["old"; "new"]
              [df_values example_df; [[1; 2]; [2; 5]]%float] ["a"; "b"]
              [("true_values", PyArray [0; 0]%float); ("include_rmse", PyBool true)]
              (returned (efficiency_gain_df ["old"; "new"]
                           [df_values example_df; [[1; 2]; [2; 5]]%float] ["a"; "b"]
                           [("true_values", PyArray [0; 0]%float);
                            ("include_rmse", PyBool true)])))
    with (i := 1%nat) (name := "new") as (vals & t & Hv & Ht & Hrows).
  - vm_compute. reflexivity.
  - reflexivity.
  - exists vals, t. split; [exact Hv|]. split; [exact Ht|].
    apply Hrows. right. right. now left.
Defined.
